(** * QuizEditor: a shallow embedding of the quiz authoring state machine

    The development follows [src/components/QuizEditor.tsx].  React state
    cells ([useState]) become the fields of one record that every handler
    threads explicitly; a handler that reads an array slot which may be
    [undefined] and then dereferences it returns [None] for the thrown
    [TypeError].  Callback props and [console] calls are recorded in an
    effect log.

    Strings are sequences of code units below 256, so every literal of
    the source (all of them ASCII) denotes itself. *)

From Stdlib Require Import String Ascii List Arith Lia Bool ZArith.
From Stdlib Require DecimalString DecimalNat.
From stdpp Require Import base option list.
Import ListNotations.
Set Warnings "-register-all".
Local Open Scope string_scope.
Local Open Scope list_scope.

(** ** JavaScript strings *)

Module JS.

(** White space and line terminators that [String.prototype.trim]
    strips, among the code units below 256: TAB, LF, VT, FF, CR, SP and
    NBSP. *)
Definition is_white_space (c : ascii) : bool :=
  match nat_of_ascii c with
  | 9 | 10 | 11 | 12 | 13 | 32 | 160 => true
  | _ => false
  end.

Fixpoint trimStart (s : string) : string :=
  match s with
  | EmptyString => EmptyString
  | String c s' => if is_white_space c then trimStart s' else s
  end.

(** [trimEnd] by one right-to-left pass: a white-space unit is dropped
    exactly when everything after it has been dropped. *)
Fixpoint trimEnd (s : string) : string :=
  match s with
  | EmptyString => EmptyString
  | String c s' =>
      match trimEnd s' with
      | EmptyString => if is_white_space c then EmptyString
                       else String c EmptyString
      | t => String c t
      end
  end.

Definition trim (s : string) : string := trimEnd (trimStart s).

(** Strings made of white space only. *)
Fixpoint all_white (s : string) : bool :=
  match s with
  | EmptyString => true
  | String c s' => is_white_space c && all_white s'
  end.

(** [s.length === 0], [!s] on a string. *)
Definition is_empty (s : string) : bool :=
  match s with EmptyString => true | _ => false end.

(** [Array.prototype.join]. *)
Definition join (sep : string) (l : list string) : string :=
  String.concat sep l.

(** [String(n)] and template interpolation of a non-negative integer.
    The integers of this development are the ones a JavaScript number
    holds exactly (below 2^53 in absolute value); those print in plain
    decimal, the exponent form only starts at 10^21. *)
Definition of_nat (n : nat) : string :=
  DecimalString.NilEmpty.string_of_uint (Nat.to_uint n).

(** [String(z)] for an integer of that range. *)
Definition of_Z (z : Z) : string :=
  DecimalString.NilZero.string_of_int (Z.to_int z).

End JS.

(** ** Content blocks

    A BlockNote block as the editor reads it: [type], the optional
    [content] array of inline items, an optional direct [text] property,
    and the optional [id] key whose presence ('id' in block) marks a block
    the editor has touched.  [props] and [children] are carried because
    the template has them. *)

Inductive prop_value :=
| PNum (n : Z)
| PStr (s : string).

Inductive inline :=
| InlineString (s : string)
| InlineObject (text : option string) (itype : string)
               (styles : list (string * bool)).

Inductive block := Block {
  block_id : option string;
  block_type : string;
  block_props : list (string * prop_value);
  block_content : option (list inline);
  block_text : option string;
  block_children : list block
}.

(** [typeof item === 'string' ? item : (item.text || "")] *)
Definition inline_text (item : inline) : string :=
  match item with
  | InlineString s => s
  | InlineObject (Some t) _ _ => t
  | InlineObject None _ _ => ""
  end.

(** [block.content ? block.content.map(...).join("") : ""] *)
Definition content_text (b : block) : string :=
  match block_content b with
  | Some items => JS.join "" (map inline_text items)
  | None => ""
  end.

Definition block_plain_text (b : block) : string :=
  let ty := block_type b in
  if ty =? "paragraph" then content_text b
  else if ty =? "heading" then content_text b
  else if (ty =? "bulletListItem") || (ty =? "numberedListItem")
          || (ty =? "checkListItem") then content_text b
  else if ty =? "codeBlock" then content_text b
  else match block_text b with
       | Some t => t          (* [if (block.text) return block.text] *)
       | None => ""
       end.

Definition extractTextFromBlocks (blocks : list block) : string :=
  match blocks with
  | [] => ""
  | _ => JS.trim (JS.join (String "010" "") (map block_plain_text blocks))
  end.

(** ** Question records *)

Inductive QuestionType := objective | subjective | coding.
Inductive InputType := text_input | code_input | audio_input.
Inductive ResponseType := chat | report.
Inductive EditorTab := tab_question | tab_answer | tab_scorecard | tab_knowledge.
Inductive HighlightField := hl_question | hl_answer | hl_codingLanguage.

(** A scorecard id is a number (persisted on the backend) or a string
    (created in this session); [===] never identifies the two kinds. *)
Inductive ScorecardId :=
| NumId (n : Z)
| StrId (s : string).

Definition ScorecardId_eqb (a b : ScorecardId) : bool :=
  match a, b with
  | NumId x, NumId y => Z.eqb x y
  | StrId x, StrId y => String.eqb x y
  | _, _ => false
  end.

Record CriterionData := {
  crit_name : string;
  crit_description : string;
  crit_minScore : Z;
  crit_maxScore : Z
}.

Record ScorecardTemplate := {
  sc_id : ScorecardId;
  sc_name : string;
  sc_new : bool;
  sc_is_template : bool;
  sc_criteria : list CriterionData
}.

Record QuizQuestionConfig := {
  inputType : InputType;
  responseType : ResponseType;
  questionType : QuestionType;
  correctAnswer : option (list block);
  scorecardData : option ScorecardTemplate;
  knowledgeBaseBlocks : option (list block);
  linkedMaterialIds : option (list string);
  codingLanguages : option (list string)
}.

Record QuizQuestion := {
  q_id : string;
  content : list block;
  config : QuizQuestionConfig
}.

Definition defaultQuestionConfig : QuizQuestionConfig :=
  {| inputType := text_input;
     responseType := chat;
     questionType := objective;
     correctAnswer := None;
     scorecardData := None;
     knowledgeBaseBlocks := Some [];
     linkedMaterialIds := Some [];
     codingLanguages := None |}.

(** ** The knowledge-base payload of save and publish *)

Record KnowledgeBaseContent := {
  kb_blocks : list block;
  kb_linkedMaterialIds : list string
}.

Definition getKnowledgeBaseContent (cfg : QuizQuestionConfig)
  : option KnowledgeBaseContent :=
  let blocks := default [] (knowledgeBaseBlocks cfg) in
  let ids := default [] (linkedMaterialIds cfg) in
  let hasNonEmptyBlocks :=
    (0 <? length blocks)%nat
    && (0 <? String.length (JS.trim (extractTextFromBlocks blocks)))%nat in
  let hasLinkedMaterials := (0 <? length ids)%nat in
  if hasNonEmptyBlocks || hasLinkedMaterials then
    Some {| kb_blocks := if hasNonEmptyBlocks then blocks else [];
            kb_linkedMaterialIds := if hasLinkedMaterials then ids else [] |}
  else None.

(** ** Props, effects and component state *)

Inductive Status := draft | published.

(** An entry of a [Dropdown]: the handlers read [value] and [label]. *)
Record DropdownOption := {
  opt_value : string;
  opt_label : string
}.

(** The props the modelled handlers read.  A callback prop is a flag
    saying whether the parent passed it; its calls go to the effect log.
    [taskId] and [schoolId] are [None] when absent or falsy. *)
Record Props := {
  status : Status;
  taskId : option string;
  schoolId : option string;
  isPreviewMode : bool;
  onChange : bool;
  onValidationError : bool;
  onQuestionChange : bool
}.

(** What a [setTimeout] callback does when it fires. *)
Inductive TimerAction :=
| ClearHighlightedField
| DispatchHighlightCriterion (index : nat) (field : string)
| CallShowErrorMessage (title message : string)
| DeferredOnChange (qs : list QuizQuestion)
| ShowToast (title message : string).

(** Observable calls, oldest first. *)
Inductive Effect :=
| CallOnValidationError (title message : string)
| CallOnChange (qs : list QuizQuestion)
| CallOnQuestionChange (id : string)
| ConsoleError (message : string)
| ConsoleLog (message : string)
| SetTimeout (delay : nat) (action : list TimerAction).

(** The [useState] cells and refs the modelled handlers touch. *)
Record EditorState := {
  questions : list QuizQuestion;
  originalQuestionsRef : list QuizQuestion;
  isLoadingQuestions : bool;
  hasFetchedData : bool;
  schoolScorecards : list ScorecardTemplate;
  isLoadingScorecards : bool;
  currentQuestionIndex : nat;
  showDeleteConfirm : bool;
  activeEditorTab : EditorTab;
  highlightedField : option HighlightField;
  selectedQuestionType : QuestionType;
  selectedCodingLanguages : list DropdownOption;
  effects : list Effect
}.

Definition setQuestions (v : list QuizQuestion) (s : EditorState) : EditorState :=
  {| questions := v;
     originalQuestionsRef := originalQuestionsRef s;
     isLoadingQuestions := isLoadingQuestions s;
     hasFetchedData := hasFetchedData s;
     schoolScorecards := schoolScorecards s;
     isLoadingScorecards := isLoadingScorecards s;
     currentQuestionIndex := currentQuestionIndex s;
     showDeleteConfirm := showDeleteConfirm s;
     activeEditorTab := activeEditorTab s;
     highlightedField := highlightedField s;
     selectedQuestionType := selectedQuestionType s;
     selectedCodingLanguages := selectedCodingLanguages s;
     effects := effects s |}.

Definition setOriginalQuestionsRef (v : list QuizQuestion) (s : EditorState) : EditorState :=
  {| questions := questions s;
     originalQuestionsRef := v;
     isLoadingQuestions := isLoadingQuestions s;
     hasFetchedData := hasFetchedData s;
     schoolScorecards := schoolScorecards s;
     isLoadingScorecards := isLoadingScorecards s;
     currentQuestionIndex := currentQuestionIndex s;
     showDeleteConfirm := showDeleteConfirm s;
     activeEditorTab := activeEditorTab s;
     highlightedField := highlightedField s;
     selectedQuestionType := selectedQuestionType s;
     selectedCodingLanguages := selectedCodingLanguages s;
     effects := effects s |}.

Definition setIsLoadingQuestions (v : bool) (s : EditorState) : EditorState :=
  {| questions := questions s;
     originalQuestionsRef := originalQuestionsRef s;
     isLoadingQuestions := v;
     hasFetchedData := hasFetchedData s;
     schoolScorecards := schoolScorecards s;
     isLoadingScorecards := isLoadingScorecards s;
     currentQuestionIndex := currentQuestionIndex s;
     showDeleteConfirm := showDeleteConfirm s;
     activeEditorTab := activeEditorTab s;
     highlightedField := highlightedField s;
     selectedQuestionType := selectedQuestionType s;
     selectedCodingLanguages := selectedCodingLanguages s;
     effects := effects s |}.

Definition setHasFetchedData (v : bool) (s : EditorState) : EditorState :=
  {| questions := questions s;
     originalQuestionsRef := originalQuestionsRef s;
     isLoadingQuestions := isLoadingQuestions s;
     hasFetchedData := v;
     schoolScorecards := schoolScorecards s;
     isLoadingScorecards := isLoadingScorecards s;
     currentQuestionIndex := currentQuestionIndex s;
     showDeleteConfirm := showDeleteConfirm s;
     activeEditorTab := activeEditorTab s;
     highlightedField := highlightedField s;
     selectedQuestionType := selectedQuestionType s;
     selectedCodingLanguages := selectedCodingLanguages s;
     effects := effects s |}.

Definition setSchoolScorecards (v : list ScorecardTemplate) (s : EditorState) : EditorState :=
  {| questions := questions s;
     originalQuestionsRef := originalQuestionsRef s;
     isLoadingQuestions := isLoadingQuestions s;
     hasFetchedData := hasFetchedData s;
     schoolScorecards := v;
     isLoadingScorecards := isLoadingScorecards s;
     currentQuestionIndex := currentQuestionIndex s;
     showDeleteConfirm := showDeleteConfirm s;
     activeEditorTab := activeEditorTab s;
     highlightedField := highlightedField s;
     selectedQuestionType := selectedQuestionType s;
     selectedCodingLanguages := selectedCodingLanguages s;
     effects := effects s |}.

Definition setIsLoadingScorecards (v : bool) (s : EditorState) : EditorState :=
  {| questions := questions s;
     originalQuestionsRef := originalQuestionsRef s;
     isLoadingQuestions := isLoadingQuestions s;
     hasFetchedData := hasFetchedData s;
     schoolScorecards := schoolScorecards s;
     isLoadingScorecards := v;
     currentQuestionIndex := currentQuestionIndex s;
     showDeleteConfirm := showDeleteConfirm s;
     activeEditorTab := activeEditorTab s;
     highlightedField := highlightedField s;
     selectedQuestionType := selectedQuestionType s;
     selectedCodingLanguages := selectedCodingLanguages s;
     effects := effects s |}.

Definition setCurrentQuestionIndex (v : nat) (s : EditorState) : EditorState :=
  {| questions := questions s;
     originalQuestionsRef := originalQuestionsRef s;
     isLoadingQuestions := isLoadingQuestions s;
     hasFetchedData := hasFetchedData s;
     schoolScorecards := schoolScorecards s;
     isLoadingScorecards := isLoadingScorecards s;
     currentQuestionIndex := v;
     showDeleteConfirm := showDeleteConfirm s;
     activeEditorTab := activeEditorTab s;
     highlightedField := highlightedField s;
     selectedQuestionType := selectedQuestionType s;
     selectedCodingLanguages := selectedCodingLanguages s;
     effects := effects s |}.

Definition setShowDeleteConfirm (v : bool) (s : EditorState) : EditorState :=
  {| questions := questions s;
     originalQuestionsRef := originalQuestionsRef s;
     isLoadingQuestions := isLoadingQuestions s;
     hasFetchedData := hasFetchedData s;
     schoolScorecards := schoolScorecards s;
     isLoadingScorecards := isLoadingScorecards s;
     currentQuestionIndex := currentQuestionIndex s;
     showDeleteConfirm := v;
     activeEditorTab := activeEditorTab s;
     highlightedField := highlightedField s;
     selectedQuestionType := selectedQuestionType s;
     selectedCodingLanguages := selectedCodingLanguages s;
     effects := effects s |}.

Definition setActiveEditorTab (v : EditorTab) (s : EditorState) : EditorState :=
  {| questions := questions s;
     originalQuestionsRef := originalQuestionsRef s;
     isLoadingQuestions := isLoadingQuestions s;
     hasFetchedData := hasFetchedData s;
     schoolScorecards := schoolScorecards s;
     isLoadingScorecards := isLoadingScorecards s;
     currentQuestionIndex := currentQuestionIndex s;
     showDeleteConfirm := showDeleteConfirm s;
     activeEditorTab := v;
     highlightedField := highlightedField s;
     selectedQuestionType := selectedQuestionType s;
     selectedCodingLanguages := selectedCodingLanguages s;
     effects := effects s |}.

Definition setHighlightedField (v : option HighlightField) (s : EditorState) : EditorState :=
  {| questions := questions s;
     originalQuestionsRef := originalQuestionsRef s;
     isLoadingQuestions := isLoadingQuestions s;
     hasFetchedData := hasFetchedData s;
     schoolScorecards := schoolScorecards s;
     isLoadingScorecards := isLoadingScorecards s;
     currentQuestionIndex := currentQuestionIndex s;
     showDeleteConfirm := showDeleteConfirm s;
     activeEditorTab := activeEditorTab s;
     highlightedField := v;
     selectedQuestionType := selectedQuestionType s;
     selectedCodingLanguages := selectedCodingLanguages s;
     effects := effects s |}.

Definition setSelectedQuestionType (v : QuestionType) (s : EditorState) : EditorState :=
  {| questions := questions s;
     originalQuestionsRef := originalQuestionsRef s;
     isLoadingQuestions := isLoadingQuestions s;
     hasFetchedData := hasFetchedData s;
     schoolScorecards := schoolScorecards s;
     isLoadingScorecards := isLoadingScorecards s;
     currentQuestionIndex := currentQuestionIndex s;
     showDeleteConfirm := showDeleteConfirm s;
     activeEditorTab := activeEditorTab s;
     highlightedField := highlightedField s;
     selectedQuestionType := v;
     selectedCodingLanguages := selectedCodingLanguages s;
     effects := effects s |}.

Definition setSelectedCodingLanguages (v : list DropdownOption) (s : EditorState) : EditorState :=
  {| questions := questions s;
     originalQuestionsRef := originalQuestionsRef s;
     isLoadingQuestions := isLoadingQuestions s;
     hasFetchedData := hasFetchedData s;
     schoolScorecards := schoolScorecards s;
     isLoadingScorecards := isLoadingScorecards s;
     currentQuestionIndex := currentQuestionIndex s;
     showDeleteConfirm := showDeleteConfirm s;
     activeEditorTab := activeEditorTab s;
     highlightedField := highlightedField s;
     selectedQuestionType := selectedQuestionType s;
     selectedCodingLanguages := v;
     effects := effects s |}.

Definition setEffects (v : list Effect) (s : EditorState) : EditorState :=
  {| questions := questions s;
     originalQuestionsRef := originalQuestionsRef s;
     isLoadingQuestions := isLoadingQuestions s;
     hasFetchedData := hasFetchedData s;
     schoolScorecards := schoolScorecards s;
     isLoadingScorecards := isLoadingScorecards s;
     currentQuestionIndex := currentQuestionIndex s;
     showDeleteConfirm := showDeleteConfirm s;
     activeEditorTab := activeEditorTab s;
     highlightedField := highlightedField s;
     selectedQuestionType := selectedQuestionType s;
     selectedCodingLanguages := selectedCodingLanguages s;
     effects := v |}.

Definition emit (e : Effect) (s : EditorState) : EditorState :=
  setEffects (effects s ++ [e]) s.

(** The state of a freshly mounted editor.  [selectedCodingLanguages]
    starts as [[codingLanguageOptions[0]]], the first entry of the
    language table of [dropdownOptions]. *)
Definition initialState (codingLanguageOptions : list DropdownOption)
  : EditorState :=
  {| questions := [];
     originalQuestionsRef := [];
     isLoadingQuestions := true;
     hasFetchedData := false;
     schoolScorecards := [];
     isLoadingScorecards := false;
     currentQuestionIndex := 0;
     showDeleteConfirm := false;
     activeEditorTab := tab_question;
     highlightedField := None;
     selectedQuestionType := objective;
     selectedCodingLanguages := firstn 1 codingLanguageOptions;
     effects := [] |}.

Local Infix "^^" := String.append (at level 60, right associativity).

(** ** Validation *)

Section Validation.

Variable props : Props.

(** [highlightField]: sets the cell and schedules its reset after four
    seconds. *)
Definition highlightField (field : HighlightField) (s : EditorState)
  : EditorState :=
  emit (SetTimeout 4000 [ClearHighlightedField])
       (setHighlightedField (Some field) s).

(** [if (onValidationError) onValidationError(title, message)] *)
Definition notifyValidationError (title message : string)
           (s : EditorState) : EditorState :=
  if onValidationError props
  then emit (CallOnValidationError title message) s
  else s.

Definition is_media_block (b : block) : bool :=
  (block_type b =? "image") || (block_type b =? "audio")
  || (block_type b =? "video").

Definition validateQuestionContent (content : list block) : bool :=
  match content with
  | [] => false
  | _ =>
      let textContent := extractTextFromBlocks content in
      if (0 <? String.length (JS.trim textContent))%nat then true
      else existsb is_media_block content
  end.

Definition validateCorrectAnswer (cfg : QuizQuestionConfig) : bool :=
  match correctAnswer cfg with
  | Some (b :: bs) =>
      let textContent := extractTextFromBlocks (b :: bs) in
      (0 <? String.length (JS.trim textContent))%nat
  | _ => false
  end.

Definition validateScorecard (cfg : QuizQuestionConfig) : bool :=
  match scorecardData cfg with
  | Some sc => (0 <? length (sc_criteria sc))%nat
  | None => false
  end.

(** [!str || str.trim() === ''] *)
Definition is_blank (str : string) : bool :=
  JS.is_empty str || JS.is_empty (JS.trim str).

(** The delayed part of a criterion failure: the highlight event, then
    the error message when [showErrorMessage] was passed. *)
Definition criterionFailure (showErrorMessage : bool)
           (questionIndex : option nat) (index : nat) (field : string)
  : Effect :=
  let suffix := match questionIndex with
                | Some qi => " for question " ^^ JS.of_nat (qi + 1)
                | None => ""
                end in
  SetTimeout 250
    (DispatchHighlightCriterion index field ::
     if showErrorMessage
     then [CallShowErrorMessage "Empty Scorecard Parameter"
             ("Please provide a " ^^ field ^^ " for parameter "
              ^^ JS.of_nat (index + 1) ^^ " in the scorecard" ^^ suffix)]
     else []).

(** The [for] loop of [validateScorecardCriteria] from criterion [i]
    on; [setActiveTab] is the [setActiveEditorTab] the editor passes. *)
Fixpoint validateCriteriaFrom (showErrorMessage : bool)
         (questionIndex : option nat) (i : nat)
         (criteria : list CriterionData) (s : EditorState)
  : bool * EditorState :=
  match criteria with
  | [] => (true, s)
  | criterion :: rest =>
      if is_blank (crit_name criterion) then
        (false, emit (criterionFailure showErrorMessage questionIndex i "name")
                     (setActiveEditorTab tab_scorecard s))
      else if is_blank (crit_description criterion) then
        (false, emit (criterionFailure showErrorMessage questionIndex i
                                       "description")
                     (setActiveEditorTab tab_scorecard s))
      else validateCriteriaFrom showErrorMessage questionIndex (S i) rest s
  end.

Definition validateScorecardCriteria (scorecard : option ScorecardTemplate)
           (showErrorMessage : bool) (questionIndex : option nat)
           (s : EditorState) : bool * EditorState :=
  match scorecard with
  | None => (true, s)
  | Some sc =>
      if negb (sc_new sc) then (true, s)
      else validateCriteriaFrom showErrorMessage questionIndex 0
                                (sc_criteria sc) s
  end.

(** A check either lets the loop body go on, with the state it leaves,
    or makes [validateAllQuestions] return [false]. *)
Definition and_then (r : bool * EditorState)
           (k : EditorState -> bool * EditorState) : bool * EditorState :=
  if fst r then k (snd r) else r.

Definition checkContent (i : nat) (question : QuizQuestion)
           (s : EditorState) : bool * EditorState :=
  if negb (validateQuestionContent (content question)) then
    (false,
     notifyValidationError "Empty Question"
       ("Question " ^^ JS.of_nat (i + 1)
        ^^ " is empty. Please add details to the question")
       (highlightField hl_question
          (setActiveEditorTab tab_question (setCurrentQuestionIndex i s))))
  else (true, s).

Definition checkCodingLanguages (i : nat) (question : QuizQuestion)
           (s : EditorState) : bool * EditorState :=
  match questionType (config question) with
  | coding =>
      match codingLanguages (config question) with
      | Some (_ :: _) =>
          (true, emit (ConsoleLog
                         "question.config.codingLanguages is not empty") s)
      | _ =>
          (false,
           notifyValidationError "Missing Coding Languages"
             ("Question " ^^ JS.of_nat (i + 1)
              ^^ " does not have any programming language selected")
             (highlightField hl_codingLanguage
                (setCurrentQuestionIndex i s)))
      end
  | _ => (true, s)
  end.

Definition checkCorrectAnswer (i : nat) (question : QuizQuestion)
           (s : EditorState) : bool * EditorState :=
  match questionType (config question) with
  | objective | coding =>
      if negb (validateCorrectAnswer (config question)) then
        (false,
         notifyValidationError "Empty Correct Answer"
           ("Question " ^^ JS.of_nat (i + 1)
            ^^ " has no correct answer. Please add a correct answer")
           (highlightField hl_answer
              (setActiveEditorTab tab_answer
                 (setCurrentQuestionIndex i s))))
      else (true, s)
  | subjective => (true, s)
  end.

Definition checkScorecard (i : nat) (question : QuizQuestion)
           (s : EditorState) : bool * EditorState :=
  match questionType (config question) with
  | subjective =>
      if negb (validateScorecard (config question)) then
        (false,
         notifyValidationError "Missing Scorecard"
           ("Question " ^^ JS.of_nat (i + 1)
            ^^ " has no scorecard. Please add a scorecard for evaluating the answer")
           (setActiveEditorTab tab_scorecard
              (setCurrentQuestionIndex i s)))
      else
        match scorecardData (config question) with
        | Some sc =>
            validateScorecardCriteria (Some sc) (onValidationError props)
              (Some i) (setCurrentQuestionIndex i s)
        | None => (true, s)
        end
  | _ => (true, s)
  end.

(** One iteration of the loop over the questions. *)
Definition validateQuestion (i : nat) (question : QuizQuestion)
           (s : EditorState) : bool * EditorState :=
  and_then (checkContent i question s) (fun s1 =>
  and_then (checkCodingLanguages i question s1) (fun s2 =>
  and_then (checkCorrectAnswer i question s2) (fun s3 =>
  checkScorecard i question s3))).

Fixpoint validateQuestionsFrom (i : nat) (qs : list QuizQuestion)
         (s : EditorState) : bool * EditorState :=
  match qs with
  | [] => (true, s)
  | question :: rest =>
      and_then (validateQuestion i question s)
               (validateQuestionsFrom (S i) rest)
  end.

(** [validateAllQuestions], exposed as [validateBeforePublish]. *)
Definition validateAllQuestions (s : EditorState) : bool * EditorState :=
  match questions s with
  | [] =>
      (false,
       notifyValidationError "No Questions"
         "Please add at least one question before publishing" s)
  | qs => validateQuestionsFrom 0 qs s
  end.

End Validation.

(** ** The question template *)

Module Template.

(** [{ text: s, type: "text", styles: {} }] *)
Definition plain (s : string) : inline := InlineObject (Some s) "text" [].

(** [{ text: s, type: "text", styles: { bold: true } }] *)
Definition bold (s : string) : inline :=
  InlineObject (Some s) "text" [("bold", true)].

Definition paragraph (items : list inline) : block :=
  Block None "paragraph" [] (Some items) None [].

Definition heading (level : Z) (s : string) : block :=
  Block None "heading" [("level", PNum level)] (Some [plain s]) None [].

Definition bullet (items : list inline) : block :=
  Block None "bulletListItem" [] (Some items) None [].

Definition nested_bullet (indent : Z) (s : string) (children : list block)
  : block :=
  Block None "bulletListItem" [("indent", PNum indent)] (Some [plain s])
        None children.

Definition empty_paragraph : block := paragraph [plain ""].

Definition commonBlocks : list block :=
  [ heading 2 "Welcome to the Question Editor!";
    paragraph [plain "This is where you will create your question. You can modify this template or remove it to start from scratch."];
    empty_paragraph;
    heading 3 "Question Types";
    paragraph [plain "You can select from these question types:"];
    bullet [bold "Objective"; plain ": For questions with specific correct answers (multiple choice, true/false, etc.)"];
    bullet [bold "Subjective"; plain ": For questions that don't have a single correct answer."];
    bullet [bold "Coding"; plain ": For questions that require learners to write code as their answer"];
    empty_paragraph ].

Definition answerTypeBlocks (questionType : QuestionType) : list block :=
  match questionType with
  | coding => []
  | _ =>
      [ heading 3 "Answer Types";
        paragraph [plain "You can select from these answer types:"];
        bullet [bold "Text"; plain ": Learners need to type their answer"];
        bullet [bold "Audio"; plain ": Learners need to record their answer"];
        empty_paragraph ]
  end.

Definition programmingLanguagesBlocks (questionType : QuestionType)
  : list block :=
  match questionType with
  | coding =>
      [ heading 3 "Programming Languages";
        paragraph [plain "You should select the programming languages learners will use to answer the question. You can select multiple languages from the dropdown."];
        empty_paragraph ]
  | _ => []
  end.

Definition tabsExplanationBlocks (questionType : QuestionType)
  : list block :=
  match questionType with
  | objective =>
      [ heading 3 "Editor Tabs";
        paragraph [plain "The Question Editor has three tabs for this question type:"];
        bullet [bold "Question"; plain ": (Current tab) Where you write the question text"];
        bullet [bold "Correct Answer"; plain ": Where you provide the expected answer for automatic evaluation"];
        bullet [bold "AI Training"; plain ": Where you can add knowledge base content to help AI evaluate learner responses"] ]
  | subjective =>
      [ heading 3 "Editor Tabs";
        paragraph [plain "The Question Editor has three tabs for this question type:"];
        bullet [bold "Question"; plain ": (Current tab) Where you write the question text"];
        bullet [bold "Scorecard"; plain ": Where you define grading criteria for subjective responses"];
        bullet [bold "AI Training"; plain ": Where you can add knowledge base content to help AI evaluate learner responses"] ]
  | coding =>
      [ heading 3 "Editor Tabs";
        paragraph [plain "The Question Editor has three tabs for this question type:"];
        bullet [bold "Question"; plain ": (Current tab) Where you write the question text"];
        bullet [bold "Correct Answer"; plain ": Where you provide the expected code solution"];
        bullet [bold "AI Training"; plain ": Where you can add knowledge base content to help AI evaluate learner code solutions"] ]
  end.

Definition blockTypesBlocks : list block :=
  [ heading 3 "Available Block Types";
    paragraph [plain "Here are some examples of the different types of blocks you can use:"];
    heading 2 "Headings (like this one)";
    bullet [plain "Bullet lists (like this)"];
    Block None "numberedListItem" [] (Some [plain "Numbered lists (like this)"]) None [];
    Block None "checkListItem" [] (Some [plain "Check lists (like this)"]) None [];
    paragraph [plain "Regular paragraphs for your main content"];
    paragraph [plain "Insert images/videos/audio clips by clicking the + icon on the left and selecting Image/Video/Audio"];
    paragraph [plain "Insert code blocks by clicking the + icon on the left and selecting Code Block"];
    empty_paragraph;
    heading 3 "Creating Nested Content";
    paragraph [plain "You can create nested content in two ways:"];
    bullet [plain "Using the Tab key: Simply press Tab while your cursor is on a block to indent it"];
    bullet [plain "Using the side menu: Hover near the left edge of a block, click the menu icon (the button with 6 dots), and drag the block to the desired nested position inside another block"];
    empty_paragraph;
    paragraph [bold "Here is an example of a nested list:"];
    Block None "bulletListItem" [] (Some [plain "Main topic 1"]) None
      [ nested_bullet 1 "Subtopic 1.1 (indented using Tab or side menu)" [];
        nested_bullet 1 "Subtopic 1.2"
          [ nested_bullet 2 "Further nested item (press Tab again to create deeper nesting)" [] ] ];
    empty_paragraph ].

Definition effectiveQuestionsBlocks : list block :=
  [ heading 3 "Writing Effective Questions";
    paragraph [plain "For best results:"];
    bullet [plain "Be clear and specific in your question text"] ].

Definition questionTypeTipsBlocks (questionType : QuestionType)
  : list block :=
  match questionType with
  | subjective =>
      [ bullet [plain "Create a detailed scorecard with clear evaluation criteria or pick one of the templates already provided"] ]
  | coding =>
      [ bullet [plain "Provide a clear problem statement and any constraints or performance requirements"] ]
  | objective =>
      [ bullet [plain "Make sure your correct answer is complete and matches the expected format"] ]
  end.

Definition previewPublishBlocks : list block :=
  [ empty_paragraph;
    heading 3 "Preview and Publishing";
    paragraph [plain "When you're ready to test your quiz:"];
    bullet [bold "Preview Button"; plain ": Lets you see and answer the question exactly as a learner will see it"];
    bullet [bold "Publish Button"; plain ": Makes the quiz available to learners. You can always edit and publish again"];
    empty_paragraph;
    paragraph [plain "Delete this template when you are ready to create your own question!"] ].

Definition getQuestionTemplateBlocks (questionType : QuestionType)
  : list block :=
  commonBlocks
  ++ answerTypeBlocks questionType
  ++ programmingLanguagesBlocks questionType
  ++ tabsExplanationBlocks questionType
  ++ [empty_paragraph]
  ++ blockTypesBlocks
  ++ effectiveQuestionsBlocks
  ++ questionTypeTipsBlocks questionType
  ++ previewPublishBlocks.

End Template.

(** ** The session controller *)

(** [Partial<QuizQuestionConfig>]: the keys an update carries. *)
Record ConfigUpdate := {
  upd_inputType : option InputType;
  upd_responseType : option ResponseType;
  upd_questionType : option QuestionType;
  upd_correctAnswer : option (list block);
  upd_scorecardData : option ScorecardTemplate;
  upd_knowledgeBaseBlocks : option (list block);
  upd_linkedMaterialIds : option (list string);
  upd_codingLanguages : option (list string)
}.

Definition override {A} (new old : option A) : option A :=
  match new with Some _ => new | None => old end.

(** [{ ...config, ...configUpdate }] *)
Definition spreadConfig (cfg : QuizQuestionConfig) (u : ConfigUpdate)
  : QuizQuestionConfig :=
  {| inputType := default (inputType cfg) (upd_inputType u);
     responseType := default (responseType cfg) (upd_responseType u);
     questionType := default (questionType cfg) (upd_questionType u);
     correctAnswer := override (upd_correctAnswer u) (correctAnswer cfg);
     scorecardData := override (upd_scorecardData u) (scorecardData cfg);
     knowledgeBaseBlocks :=
       override (upd_knowledgeBaseBlocks u) (knowledgeBaseBlocks cfg);
     linkedMaterialIds :=
       override (upd_linkedMaterialIds u) (linkedMaterialIds cfg);
     codingLanguages := override (upd_codingLanguages u) (codingLanguages cfg) |}.

Definition withConfig (cfg : QuizQuestionConfig) (q : QuizQuestion)
  : QuizQuestion :=
  {| q_id := q_id q; content := content q; config := cfg |}.

Definition withContent (c : list block) (q : QuizQuestion) : QuizQuestion :=
  {| q_id := q_id q; content := c; config := config q |}.

Definition withScorecardData (sc : option ScorecardTemplate)
           (cfg : QuizQuestionConfig) : QuizQuestionConfig :=
  {| inputType := inputType cfg;
     responseType := responseType cfg;
     questionType := questionType cfg;
     correctAnswer := correctAnswer cfg;
     scorecardData := sc;
     knowledgeBaseBlocks := knowledgeBaseBlocks cfg;
     linkedMaterialIds := linkedMaterialIds cfg;
     codingLanguages := codingLanguages cfg |}.

(** The second argument of [handleConfigChange]. *)
Record ConfigChangeOptions := {
  updateTemplate : option bool;
  newQuestionType : option QuestionType
}.

(** ['id' in block] *)
Definition has_id (b : block) : bool :=
  match block_id b with Some _ => true | None => false end.

Definition Status_eqb (a b : Status) : bool :=
  match a, b with
  | draft, draft | published, published => true
  | _, _ => false
  end.

Definition EditorTab_eqb (a b : EditorTab) : bool :=
  match a, b with
  | tab_question, tab_question | tab_answer, tab_answer
  | tab_scorecard, tab_scorecard | tab_knowledge, tab_knowledge => true
  | _, _ => false
  end.

Definition is_subjective (t : QuestionType) : bool :=
  match t with subjective => true | _ => false end.

Section Controller.

Variable props : Props.

(** The language table of [dropdownOptions], which the editor imports. *)
Variable codingLanguageOptions : list DropdownOption.

(** [if (onChange) onChange(updatedQuestions)] *)
Definition notifyChange (qs : list QuizQuestion) (s : EditorState)
  : EditorState :=
  if onChange props then emit (CallOnChange qs) s else s.

(** [currentQuestionConfig]: the current question's config, or the
    default one when the index points at nothing. *)
Definition currentQuestionConfig (s : EditorState) : QuizQuestionConfig :=
  match questions s !! currentQuestionIndex s with
  | Some q => config q
  | None => defaultQuestionConfig
  end.

(** The template replacement inside [handleConfigChange]. *)
Definition refreshTemplate (options : option ConfigChangeOptions)
           (q : QuizQuestion) : QuizQuestion :=
  match options with
  | Some {| updateTemplate := Some true; newQuestionType := Some ty |} =>
      if Status_eqb (status props) draft then
        let hasUserModifiedContent := existsb has_id (content q) in
        if negb hasUserModifiedContent
        then withContent (Template.getQuestionTemplateBlocks ty) q
        else q
      else q
  | _ => q
  end.

(** [handleConfigChange]; [None] is the [TypeError] of reading [.config]
    of an empty slot. *)
Definition handleConfigChange (configUpdate : ConfigUpdate)
           (options : option ConfigChangeOptions) (s : EditorState)
  : option EditorState :=
  match questions s with
  | [] => Some s
  | _ =>
      match questions s !! currentQuestionIndex s with
      | None => None
      | Some q =>
          let q' := refreshTemplate options
                      (withConfig (spreadConfig (config q) configUpdate) q) in
          let updatedQuestions :=
            <[currentQuestionIndex s := q']> (questions s) in
          Some (notifyChange updatedQuestions
                  (setQuestions updatedQuestions s))
      end
  end.

(** [removeScorecardFromSchoolScoreboards], the confirmed deletion of
    the scorecard shown on the scorecard tab.  The source clears the
    field in place, in the question objects that the old and the new
    array share; the new array is what the state and [onChange] get, and
    that is what the model returns. *)
Definition clearScorecardIfId (id : ScorecardId) (q : QuizQuestion)
  : QuizQuestion :=
  match scorecardData (config q) with
  | Some sc =>
      if ScorecardId_eqb (sc_id sc) id
      then withConfig (withScorecardData None (config q)) q
      else q
  | None => q
  end.

Definition removeScorecardFromSchoolScoreboards (s : EditorState)
  : option EditorState :=
  match questions s !! currentQuestionIndex s with
  | None => None
  | Some q =>
      match scorecardData (config q) with
      | None => Some s
      | Some scorecardForQuestion =>
          let s1 :=
            if sc_new scorecardForQuestion then
              setSchoolScorecards
                (List.filter
                   (fun scorecard =>
                      negb (ScorecardId_eqb (sc_id scorecard)
                                            (sc_id scorecardForQuestion)))
                   (schoolScorecards s)) s
            else s in
          let updatedQuestions :=
            map (clearScorecardIfId (sc_id scorecardForQuestion))
                (questions s) in
          Some (notifyChange updatedQuestions
                  (setQuestions updatedQuestions s1))
      end
  end.

(** [syncLinkedScorecards] *)
Definition syncQuestion (sourceId : string) (newName : option string)
           (newCriteria : option (list CriterionData)) (q : QuizQuestion)
  : QuizQuestion :=
  match scorecardData (config q) with
  | Some sc =>
      match sc_id sc with
      | StrId id =>
          if id =? sourceId then
            let updatedScorecardData :=
              {| sc_id := sc_id sc;
                 sc_name := default (sc_name sc) newName;
                 sc_new := sc_new sc;
                 sc_is_template := sc_is_template sc;
                 sc_criteria := default (sc_criteria sc) newCriteria |} in
            withConfig
              (withScorecardData (Some updatedScorecardData) (config q)) q
          else q
      | NumId _ => q
      end
  | None => q
  end.

Definition syncLinkedScorecards (sourceId : string)
           (newName : option string)
           (newCriteria : option (list CriterionData)) (s : EditorState)
  : EditorState :=
  if JS.is_empty sourceId then s
  else
    let updatedQuestions :=
      map (syncQuestion sourceId newName newCriteria) (questions s) in
    notifyChange updatedQuestions (setQuestions updatedQuestions s).

(** The tab adjustment shared by both navigation handlers. *)
Definition adjustTabFor (nextQuestion : QuizQuestion) (s : EditorState)
  : EditorState :=
  if EditorTab_eqb (activeEditorTab s) tab_scorecard
     && negb (is_subjective (questionType (config nextQuestion)))
  then setActiveEditorTab tab_question s
  else if EditorTab_eqb (activeEditorTab s) tab_answer
          && is_subjective (questionType (config nextQuestion))
  then setActiveEditorTab tab_question s
  else s.

(** What both handlers do once their guard has passed.  When
    [questions[newIndex]] is missing, [nextQuestion.config] is read, and
    the [TypeError] thrown, only behind [activeEditorTab === 'scorecard']
    or [activeEditorTab === 'answer']; on any other tab the pointer is
    set to [newIndex] all the same and [onQuestionChange] is not
    called. *)
Definition moveTo (newIndex : nat) (s : EditorState) : option EditorState :=
  match questions s !! newIndex with
  | None =>
      if EditorTab_eqb (activeEditorTab s) tab_scorecard
         || EditorTab_eqb (activeEditorTab s) tab_answer
      then None
      else Some (setCurrentQuestionIndex newIndex s)
  | Some nextQuestion =>
      let s1 := setCurrentQuestionIndex newIndex (adjustTabFor nextQuestion s) in
      Some (if onQuestionChange props && negb (isPreviewMode props)
            then emit (CallOnQuestionChange (q_id nextQuestion)) s1
            else s1)
  end.

Definition goToPreviousQuestion (s : EditorState) : option EditorState :=
  if (0 <? currentQuestionIndex s)%nat
  then moveTo (currentQuestionIndex s - 1) s
  else Some s.

(** [currentQuestionIndex < questions.length - 1], over the integers. *)
Definition goToNextQuestion (s : EditorState) : option EditorState :=
  if (Z.of_nat (currentQuestionIndex s)
      <? Z.of_nat (length (questions s)) - 1)%Z
  then moveTo (currentQuestionIndex s + 1) s
  else Some s.

(** [deleteQuestion]; [splice(i, 1)] past the end removes nothing. *)
Definition deleteQuestion (s : EditorState) : EditorState :=
  if (length (questions s) <=? 1)%nat then
    notifyChange [] (setShowDeleteConfirm false (setQuestions [] s))
  else
    let updatedQuestions := delete (currentQuestionIndex s) (questions s) in
    let s1 := setQuestions updatedQuestions s in
    let s2 := if (length updatedQuestions <=? currentQuestionIndex s)%nat
              then setCurrentQuestionIndex (length updatedQuestions - 1) s1
              else s1 in
    setShowDeleteConfirm false (notifyChange updatedQuestions s2).

(** [handleQuestionTypeChange]; the dropdown is single-select, an array
    argument is ignored. *)
Definition handleQuestionTypeChange
           (opt : QuestionType + list QuestionType) (s : EditorState)
  : option EditorState :=
  match opt with
  | inr _ => Some s
  | inl newQuestionType =>
      let s1 := setSelectedQuestionType newQuestionType s in
      match
        handleConfigChange
          {| upd_inputType :=
               Some (match newQuestionType with
                     | coding => text_input
                     | _ => inputType (currentQuestionConfig s)
                     end);
             upd_responseType :=
               Some (if is_subjective newQuestionType then report else chat);
             upd_questionType := Some newQuestionType;
             upd_correctAnswer := None;
             upd_scorecardData := None;
             upd_knowledgeBaseBlocks := None;
             upd_linkedMaterialIds := None;
             upd_codingLanguages := None |}
          (Some {| updateTemplate := Some true;
                   newQuestionType := Some newQuestionType |})
          s1
      with
      | None => None
      | Some s2 => Some (setActiveEditorTab tab_question s2)
      end
  end.

(** The pure part of [handleCodingLanguageChange]: the validated
    selection and the message of the notice (empty: no notice). *)
Definition exclusiveLanguages : list string :=
  ["react"; "sql"; "python"; "nodejs"].

Definition is_exclusive (opt : DropdownOption) : bool :=
  existsb (String.eqb (opt_value opt)) exclusiveLanguages.

Definition has_value (v : string) (opts : list DropdownOption) : bool :=
  existsb (fun opt => opt_value opt =? v) opts.

Definition validateLanguageSelection (selectedOptions : list DropdownOption)
  : list DropdownOption * string :=
  let exclusiveSelectedLanguages := List.filter is_exclusive selectedOptions in
  match last exclusiveSelectedLanguages with
  | Some lastExclusiveLanguage =>
      if (1 <? length selectedOptions)%nat then
        ([lastExclusiveLanguage],
         opt_label lastExclusiveLanguage
         ^^ " must be used alone. Other languages cannot be added along with it.")
      else (selectedOptions, "")
  | None =>
      let hasCSS := has_value "css" selectedOptions in
      let hasHTML := has_value "html" selectedOptions in
      if hasCSS && negb hasHTML then
        match List.find (fun opt => opt_value opt =? "html")
                        codingLanguageOptions with
        | Some htmlOption =>
            (selectedOptions ++ [htmlOption],
             "HTML has been automatically selected because CSS requires HTML")
        | None => (selectedOptions, "")
        end
      else (selectedOptions, "")
  end.

Definition handleCodingLanguageChange
           (opt : DropdownOption + list DropdownOption)
           (s : EditorState) : option EditorState :=
  let selectedOptions :=
    match opt with inr opts => opts | inl o => [o] end in
  let '(validatedOptions, invalidMessage) :=
    validateLanguageSelection selectedOptions in
  let s1 := setSelectedCodingLanguages validatedOptions s in
  match
    handleConfigChange
      {| upd_inputType := None; upd_responseType := None;
         upd_questionType := None; upd_correctAnswer := None;
         upd_scorecardData := None; upd_knowledgeBaseBlocks := None;
         upd_linkedMaterialIds := None;
         upd_codingLanguages := Some (map opt_value validatedOptions) |}
      None s1
  with
  | None => None
  | Some s2 =>
      Some (if JS.is_empty invalidMessage then s2
            else emit (SetTimeout 100
                         [ShowToast "Language Selection Updated"
                                    invalidMessage]) s2)
  end.

End Controller.

(** ** Loading

    The mount effect awaits two requests in sequence.  What the backend
    answers is an input: a request either fails ([fetch] rejects, the
    response is not [ok], or its body is not JSON) or yields data. *)

Inductive FetchResult (A : Type) :=
| FetchFailed
| FetchOk (data : A).
Arguments FetchFailed {A}.
Arguments FetchOk {A} data.

Record APICriterion := {
  api_crit_name : string;
  api_crit_description : string;
  api_crit_min_score : Z;
  api_crit_max_score : Z
}.

Record APIScorecard := {
  api_sc_id : Z;
  api_sc_title : string;
  api_sc_criteria : list APICriterion
}.

Record APIContext := {
  ctx_blocks : option (list block);
  ctx_linkedMaterialIds : option (list string)
}.

Record APIQuestionResponse := {
  api_id : Z;
  api_type : QuestionType;
  api_blocks : option (list block);
  api_answer : option (list block);
  api_input_type : option InputType;
  api_response_type : ResponseType;
  api_scorecard_id : option Z;
  api_context : option APIContext;
  api_coding_languages : option (list string)
}.

(** The body of [GET /tasks/:id]: [data.questions] may be missing. *)
Record APITask := {
  api_questions : option (list APIQuestionResponse)
}.

Section Loading.

Variable props : Props.

(** [parseInt] on a string id; the pool handed to [fetchQuestions]
    only holds backend scorecards, whose ids are numbers. *)
Variable parseInt_string : string -> option Z.

Definition parseInt (id : ScorecardId) : option Z :=
  match id with
  | NumId n => Some n
  | StrId s => parseInt_string s
  end.

Definition transformScorecard (scorecard : APIScorecard)
  : ScorecardTemplate :=
  {| sc_id := NumId (api_sc_id scorecard);
     sc_name := api_sc_title scorecard;
     sc_new := false;
     sc_is_template := false;
     sc_criteria :=
       map (fun criterion =>
              {| crit_name := api_crit_name criterion;
                 crit_description := api_crit_description criterion;
                 crit_minScore := api_crit_min_score criterion;
                 crit_maxScore := api_crit_max_score criterion |})
           (api_sc_criteria scorecard) |}.

Definition matchingScorecard (availableScorecards : list ScorecardTemplate)
           (question : APIQuestionResponse) : option ScorecardTemplate :=
  match api_scorecard_id question with
  | Some scorecard_id =>
      if negb (Z.eqb scorecard_id 0)
         && (0 <? length availableScorecards)%nat
      then
        match List.find
                (fun sc => match parseInt (sc_id sc) with
                           | Some n => Z.eqb n scorecard_id
                           | None => false
                           end)
                availableScorecards with
        | Some sc =>
            Some {| sc_id := sc_id sc;
                    sc_name := sc_name sc;
                    sc_new := false;
                    sc_is_template := false;
                    sc_criteria := sc_criteria sc |}
        | None => None
        end
      else None
  | None => None
  end.

Definition questionOfResponse (availableScorecards : list ScorecardTemplate)
           (question : APIQuestionResponse) : QuizQuestion :=
  {| q_id := JS.of_Z (api_id question);
     content := default [] (api_blocks question);
     config :=
       {| inputType := default text_input (api_input_type question);
          responseType := api_response_type question;
          questionType := api_type question;
          correctAnswer :=
            Some (default [Template.paragraph [Template.plain ""]]
                          (api_answer question));
          scorecardData := matchingScorecard availableScorecards question;
          knowledgeBaseBlocks :=
            Some (default []
                    (match api_context question with
                     | Some ctx => ctx_blocks ctx
                     | None => None
                     end));
          linkedMaterialIds :=
            Some (default []
                    (match api_context question with
                     | Some ctx => ctx_linkedMaterialIds ctx
                     | None => None
                     end));
          codingLanguages :=
            Some (default [] (api_coding_languages question)) |} |}.

(** [fetchQuestions(availableScorecards)], given the answer to the
    task request. *)
Definition fetchQuestions (task : FetchResult (option APITask))
           (availableScorecards : list ScorecardTemplate)
           (s : EditorState) : EditorState :=
  match taskId props with
  | Some _ =>
      if negb (hasFetchedData s) then
        let s1 :=
          match task with
          | FetchOk data =>
              let s0 :=
                match data with
                | Some {| api_questions := Some (q :: qs) |} =>
                    let updatedQuestions :=
                      map (questionOfResponse availableScorecards) (q :: qs) in
                    let sq := setQuestions updatedQuestions s in
                    let sn :=
                      if onChange props
                      then emit (SetTimeout 0
                                   [DeferredOnChange updatedQuestions]) sq
                      else sq in
                    setOriginalQuestionsRef updatedQuestions sn
                | _ => s
                end in
              setHasFetchedData true s0
          | FetchFailed =>
              setHasFetchedData true
                (emit (ConsoleError "Error fetching quiz questions:") s)
          end in
        setIsLoadingQuestions false s1
      else setIsLoadingQuestions false s
  | None => setIsLoadingQuestions false s
  end.

(** [fetchSchoolScorecards], the body of the mount effect, given the
    answers to the scorecard request and to the task request. *)
Definition fetchSchoolScorecards
           (scorecards : FetchResult (option (list APIScorecard)))
           (task : FetchResult (option APITask))
           (s : EditorState) : EditorState :=
  match schoolId props with
  | Some _ =>
      let s0 := setIsLoadingScorecards true s in
      let s1 :=
        match scorecards with
        | FetchOk (Some data) =>
            let transformedScorecards := map transformScorecard data in
            fetchQuestions task transformedScorecards
              (setSchoolScorecards transformedScorecards s0)
        | FetchOk None => fetchQuestions task [] s0
        | FetchFailed =>
            emit (ConsoleError "Error fetching school scorecards:") s0
        end in
      setIsLoadingScorecards false s1
  | None => fetchQuestions task [] s
  end.

End Loading.

(** ** Scorecard identity classes *)

Definition isPublishedScorecard (sc : ScorecardTemplate) : bool :=
  negb (sc_new sc) && negb (sc_is_template sc)
  && match sc_id sc with NumId _ => true | StrId _ => false end.

Definition isUserCreatedNewScorecard (sc : ScorecardTemplate) : bool :=
  negb (sc_new sc) && negb (sc_is_template sc)
  && match sc_id sc with StrId _ => true | NumId _ => false end.

Definition isLinkedScorecard (sc : ScorecardTemplate) : bool :=
  isPublishedScorecard sc || isUserCreatedNewScorecard sc.

(** ** The specification's reading of the operations

    The definitions of this module follow the wording of the design
    document, not the code; the theorems below compare the two. *)

Module Spec.

Definition non_blank (s : string) : bool :=
  negb (JS.is_empty (JS.trim s)).

(** Check 2: the extractable text is non-blank or a media block is
    present. *)
Definition content_non_empty (q : QuizQuestion) : bool :=
  non_blank (extractTextFromBlocks (content q))
  || existsb is_media_block (content q).

(** Check 3: [codingLanguages] is non-empty. *)
Definition languages_set (q : QuizQuestion) : bool :=
  match codingLanguages (config q) with
  | Some langs => negb (Nat.eqb (length langs) 0)
  | None => false
  end.

(** Check 4: [correctAnswer] is present with non-blank text. *)
Definition answer_present (q : QuizQuestion) : bool :=
  match correctAnswer (config q) with
  | Some answer => non_blank (extractTextFromBlocks answer)
  | None => false
  end.

(** Check 5, first half: a scorecard with at least one criterion. *)
Definition scorecard_present (q : QuizQuestion) : bool :=
  match scorecardData (config q) with
  | Some sc => (1 <=? length (sc_criteria sc))%nat
  | None => false
  end.

Inductive Check :=
| check_content
| check_languages
| check_answer
| check_scorecard
| check_criterion (index : nat) (field : string).

(** Check 5, second half: the first criterion with a blank name or a
    blank description, and which of the two. *)
Fixpoint first_blank_criterion (k : nat) (criteria : list CriterionData)
  : option Check :=
  match criteria with
  | [] => None
  | c :: rest =>
      if negb (non_blank (crit_name c)) then Some (check_criterion k "name")
      else if negb (non_blank (crit_description c))
      then Some (check_criterion k "description")
      else first_blank_criterion (S k) rest
  end.

Definition is_coding (t : QuestionType) : bool :=
  match t with coding => true | _ => false end.

Definition is_objective (t : QuestionType) : bool :=
  match t with objective => true | _ => false end.

(** The first check a question fails, in the order 2, 3, 4, 5. *)
Definition question_failure (q : QuizQuestion) : option Check :=
  let ty := questionType (config q) in
  if negb (content_non_empty q) then Some check_content
  else if is_coding ty && negb (languages_set q) then Some check_languages
  else if (is_objective ty || is_coding ty) && negb (answer_present q)
  then Some check_answer
  else if is_subjective ty then
    if negb (scorecard_present q) then Some check_scorecard
    else match scorecardData (config q) with
         | Some sc => if sc_new sc
                      then first_blank_criterion 0 (sc_criteria sc)
                      else None
         | None => None
         end
  else None.

Fixpoint first_failure (i : nat) (qs : list QuizQuestion)
  : option (nat * Check) :=
  match qs with
  | [] => None
  | q :: rest =>
      match question_failure q with
      | Some c => Some (i, c)
      | None => first_failure (S i) rest
      end
  end.

Inductive Result :=
| Ok
| NoQuestions
| Failure (questionIndex : nat) (check : Check).

Definition validate (qs : list QuizQuestion) : Result :=
  match qs with
  | [] => NoQuestions
  | _ => match first_failure 0 qs with
         | Some (i, c) => Failure i c
         | None => Ok
         end
  end.

(** The tab a failure makes active; the language check names none. *)
Definition requiredTab (c : Check) : option EditorTab :=
  match c with
  | check_content => Some tab_question
  | check_languages => None
  | check_answer => Some tab_answer
  | check_scorecard | check_criterion _ _ => Some tab_scorecard
  end.

(** Section 4.5: the tabs a question type admits. *)
Definition tab_valid_for (tab : EditorTab) (ty : QuestionType) : bool :=
  match tab with
  | tab_scorecard => is_subjective ty
  | tab_answer => negb (is_subjective ty)
  | tab_question | tab_knowledge => true
  end.

(** The session invariant of sections 3 and 4.5: the index points into
    the sequence and the active tab suits the current question. *)
Definition well_formed (s : EditorState) : Prop :=
  exists q, questions s !! currentQuestionIndex s = Some q
            /\ tab_valid_for (activeEditorTab s)
                             (questionType (config q)) = true.

(** The name of the second editor tab of a question type. *)
Definition second_tab_name (ty : QuestionType) : string :=
  match ty with
  | subjective => "Scorecard"
  | objective | coding => "Correct Answer"
  end.

(** How many questions reference a scorecard id. *)
Definition references (id : ScorecardId) (q : QuizQuestion) : bool :=
  match scorecardData (config q) with
  | Some sc => ScorecardId_eqb (sc_id sc) id
  | None => false
  end.

Definition reference_count (id : ScorecardId) (qs : list QuizQuestion)
  : nat :=
  length (List.filter (references id) qs).

End Spec.

(** The labels a tab list names: the text of the leading bold item of
    each list entry. *)
Definition leading_label (b : block) : option string :=
  match block_content b with
  | Some (InlineObject (Some t) _ [("bold", true)] :: _) => Some t
  | _ => None
  end.

Definition tab_labels (blocks : list block) : list string :=
  omap leading_label blocks.

(** ** The rules of navigation, deletion and language selection, as the
    design document words them *)

Module Rules.





Definition exclusive (opt : DropdownOption) : Prop :=
  In (opt_value opt) ["react"; "sql"; "python"; "nodejs"].

Definition selects (v : string) (selection : list DropdownOption) : Prop :=
  exists opt, In opt selection /\ opt_value opt = v.

(** The exclusivity rule: what is stored for a selection, and whether
    a notice is shown. *)
Definition language_rule (table selection stored : list DropdownOption)
           (notice : bool) : Prop :=
  (* several languages, one of them exclusive: the last exclusive one *)
  ((1 < length selection)%nat
   /\ (exists pre e post,
         selection = pre ++ e :: post
         /\ exclusive e
         /\ Forall (fun o => ~ exclusive o) post
         /\ stored = [e])
   /\ notice = true)
  (* no exclusive language, css without html: html is added *)
  \/ (Forall (fun o => ~ exclusive o) selection
      /\ selects "css" selection /\ ~ selects "html" selection
      /\ (exists html, In html table /\ opt_value html = "html"
                       /\ stored = selection ++ [html])
      /\ notice = true)
  (* anything else is kept *)
  \/ (~ ((1 < length selection)%nat /\ Exists exclusive selection)
      /\ ~ (Forall (fun o => ~ exclusive o) selection
            /\ selects "css" selection /\ ~ selects "html" selection)
      /\ stored = selection
      /\ notice = false).

Definition is_toast (e : Effect) : bool :=
  match e with
  | SetTimeout _ [ShowToast _ _] => true
  | _ => false
  end.

Definition toasts (s : EditorState) : nat :=
  length (List.filter is_toast (effects s)).

End Rules.

(** ** Statements of the design document that the code does not meet *)

Module Stated.

(** Detaching touches the active question only. *)
Definition detach_touches_active_only (props : Props) (s : EditorState)
  : Prop :=
  forall s',
    removeScorecardFromSchoolScoreboards props s = Some s' ->
    forall j, j <> currentQuestionIndex s ->
              questions s' !! j = questions s !! j.


(** A type change replaces pristine content by the new template. *)
Definition type_change_refreshes_pristine (props : Props)
           (ty : QuestionType) (s : EditorState) : Prop :=
  forall q s',
    questions s !! currentQuestionIndex s = Some q ->
    existsb has_id (content q) = false ->
    handleQuestionTypeChange props (inl ty) s = Some s' ->
    exists q', questions s' !! currentQuestionIndex s = Some q'
               /\ content q' = Template.getQuestionTemplateBlocks ty.

End Stated.

(** ** Sample sessions *)

Module Sample.

Definition props_draft : Props :=
  {| status := draft; taskId := Some "42"; schoolId := Some "7";
     isPreviewMode := false; onChange := true;
     onValidationError := true; onQuestionChange := true |}.

Definition props_published : Props :=
  {| status := published; taskId := Some "42"; schoolId := Some "7";
     isPreviewMode := false; onChange := true;
     onValidationError := true; onQuestionChange := true |}.

Definition languages : list DropdownOption :=
  [ {| opt_value := "python"; opt_label := "Python" |};
    {| opt_value := "javascript"; opt_label := "JavaScript" |};
    {| opt_value := "html"; opt_label := "HTML" |};
    {| opt_value := "css"; opt_label := "CSS" |};
    {| opt_value := "react"; opt_label := "React" |};
    {| opt_value := "sql"; opt_label := "SQL" |};
    {| opt_value := "nodejs"; opt_label := "Node.js" |} ].

Definition lang (v label : string) : DropdownOption :=
  {| opt_value := v; opt_label := label |}.

Definition says (t : string) : list block :=
  [Block (Some "b1") "paragraph" [] (Some [Template.plain t]) None []].

Definition image : block :=
  Block (Some "b2") "image" [("url", PStr "https://example.org/a.png")]
        None None [].

Definition criterion (name description : string) : CriterionData :=
  {| crit_name := name; crit_description := description;
     crit_minScore := 1; crit_maxScore := 5 |}.

Definition rubric (id : ScorecardId) (is_new : bool) : ScorecardTemplate :=
  {| sc_id := id; sc_name := "Rubric"; sc_new := is_new;
     sc_is_template := false;
     sc_criteria := [criterion "Clarity" "Is the answer clear?"] |}.

Definition question (id : string) (ty : QuestionType) (c : list block)
           (answer : option (list block)) (sc : option ScorecardTemplate)
           (langs : option (list string)) : QuizQuestion :=
  {| q_id := id; content := c;
     config := {| inputType := text_input;
                  responseType := if is_subjective ty then report else chat;
                  questionType := ty;
                  correctAnswer := answer;
                  scorecardData := sc;
                  knowledgeBaseBlocks := Some [];
                  linkedMaterialIds := Some [];
                  codingLanguages := langs |} |}.

Definition q_objective : QuizQuestion :=
  question "q-1" objective (says "What is 2 + 2?") (Some (says "4"))
           None None.

Definition q_published : QuizQuestion :=
  question "q-2" subjective (says "Explain recursion.") None
           (Some (rubric (NumId 7) false)) None.

Definition q_owner : QuizQuestion :=
  question "q-3" subjective (says "Explain induction.") None
           (Some (rubric (StrId "sc-1") true)) None.

Definition q_linked : QuizQuestion :=
  question "q-4" subjective (says "Explain coinduction.") None
           (Some (rubric (StrId "sc-1") false)) None.

Definition q_bare : QuizQuestion :=
  question "q-5" subjective (says "Explain fixpoints.") None None None.

Definition q_coding : QuizQuestion :=
  question "q-6" coding (says "Reverse a list.") None None
           (Some ["python"]).

Definition q_pristine : QuizQuestion :=
  question "q-8" objective (Template.getQuestionTemplateBlocks objective)
           None None None.

Definition session (qs : list QuizQuestion) (index : nat) (tab : EditorTab)
  : EditorState :=
  setActiveEditorTab tab
    (setCurrentQuestionIndex index
       (setQuestions qs
          (setIsLoadingQuestions false (initialState languages)))).

End Sample.

(** ** The rest of the editor

    The handlers the editor wires to its buttons and exposes on its ref,
    beside those above.  The cells they set that are not in
    [EditorState] (dialog flags, the scorecard title, the animation flag
    and the focus timers) are presentation state and are left out. *)

Inductive TaskType := quiz | exam.

Definition scorecardUpdate (sc : ScorecardTemplate) : ConfigUpdate :=
  {| upd_inputType := None; upd_responseType := None;
     upd_questionType := None; upd_correctAnswer := None;
     upd_scorecardData := Some sc; upd_knowledgeBaseBlocks := None;
     upd_linkedMaterialIds := None; upd_codingLanguages := None |}.

(** The scorecard of [handleCreateNewScorecard]; [uuid] is what
    [crypto.randomUUID()] returns. *)
Definition newScorecardData (uuid : string) : ScorecardTemplate :=
  {| sc_id := StrId uuid;
     sc_name := "New Scorecard";
     sc_new := true;
     sc_is_template := false;
     sc_criteria := [ {| crit_name := ""; crit_description := "";
                         crit_minScore := 1; crit_maxScore := 5 |} ] |}.

(** The scorecard [handleSelectScorecardTemplate] attaches: a fresh copy
    of a built-in template, a reference to anything else. *)
Definition scorecardFromTemplate (uuid : string) (template : ScorecardTemplate)
  : ScorecardTemplate :=
  if sc_is_template template then
    {| sc_id := StrId uuid; sc_name := sc_name template; sc_new := true;
       sc_is_template := false; sc_criteria := sc_criteria template |}
  else
    {| sc_id := sc_id template; sc_name := sc_name template; sc_new := false;
       sc_is_template := false; sc_criteria := sc_criteria template |}.

Definition withName (name : string) (sc : ScorecardTemplate)
  : ScorecardTemplate :=
  {| sc_id := sc_id sc; sc_name := name; sc_new := sc_new sc;
     sc_is_template := sc_is_template sc; sc_criteria := sc_criteria sc |}.

(** A number or a string in a boolean position: [0] and [""] are falsy. *)
Definition id_falsy (id : ScorecardId) : bool :=
  match id with
  | NumId n => Z.eqb n 0
  | StrId x => JS.is_empty x
  end.

(** The payload entries of save and publish. *)
Record SaveQuestion := {
  save_id : string;
  save_blocks : list block;
  save_answer : list block;
  save_coding_languages : list string;
  save_type : QuestionType;
  save_input_type : InputType;
  save_context : option KnowledgeBaseContent
}.

Record PublishScorecard := {
  pub_sc_id : ScorecardId;
  pub_sc_title : string;
  pub_sc_criteria : list APICriterion
}.

Record PublishQuestion := {
  pub_blocks : list block;
  pub_answer : list block;
  pub_input_type : InputType;
  pub_response_type : ResponseType;
  pub_coding_languages : list string;
  pub_type : QuestionType;
  pub_max_attempts : option nat;
  pub_is_feedback_shown : bool;
  pub_scorecard : option PublishScorecard;
  pub_scorecard_id : option ScorecardId;
  pub_context : option KnowledgeBaseContent
}.

(** The entry of [formattedQuestions] in [handleSave]. *)
Definition formatQuestionForSave (question : QuizQuestion) : SaveQuestion :=
  {| save_id := q_id question;
     save_blocks := content question;
     save_answer := default [] (correctAnswer (config question));
     save_coding_languages := default [] (codingLanguages (config question));
     save_type := questionType (config question);
     save_input_type := inputType (config question);
     save_context := getKnowledgeBaseContent (config question) |}.

(** The entry of [formattedQuestions] in [handleConfirmPublish]
    ([generation_model] is always [null]). *)
Definition formatQuestionForPublish (taskType : TaskType)
           (question : QuizQuestion) : PublishQuestion :=
  let scorecardData := scorecardData (config question) in
  {| pub_blocks := content question;
     pub_answer := default [] (correctAnswer (config question));
     pub_input_type := inputType (config question);
     pub_response_type :=
       if is_subjective (questionType (config question)) then report else chat;
     pub_coding_languages := default [] (codingLanguages (config question));
     pub_type := questionType (config question);
     pub_max_attempts := match taskType with exam => Some 1 | quiz => None end;
     pub_is_feedback_shown :=
       match taskType with exam => false | quiz => true end;
     pub_scorecard :=
       match scorecardData with
       | Some sc =>
           if isPublishedScorecard sc then None
           else Some {| pub_sc_id := sc_id sc;
                        pub_sc_title := sc_name sc;
                        pub_sc_criteria :=
                          map (fun criterion =>
                                 {| api_crit_name := crit_name criterion;
                                    api_crit_description :=
                                      crit_description criterion;
                                    api_crit_min_score := crit_minScore criterion;
                                    api_crit_max_score := crit_maxScore criterion |})
                              (sc_criteria sc) |}
       | None => None
       end;
     pub_scorecard_id :=
       match scorecardData with
       | Some sc => if isPublishedScorecard sc then Some (sc_id sc) else None
       | None => None
       end;
     pub_context := getKnowledgeBaseContent (config question) |}.

Section Editor.

Variable props : Props.

(** [handleCreateNewScorecard] *)
Definition handleCreateNewScorecard (uuid : string) (s : EditorState)
  : option EditorState :=
  match handleConfigChange props (scorecardUpdate (newScorecardData uuid))
                           None s with
  | None => None
  | Some s1 =>
      Some (setActiveEditorTab tab_scorecard
              (setSchoolScorecards
                 (schoolScorecards s ++ [newScorecardData uuid]) s1))
  end.

(** [handleSelectScorecardTemplate] *)
Definition handleSelectScorecardTemplate (uuid : string)
           (template : ScorecardTemplate) (s : EditorState)
  : option EditorState :=
  let scorecard := scorecardFromTemplate uuid template in
  let s0 := if sc_new scorecard
            then setSchoolScorecards (schoolScorecards s ++ [scorecard]) s
            else s in
  match handleConfigChange props (scorecardUpdate scorecard) None s0 with
  | None => None
  | Some s1 => Some (setActiveEditorTab tab_scorecard s1)
  end.

(** [handleCorrectAnswerChange] *)
Definition handleCorrectAnswerChange (answer : list block) (s : EditorState)
  : option EditorState :=
  handleConfigChange props
    {| upd_inputType := None; upd_responseType := None;
       upd_questionType := None; upd_correctAnswer := Some answer;
       upd_scorecardData := None; upd_knowledgeBaseBlocks := None;
       upd_linkedMaterialIds := None; upd_codingLanguages := None |}
    None s.

(** [handleAnswerTypeChange]; an array argument is ignored. *)
Definition handleAnswerTypeChange (opt : InputType + list InputType)
           (s : EditorState) : option EditorState :=
  match opt with
  | inr _ => Some s
  | inl ty =>
      handleConfigChange props
        {| upd_inputType := Some ty; upd_responseType := None;
           upd_questionType := None; upd_correctAnswer := None;
           upd_scorecardData := None; upd_knowledgeBaseBlocks := None;
           upd_linkedMaterialIds := None; upd_codingLanguages := None |}
        None s
  end.

(** [addQuestion]; [now] is what [Date.now()] returns. *)
Definition addQuestion (now : nat) (s : EditorState) : EditorState :=
  let '(ty, input, langs) :=
    match last (questions s) with
    | Some previousQuestion =>
        (questionType (config previousQuestion),
         inputType (config previousQuestion),
         match codingLanguages (config previousQuestion) with
         | Some (l :: ls) => l :: ls
         | _ => []
         end)
    | None => (objective, text_input, [])
    end in
  let newQuestion :=
    {| q_id := "question-" ^^ JS.of_nat now;
       content := Template.getQuestionTemplateBlocks ty;
       config :=
         {| inputType := input;
            responseType := responseType defaultQuestionConfig;
            questionType := ty;
            correctAnswer := correctAnswer defaultQuestionConfig;
            scorecardData := scorecardData defaultQuestionConfig;
            knowledgeBaseBlocks := knowledgeBaseBlocks defaultQuestionConfig;
            linkedMaterialIds := linkedMaterialIds defaultQuestionConfig;
            codingLanguages := Some langs |} |} in
  let updatedQuestions := questions s ++ [newQuestion] in
  setActiveEditorTab tab_question
    (notifyChange props updatedQuestions
       (setCurrentQuestionIndex (length updatedQuestions - 1)
          (setQuestions updatedQuestions s))).

(** [handleCancel]: the deep copy through JSON is the value itself. *)
Definition handleCancel (s : EditorState) : EditorState :=
  match originalQuestionsRef s with
  | [] => s
  | original => setQuestions original s
  end.

(** [hasCodingLanguages] *)
Definition hasCodingLanguages (s : EditorState) : bool :=
  match questions s !! currentQuestionIndex s with
  | None => false
  | Some question =>
      match questionType (config question) with
      | coding =>
          match codingLanguages (config question) with
          | Some (_ :: _) => true
          | _ => false
          end
      | _ => true
      end
  end.

(** The effect on [currentQuestionId]: the pointer follows the id the
    parent passes, when a question has it. *)
Fixpoint findIndex (p : QuizQuestion -> bool) (qs : list QuizQuestion)
  : option nat :=
  match qs with
  | [] => None
  | q :: rest => if p q then Some 0
                 else option_map S (findIndex p rest)
  end.

Definition syncCurrentQuestionId (currentQuestionId : option string)
           (s : EditorState) : EditorState :=
  match currentQuestionId, questions s with
  | Some id, _ :: _ =>
      if JS.is_empty id then s
      else match findIndex (fun q => q_id q =? id) (questions s) with
           | Some index => setCurrentQuestionIndex index s
           | None => s
           end
  | _, _ => s
  end.

(** [syncLinkedScorecards] as the scorecard panel calls it: with the id
    of the current scorecard, number or string, and reading the
    [questions] of the render the panel belongs to. *)
Definition syncQuestionWith (sourceId : ScorecardId)
           (newName : option string)
           (newCriteria : option (list CriterionData)) (q : QuizQuestion)
  : QuizQuestion :=
  match sourceId with
  | StrId id => syncQuestion id newName newCriteria q
  | NumId _ => q
  end.

Definition syncLinkedScorecardsFrom (rendered : list QuizQuestion)
           (sourceId : ScorecardId) (newName : option string)
           (newCriteria : option (list CriterionData)) (s : EditorState)
  : EditorState :=
  if id_falsy sourceId then s
  else
    let updatedQuestions :=
      map (syncQuestionWith sourceId newName newCriteria) rendered in
    notifyChange props updatedQuestions (setQuestions updatedQuestions s).

(** [onNameChange] of the scorecard panel.  Both [handleConfigChange]
    and [syncLinkedScorecards] read the questions of the same render, and
    the last [setQuestions] is the one that stays. *)
Definition onScorecardNameChange (newName : string) (s : EditorState)
  : option EditorState :=
  match scorecardData (currentQuestionConfig s) with
  | None => Some s
  | Some currentScorecardData =>
      match handleConfigChange props
              (scorecardUpdate (withName newName currentScorecardData))
              None s with
      | None => None
      | Some s1 =>
          let updatedScorecards :=
            map (fun sc =>
                   if ScorecardId_eqb (sc_id sc) (sc_id currentScorecardData)
                   then withName newName sc else sc)
                (schoolScorecards s) in
          let s2 := setSchoolScorecards updatedScorecards s1 in
          Some (if sc_new currentScorecardData
                then syncLinkedScorecardsFrom (questions s)
                       (sc_id currentScorecardData) (Some newName) None s2
                else s2)
      end
  end.

End Editor.

(** ** What a user can do to a session *)

Inductive Action :=
| AddQuestion (now : nat)
| DeleteQuestion
| GoToPreviousQuestion
| GoToNextQuestion
| ChangeQuestionType (ty : QuestionType)
| ChangeAnswerType (ty : InputType)
| ChangeCodingLanguages (selection : list DropdownOption)
| ChangeCorrectAnswer (answer : list block)
| CreateNewScorecard (uuid : string)
| SelectScorecardTemplate (uuid : string) (template : ScorecardTemplate)
| RemoveScorecard
| RenameScorecard (name : string)
| FollowQuestionId (id : option string)
| ValidateBeforePublish.

Definition perform (props : Props) (table : list DropdownOption)
           (a : Action) (s : EditorState) : option EditorState :=
  match a with
  | AddQuestion now => Some (addQuestion props now s)
  | DeleteQuestion => Some (deleteQuestion props s)
  | GoToPreviousQuestion => goToPreviousQuestion props s
  | GoToNextQuestion => goToNextQuestion props s
  | ChangeQuestionType ty => handleQuestionTypeChange props (inl ty) s
  | ChangeAnswerType ty => handleAnswerTypeChange props (inl ty) s
  | ChangeCodingLanguages selection =>
      handleCodingLanguageChange props table (inr selection) s
  | ChangeCorrectAnswer answer => handleCorrectAnswerChange props answer s
  | CreateNewScorecard uuid => handleCreateNewScorecard props uuid s
  | SelectScorecardTemplate uuid template =>
      handleSelectScorecardTemplate props uuid template s
  | RemoveScorecard => removeScorecardFromSchoolScoreboards props s
  | RenameScorecard name => onScorecardNameChange props name s
  | FollowQuestionId id => Some (syncCurrentQuestionId id s)
  | ValidateBeforePublish => Some (snd (validateAllQuestions props s))
  end.

Fixpoint run (props : Props) (table : list DropdownOption)
         (actions : list Action) (s : EditorState) : option EditorState :=
  match actions with
  | [] => Some s
  | a :: rest =>
      match perform props table a s with
      | Some s' => run props table rest s'
      | None => None
      end
  end.

(** The pointer is on a question, or the session is empty and the
    pointer is at its start. *)
Definition consistent (s : EditorState) : Prop :=
  (questions s = [] /\ currentQuestionIndex s = 0)
  \/ (currentQuestionIndex s < length (questions s))%nat.

(** ** The audio recorder *)

Module Recorder.

(** [str.padStart(2, '0')] *)
Definition padStart2 (str : string) : string :=
  match String.length str with
  | 0 => "00"
  | 1 => "0" ^^ str
  | _ => str
  end.

(** [formatTime]: minutes and seconds of a count of seconds. *)
Definition formatTime (seconds : nat) : string :=
  padStart2 (JS.of_nat (seconds / 60)) ^^ ":"
  ^^ padStart2 (JS.of_nat (seconds mod 60)).

Record File := {
  file_name : string;
  file_type : string
}.

(** What [uploadFile] and [handleUpload] do that can be seen from
    outside, oldest first; the [console.log] lines are left out. *)
Inductive Event :=
| RequestPresignedUrl (content_type : string)
| RequestUploadLocal (name content_type : string)
| RequestPut (url content_type : string)
| LogError (message : string)
| OnUploadSuccess (url : string)
| Alert (message : string).

(** How an [async] function ends. *)
Inductive Outcome (A : Type) :=
| Returned (value : A)
| Thrown.
Arguments Returned {A} value.
Arguments Thrown {A}.

Definition is_media_type (ty : string) : bool :=
  String.prefix "image/" ty || String.prefix "audio/" ty
  || String.prefix "video/" ty.

(** [uploadFile], given what the three requests answer: the
    [presigned_url] field of the first, the [static_url] field of the
    second, the [url] of the third.  [backend] is
    [NEXT_PUBLIC_BACKEND_URL]. *)
Definition uploadFile (backend : string) (file : File)
           (presigned : FetchResult (option string))
           (local : FetchResult string) (put : FetchResult string)
  : Outcome string * list Event :=
  if negb (is_media_type (file_type file)) then (Returned "", [])
  else
    let '(presigned_url, log1) :=
      match presigned with
      | FetchOk (Some url) => (url, [RequestPresignedUrl (file_type file)])
      | FetchOk None => ("", [RequestPresignedUrl (file_type file)])
      | FetchFailed =>
          ("", [RequestPresignedUrl (file_type file);
                LogError "Error getting presigned URL for file:"])
      end in
    if JS.is_empty presigned_url then
      match local with
      | FetchOk file_static_path =>
          (Returned (backend ^^ file_static_path),
           log1 ++ [RequestUploadLocal (file_name file) (file_type file)])
      | FetchFailed =>
          (Thrown,
           log1 ++ [RequestUploadLocal (file_name file) (file_type file);
                    LogError "Error with direct upload to backend:"])
      end
    else
      match put with
      | FetchOk url =>
          (Returned url, log1 ++ [RequestPut presigned_url (file_type file)])
      | FetchFailed =>
          (Thrown,
           log1 ++ [RequestPut presigned_url (file_type file);
                    LogError "Error uploading file to S3:"])
      end.

Record State := {
  isUploading : bool;
  audioFileRef : option File
}.

(** [handleUpload]; [onUploadSuccess] says whether the prop was passed. *)
Definition handleUpload (onUploadSuccess : bool) (backend : string)
           (presigned : FetchResult (option string))
           (local : FetchResult string) (put : FetchResult string)
           (st : State) : State * list Event :=
  match audioFileRef st with
  | None => (st, [])
  | Some file =>
      let '(result, log) := uploadFile backend file presigned local put in
      let finish :=
        match result with
        | Returned uploadedUrl =>
            (if onUploadSuccess then [OnUploadSuccess uploadedUrl] else [])
            ++ [Alert "Audio uploaded successfully!"]
        | Thrown =>
            [LogError "Upload failed:"; Alert "Failed to upload audio."]
        end in
      ({| isUploading := false; audioFileRef := audioFileRef st |},
       log ++ finish)
  end.

Definition is_request (e : Event) : bool :=
  match e with
  | RequestPresignedUrl _ | RequestUploadLocal _ _ | RequestPut _ _ => true
  | _ => false
  end.

Definition is_alert (e : Event) : bool :=
  match e with Alert _ => true | _ => false end.

End Recorder.

(** ** The authentication callbacks ([app/api/auth/[...nextauth]/route.ts]) *)

Module Auth.

(** The user id the backend hands out; [registerUserWithBackend] is not
    part of the file, so the id is taken as a JavaScript integer or
    string. *)
Inductive Id :=
| IdNumber (n : Z)
| IdString (t : string).

Record Token := {
  accessToken : option string;
  idToken : option string;
  userId : option Id
}.

Record Account := {
  provider : string;
  access_token : option string;
  id_token : option string
}.

Record SessionUser := {
  user_id : option string;
  user_email : option string
}.

Record Session := {
  session_user : option SessionUser;
  session_accessToken : option string
}.

(** What [registerUserWithBackend] does: it throws, or returns a value
    that may be empty and whose [id] may be missing. *)
Inductive BackendAnswer :=
| BackendThrows
| BackendReturns (result : option (option Id)).

(** An id in a boolean position: a missing id, [0] and the empty string
    are falsy. *)
Definition truthy_id (id : option Id) : bool :=
  match id with
  | Some (IdNumber n) => negb (Z.eqb n 0)
  | Some (IdString t) => negb (JS.is_empty t)
  | None => false
  end.

Definition truthy_string (x : option string) : bool :=
  match x with
  | Some t => negb (JS.is_empty t)
  | None => false
  end.

(** [String(id)] *)
Definition toString (id : Id) : string :=
  match id with
  | IdNumber n => JS.of_Z n
  | IdString t => t
  end.

(** The [jwt] callback; [user] says whether a user object came along.
    The [console] lines are left out. *)
Definition jwt (token : Token) (user : bool) (account : option Account)
           (backend : BackendAnswer) : Token :=
  match account with
  | Some acc =>
      if user then
        let token1 := {| accessToken := access_token acc;
                         idToken := id_token acc;
                         userId := userId token |} in
        if provider acc =? "google" then
          match backend with
          | BackendReturns (Some id) =>
              if truthy_id id
              then {| accessToken := accessToken token1;
                      idToken := idToken token1;
                      userId := id |}
              else token1
          | _ => token1
          end
        else token1
      else token
  | None => token
  end.

(** The [session] callback. *)
Definition session (sess : Session) (token : Token) : Session :=
  match session_user sess with
  | Some u =>
      {| session_user :=
           Some (if truthy_id (userId token)
                 then {| user_id := option_map toString (userId token);
                         user_email := user_email u |}
                 else u);
         session_accessToken :=
           if truthy_string (accessToken token) then accessToken token
           else session_accessToken sess |}
  | None => sess
  end.

End Auth.

(** A question with the scorecard it has, if any, renamed. *)
Definition withScorecardName (name : string) (q : QuizQuestion)
  : QuizQuestion :=
  withConfig
    (withScorecardData (option_map (withName name) (scorecardData (config q)))
                       (config q)) q.

(** A media block without a direct [text]. *)
Definition media_only (b : block) : Prop :=
  is_media_block b = true /\ default "" (block_text b) = "".

(** What a run of the validation loop must have done to the session for
    a given first failure: nothing to the tab and the highlight when no
    check fails; otherwise the pointer is on the failing question, with
    the tab and the highlighted field of the failing check. *)
Definition tab_after (c : Spec.Check) (before : EditorTab) : EditorTab :=
  default before (Spec.requiredTab c).

Definition field_after (c : Spec.Check) (before : option HighlightField)
  : option HighlightField :=
  match c with
  | Spec.check_content => Some hl_question
  | Spec.check_languages => Some hl_codingLanguage
  | Spec.check_answer => Some hl_answer
  | Spec.check_scorecard | Spec.check_criterion _ _ => before
  end.

Definition reports (s : EditorState) (r : bool * EditorState)
           (o : option (nat * Spec.Check)) : Prop :=
  questions (snd r) = questions s
  /\ match o with
     | None =>
         fst r = true
         /\ activeEditorTab (snd r) = activeEditorTab s
         /\ highlightedField (snd r) = highlightedField s
     | Some (i, c) =>
         fst r = false
         /\ currentQuestionIndex (snd r) = i
         /\ activeEditorTab (snd r) = tab_after c (activeEditorTab s)
         /\ highlightedField (snd r) = field_after c (highlightedField s)
     end.

Definition at_index (i : nat) (o : option Spec.Check)
  : option (nat * Spec.Check) :=
  match o with Some c => Some (i, c) | None => None end.

(** * Properties *)

(** ** Strings and text extraction *)

Lemma trimStart_all_white (s : string) :
  JS.all_white s = true -> JS.trimStart s = "".
Proof.
  induction s as [|c s IH]; simpl; [reflexivity|].
  intros H. apply andb_prop in H as [Hc Hs]. rewrite Hc. auto.
Qed.

Lemma trim_all_white (s : string) : JS.all_white s = true -> JS.trim s = "".
Proof. intros H. unfold JS.trim. rewrite trimStart_all_white; auto. Qed.

Lemma join_empties_all_white (l : list string) :
  Forall (fun x => x = "") l ->
  JS.all_white (JS.join (String "010" "") l) = true.
Proof.
  unfold JS.join. induction l as [|x l IH]; intros H; [reflexivity|].
  inversion H as [|? ? Hx Hl]; subst. specialize (IH Hl).
  destruct l as [|y l]; [reflexivity|].
  change (String.concat (String "010" "") ("" :: y :: l))
    with (String "010" (String.concat (String "010" "") (y :: l))).
  simpl JS.all_white at 1. exact IH.
Qed.

Lemma is_empty_true (s : string) : JS.is_empty s = true <-> s = "".
Proof. destruct s; simpl; split; congruence. Qed.

Lemma length_pos_non_blank (s : string) :
  (0 <? String.length (JS.trim s))%nat = Spec.non_blank s.
Proof. unfold Spec.non_blank. destruct (JS.trim s); reflexivity. Qed.

Lemma media_only_plain_text (b : block) :
  media_only b -> block_plain_text b = "".
Proof.
  intros [Hm Ht]. unfold is_media_block in Hm. unfold block_plain_text.
  destruct b as [bid ty pr ct tx ch]; simpl in *.
  assert (Hty : ty = "image" \/ ty = "audio" \/ ty = "video").
  { apply orb_prop in Hm as [Hm|Hm]; [apply orb_prop in Hm as [Hm|Hm]|];
      apply String.eqb_eq in Hm; auto. }
  destruct Hty as [-> | [-> | ->]]; simpl; destruct tx; simpl in *; congruence.
Qed.

Lemma media_only_no_text (blocks : list block) :
  Forall media_only blocks -> extractTextFromBlocks blocks = "".
Proof.
  intros H. destruct blocks as [|b bs]; [reflexivity|].
  unfold extractTextFromBlocks. apply trim_all_white.
  apply join_empties_all_white.
  induction H as [|x l Hx Hl IH]; simpl; constructor;
    auto using media_only_plain_text.
Qed.

(** ** The knowledge-base payload *)

(** C10: [getKnowledgeBaseContent] returns [null] exactly when the
    knowledge-base blocks have no extractable text after trimming and no
    material is linked; otherwise the payload carries the original blocks
    when their text is non-blank and no block otherwise, and the linked
    ids as they are (the empty list when there are none).  Blocks that
    hold media only have no text, so they never reach the payload. *)
Theorem getKnowledgeBaseContent_payload (cfg : QuizQuestionConfig) :
  let blocks := default [] (knowledgeBaseBlocks cfg) in
  let ids := default [] (linkedMaterialIds cfg) in
  let has_text := Spec.non_blank (extractTextFromBlocks blocks) in
  (getKnowledgeBaseContent cfg = None <-> has_text = false /\ ids = [])
  /\ (forall kb, getKnowledgeBaseContent cfg = Some kb ->
        kb_blocks kb = (if has_text then blocks else [])
        /\ kb_linkedMaterialIds kb = match ids with [] => [] | _ => ids end)
  /\ (Forall media_only blocks ->
        has_text = false
        /\ forall kb, getKnowledgeBaseContent cfg = Some kb ->
                      kb_blocks kb = []).
Proof.
  intros blocks ids has_text.
  assert (Hdef : getKnowledgeBaseContent cfg =
                 if ((0 <? length blocks)%nat && has_text)
                    || (0 <? length ids)%nat
                 then Some {| kb_blocks :=
                                if (0 <? length blocks)%nat && has_text
                                then blocks else [];
                              kb_linkedMaterialIds :=
                                if (0 <? length ids)%nat then ids else [] |}
                 else None).
  { unfold getKnowledgeBaseContent, has_text, blocks, ids.
    rewrite length_pos_non_blank. reflexivity. }
  assert (Hnil : (0 <? length blocks)%nat && has_text = has_text).
  { destruct blocks as [|b bs] eqn:E; [|reflexivity].
    subst has_text. reflexivity. }
  rewrite Hnil in Hdef. clear Hnil.
  assert (Hmedia : Forall media_only blocks -> has_text = false).
  { intros H. subst has_text. unfold Spec.non_blank.
    rewrite media_only_no_text by exact H. reflexivity. }
  split; [split|split].
  - rewrite Hdef. destruct has_text; simpl; [discriminate|].
    destruct ids; simpl; [auto|discriminate].
  - intros [-> ->]. rewrite Hdef. reflexivity.
  - intros kb Hkb. rewrite Hdef in Hkb.
    destruct has_text, ids; simpl in Hkb; inversion Hkb; auto.
  - intros H. split; [auto|].
    intros kb Hkb. rewrite Hdef, (Hmedia H) in Hkb.
    destruct ids; simpl in Hkb; inversion Hkb; reflexivity.
Qed.

(** ** Validation *)

Section ValidationFacts.

Variable props : Props.

Lemma validateQuestionContent_spec (q : QuizQuestion) :
  validateQuestionContent (content q) = Spec.content_non_empty q.
Proof.
  unfold validateQuestionContent, Spec.content_non_empty.
  rewrite length_pos_non_blank.
  destruct (content q) as [|b bs]; [reflexivity|].
  destruct (Spec.non_blank _); reflexivity.
Qed.

Lemma validateCorrectAnswer_spec (q : QuizQuestion) :
  validateCorrectAnswer (config q) = Spec.answer_present q.
Proof.
  unfold validateCorrectAnswer, Spec.answer_present.
  destruct (correctAnswer (config q)) as [[|b bs]|]; try reflexivity.
  apply length_pos_non_blank.
Qed.

Lemma validateScorecard_spec (q : QuizQuestion) :
  validateScorecard (config q) = Spec.scorecard_present q.
Proof.
  unfold validateScorecard, Spec.scorecard_present.
  destruct (scorecardData (config q)) as [sc|]; [|reflexivity].
  destruct (sc_criteria sc); reflexivity.
Qed.

Lemma is_blank_spec (x : string) : is_blank x = negb (Spec.non_blank x).
Proof.
  unfold is_blank, Spec.non_blank. rewrite negb_involutive.
  destruct x; reflexivity.
Qed.

Lemma notifyValidationError_frame (title message : string)
      (s : EditorState) :
  let s' := notifyValidationError props title message s in
  questions s' = questions s
  /\ currentQuestionIndex s' = currentQuestionIndex s
  /\ activeEditorTab s' = activeEditorTab s
  /\ highlightedField s' = highlightedField s.
Proof.
  unfold notifyValidationError.
  destruct (onValidationError props); simpl; auto.
Qed.

(** The loop over the criteria stops at the first blank field. *)
Lemma validateCriteriaFrom_spec (b : bool) (qi : option nat)
      (criteria : list CriterionData) :
  forall (k : nat) (s : EditorState),
    let r := validateCriteriaFrom b qi k criteria s in
    questions (snd r) = questions s
    /\ currentQuestionIndex (snd r) = currentQuestionIndex s
    /\ highlightedField (snd r) = highlightedField s
    /\ match Spec.first_blank_criterion k criteria with
       | None => r = (true, s)
       | Some _ => fst r = false
                   /\ activeEditorTab (snd r) = tab_scorecard
       end.
Proof.
  induction criteria as [|c rest IH]; intros k s; simpl.
  - auto.
  - rewrite !is_blank_spec.
    destruct (Spec.non_blank (crit_name c)); simpl; [|auto 6].
    destruct (Spec.non_blank (crit_description c)); simpl; [|auto 6].
    apply IH.
Qed.

Lemma first_blank_criterion_shape (criteria : list CriterionData) :
  forall (k : nat) (c : Spec.Check),
    Spec.first_blank_criterion k criteria = Some c ->
    exists j f, c = Spec.check_criterion j f.
Proof.
  induction criteria as [|x rest IH]; intros k c; simpl; [discriminate|].
  destruct (Spec.non_blank (crit_name x)); simpl;
    [|intros [= <-]; eauto].
  destruct (Spec.non_blank (crit_description x)); simpl;
    [|intros [= <-]; eauto].
  apply IH.
Qed.

Local Arguments validateCriteriaFrom : simpl never.
Local Arguments Spec.first_blank_criterion : simpl never.

(** One iteration of the loop reports the first check the question
    fails. *)
Lemma validateQuestion_spec (i : nat) (q : QuizQuestion)
      (s : EditorState) :
  reports s (validateQuestion props i q s)
          (at_index i (Spec.question_failure q)).
Proof.
  unfold reports, validateQuestion, and_then, checkContent,
    checkCodingLanguages, checkCorrectAnswer, checkScorecard,
    Spec.question_failure, Spec.languages_set, notifyValidationError.
  rewrite validateQuestionContent_spec, validateCorrectAnswer_spec,
    validateScorecard_spec.
  destruct (Spec.content_non_empty q); simpl;
    [|destruct (onValidationError props); simpl; auto 6].
  destruct (questionType (config q)) eqn:Hty; simpl.
  - destruct (Spec.answer_present q); simpl;
      [auto|destruct (onValidationError props); simpl; auto 6].
  - unfold Spec.scorecard_present.
    destruct (scorecardData (config q)) as [sc|] eqn:Hsc; simpl;
      [|destruct (onValidationError props); simpl; auto 6].
    destruct (sc_criteria sc) as [|c0 cs] eqn:Hcs; simpl;
      [destruct (onValidationError props); simpl; auto 6|].
    destruct (sc_new sc); simpl; [|auto].
    pose proof (validateCriteriaFrom_spec (onValidationError props)
                  (Some i) (c0 :: cs) 0 (setCurrentQuestionIndex i s))
      as (Hq & Hi & Hh & Hr).
    destruct (Spec.first_blank_criterion 0 (c0 :: cs)) as [c|] eqn:Hc.
    + destruct (first_blank_criterion_shape _ _ _ Hc) as (j & f & ->).
      destruct Hr as [Hf Ht]. simpl in *. auto 6.
    + rewrite Hr. simpl. auto.
  - destruct (codingLanguages (config q)) as [[|l ls]|]; simpl.
    + destruct (onValidationError props); simpl; auto 6.
    + destruct (Spec.answer_present q); simpl;
        [auto|destruct (onValidationError props); simpl; auto 6].
    + destruct (onValidationError props); simpl; auto 6.
Qed.

End ValidationFacts.

Section ValidateAll.

Variable props : Props.

Lemma validateQuestionsFrom_spec (qs : list QuizQuestion) :
  forall (i : nat) (s : EditorState),
    reports s (validateQuestionsFrom props i qs s) (Spec.first_failure i qs).
Proof.
  induction qs as [|q rest IH]; intros i s; simpl.
  - unfold reports. simpl. auto.
  - pose proof (validateQuestion_spec props i q s) as [Hq H1].
    unfold and_then.
    destruct (Spec.question_failure q) as [c|]; simpl in H1.
    + destruct H1 as (Hf & H1). rewrite Hf. split; auto.
    + destruct H1 as (Hf & Ht & Hh). rewrite Hf.
      destruct (IH (S i) (snd (validateQuestion props i q s))) as [Hq2 H2].
      split; [congruence|].
      destruct (Spec.first_failure (S i) rest) as [[j c]|].
      * rewrite <- Ht, <- Hh. exact H2.
      * rewrite <- Ht, <- Hh. exact H2.
Qed.

(** The first failure of a sequence whose prefix passes every check. *)
Lemma first_failure_after_passing (pre post : list QuizQuestion)
      (q : QuizQuestion) (c : Spec.Check) :
  forall i : nat,
    Spec.first_failure i pre = None ->
    Spec.question_failure q = Some c ->
    Spec.first_failure i (pre ++ q :: post) = Some (i + length pre, c).
Proof.
  induction pre as [|p pre IH]; intros i Hpre Hq; simpl in *.
  - rewrite Hq. f_equal. f_equal. lia.
  - destruct (Spec.question_failure p); [discriminate|].
    rewrite IH by assumption. f_equal. f_equal. lia.
Qed.

Lemma validateAllQuestions_reports (s : EditorState) (i : nat)
      (q : QuizQuestion) (c : Spec.Check) :
  questions s !! i = Some q ->
  Spec.first_failure 0 (take i (questions s)) = None ->
  Spec.question_failure q = Some c ->
  reports s (validateAllQuestions props s) (Some (i, c)).
Proof.
  intros Hi Hpre Hq.
  assert (Hfail : Spec.first_failure 0 (questions s) = Some (i, c)).
  { rewrite <- (take_drop_middle _ _ _ Hi).
    rewrite (first_failure_after_passing _ _ _ c 0 Hpre Hq).
    rewrite length_take_le; [reflexivity|].
    apply lookup_lt_Some in Hi. lia. }
  pose proof (validateQuestionsFrom_spec (questions s) 0 s) as H.
  rewrite Hfail in H. unfold validateAllQuestions.
  destruct (questions s) as [|q0 qs]; [discriminate|]. exact H.
Qed.

End ValidateAll.

(** C1: [validateAllQuestions] checks the questions in sequence order and
    the first failure wins.  An empty sequence fails without touching the
    pointer; otherwise the result is that of the first check, in the order
    content, languages, answer, scorecard, criteria, that some question
    fails: [false], the pointer on that question and the tab of that
    check; and [true] when no check fails.  In particular a subjective
    question without a scorecard fails at its index with the scorecard
    tab, and a coding question with languages and a blank answer fails at
    its index with the answer tab, when everything before them passes. *)
Theorem validateAllQuestions_first_failure (props : Props) (s : EditorState) :
  let r := validateAllQuestions props s in
  match Spec.validate (questions s) with
  | Spec.Ok => fst r = true
  | Spec.NoQuestions =>
      fst r = false
      /\ currentQuestionIndex (snd r) = currentQuestionIndex s
      /\ activeEditorTab (snd r) = activeEditorTab s
  | Spec.Failure i c =>
      fst r = false
      /\ currentQuestionIndex (snd r) = i
      /\ activeEditorTab (snd r) = tab_after c (activeEditorTab s)
      /\ highlightedField (snd r) = field_after c (highlightedField s)
  end
  /\ (forall (i : nat) (q : QuizQuestion),
        questions s !! i = Some q ->
        Spec.first_failure 0 (take i (questions s)) = None ->
        Spec.content_non_empty q = true ->
        questionType (config q) = subjective ->
        Spec.scorecard_present q = false ->
        fst r = false
        /\ currentQuestionIndex (snd r) = i
        /\ activeEditorTab (snd r) = tab_scorecard)
  /\ (forall (i : nat) (q : QuizQuestion),
        questions s !! i = Some q ->
        Spec.first_failure 0 (take i (questions s)) = None ->
        Spec.content_non_empty q = true ->
        questionType (config q) = coding ->
        Spec.languages_set q = true ->
        Spec.answer_present q = false ->
        fst r = false
        /\ currentQuestionIndex (snd r) = i
        /\ activeEditorTab (snd r) = tab_answer).
Proof.
  intros r. split; [|split].
  - unfold Spec.validate. subst r. unfold validateAllQuestions.
    destruct (questions s) as [|q qs] eqn:Hqs.
    + unfold notifyValidationError.
      destruct (onValidationError props); simpl; auto.
    + pose proof (validateQuestionsFrom_spec props (q :: qs) 0 s) as [_ H].
      destruct (Spec.first_failure 0 (q :: qs)) as [[i c]|]; tauto.
  - intros i q Hi Hpre Hc Hty Hsc.
    assert (Hq : Spec.question_failure q = Some Spec.check_scorecard).
    { unfold Spec.question_failure. rewrite Hc, Hty, Hsc. reflexivity. }
    destruct (validateAllQuestions_reports props s i q _ Hi Hpre Hq)
      as (_ & Hf & Hidx & Ht & _).
    auto.
  - intros i q Hi Hpre Hc Hty Hl Ha.
    assert (Hq : Spec.question_failure q = Some Spec.check_answer).
    { unfold Spec.question_failure. rewrite Hc, Hty, Hl, Ha. reflexivity. }
    destruct (validateAllQuestions_reports props s i q _ Hi Hpre Hq)
      as (_ & Hf & Hidx & Ht & _).
    auto.
Qed.

(** The three sessions of the design document's validation example. *)
Example validate_subjective_without_scorecard :
  let r := validateAllQuestions Sample.props_draft
             (Sample.session [Sample.q_bare] 0 tab_question) in
  fst r = false /\ currentQuestionIndex (snd r) = 0
  /\ activeEditorTab (snd r) = tab_scorecard.
Proof. vm_compute. auto. Qed.

Example validate_coding_without_answer :
  let r := validateAllQuestions Sample.props_draft
             (Sample.session [Sample.q_objective; Sample.q_coding] 0
                             tab_question) in
  fst r = false /\ currentQuestionIndex (snd r) = 1
  /\ activeEditorTab (snd r) = tab_answer
  /\ highlightedField (snd r) = Some hl_answer.
Proof. vm_compute. auto. Qed.

Example validate_valid_session :
  fst (validateAllQuestions Sample.props_draft
         (Sample.session [Sample.q_objective; Sample.q_published] 1
                         tab_question)) = true.
Proof. vm_compute. reflexivity. Qed.

(** What a successful validation does leave alone: the questions, the
    active tab and the highlighted field. *)
Lemma validateAllQuestions_success_frame (props : Props) (s : EditorState) :
  Spec.validate (questions s) = Spec.Ok ->
  let r := validateAllQuestions props s in
  fst r = true
  /\ questions (snd r) = questions s
  /\ activeEditorTab (snd r) = activeEditorTab s
  /\ highlightedField (snd r) = highlightedField s.
Proof.
  unfold Spec.validate, validateAllQuestions.
  destruct (questions s) as [|q qs] eqn:Hqs; [discriminate|].
  pose proof (validateQuestionsFrom_spec props (q :: qs) 0 s) as [Hq H].
  destruct (Spec.first_failure 0 (q :: qs)) as [[i c]|]; [discriminate|].
  intros _. simpl. rewrite Hqs in Hq. tauto.
Qed.

(** C2: a successful validation is meant to leave the session as it was.
    The loop moves the pointer to every subjective question that has a
    scorecard before it inspects the criteria, so on this session, where
    every question passes every check, [validateAllQuestions] returns
    [true] and yet moves the pointer from the second question to the
    first. *)
Theorem validateAllQuestions_success_moves_pointer :
  let s := Sample.session [Sample.q_published; Sample.q_objective] 1
                          tab_question in
  let r := validateAllQuestions Sample.props_draft s in
  Spec.validate (questions s) = Spec.Ok
  /\ fst r = true
  /\ currentQuestionIndex s = 1
  /\ currentQuestionIndex (snd r) = 0.
Proof. vm_compute. auto. Qed.

(** ** Detaching a scorecard *)

Lemma lookup_map {A B : Type} (f : A -> B) (l : list A) (i : nat) :
  map f l !! i = option_map f (l !! i).
Proof.
  revert i. induction l as [|x l IH]; intros [|i]; simpl; auto.
Qed.

Lemma clearScorecardIfId_references (id : ScorecardId) (q : QuizQuestion) :
  clearScorecardIfId id q =
  if Spec.references id q
  then withConfig (withScorecardData None (config q)) q
  else q.
Proof.
  unfold clearScorecardIfId, Spec.references.
  destruct (scorecardData (config q)); reflexivity.
Qed.

Lemma cleared_not_referenced (id : ScorecardId) (q : QuizQuestion) :
  Spec.references id (clearScorecardIfId id q) = false.
Proof.
  rewrite clearScorecardIfId_references.
  destruct (Spec.references id q) eqn:H; [reflexivity | exact H].
Qed.

Lemma reference_count_cleared (id : ScorecardId) (qs : list QuizQuestion) :
  Spec.reference_count id (map (clearScorecardIfId id) qs) = 0.
Proof.
  unfold Spec.reference_count.
  induction qs as [|q qs IH]; simpl; [reflexivity|].
  rewrite cleared_not_referenced. exact IH.
Qed.

(** C3, as the code has it: deleting the scorecard of the active question
    removes the reference to its id from every question that carries it,
    so that no reference to the id is left, and leaves every other
    question as it was; the pool loses the entries with that id exactly
    when the active question's scorecard is flagged new.  A published
    scorecard is not new, so the pool keeps it. *)
Theorem removeScorecard_clears_every_reference
        (props : Props) (s : EditorState) (q : QuizQuestion)
        (sc : ScorecardTemplate) :
  questions s !! currentQuestionIndex s = Some q ->
  scorecardData (config q) = Some sc ->
  exists s',
    removeScorecardFromSchoolScoreboards props s = Some s'
    /\ length (questions s') = length (questions s)
    /\ (forall j qj,
          questions s !! j = Some qj ->
          questions s' !! j =
          Some (if Spec.references (sc_id sc) qj
                then withConfig (withScorecardData None (config qj)) qj
                else qj))
    /\ Spec.reference_count (sc_id sc) (questions s') = 0
    /\ schoolScorecards s' =
       (if sc_new sc
        then List.filter
               (fun x => negb (ScorecardId_eqb (sc_id x) (sc_id sc)))
               (schoolScorecards s)
        else schoolScorecards s)
    /\ (isPublishedScorecard sc = true ->
        schoolScorecards s' = schoolScorecards s)
    /\ currentQuestionIndex s' = currentQuestionIndex s
    /\ activeEditorTab s' = activeEditorTab s.
Proof.
  intros Hq Hsc. unfold removeScorecardFromSchoolScoreboards.
  rewrite Hq, Hsc. eexists. split; [reflexivity|].
  unfold notifyChange.
  assert (Hpub : isPublishedScorecard sc = true -> sc_new sc = false).
  { unfold isPublishedScorecard. destruct (sc_new sc); auto. }
  assert (Hlook : forall j qj,
             questions s !! j = Some qj ->
             map (clearScorecardIfId (sc_id sc)) (questions s) !! j =
             Some (if Spec.references (sc_id sc) qj
                   then withConfig (withScorecardData None (config qj)) qj
                   else qj)).
  { intros j qj Hj. rewrite lookup_map, Hj. simpl.
    rewrite clearScorecardIfId_references. reflexivity. }
  destruct (onChange props), (sc_new sc) eqn:Hnew; simpl;
    rewrite length_map, reference_count_cleared;
    (split; [reflexivity|]); (split; [exact Hlook|]);
    (split; [reflexivity|]); (split; [reflexivity|]);
    (split; [|split; reflexivity]);
    intros Hp; apply Hpub in Hp; congruence.
Qed.

(** The theorem at a session where two questions share a scorecard
    created in the session. *)
Lemma removeScorecard_clears_every_reference_witness :
  exists s',
    removeScorecardFromSchoolScoreboards Sample.props_draft
      (Sample.session [Sample.q_owner; Sample.q_linked] 0 tab_scorecard)
    = Some s'
    /\ Spec.reference_count (StrId "sc-1") (questions s') = 0.
Proof.
  destruct (removeScorecard_clears_every_reference Sample.props_draft
              (Sample.session [Sample.q_owner; Sample.q_linked] 0
                              tab_scorecard)
              Sample.q_owner (Sample.rubric (StrId "sc-1") true)
              eq_refl eq_refl)
    as (s' & Hs & _ & _ & Hc & _).
  exists s'. split; [exact Hs | exact Hc].
Defined.

(** The statement that fails: the other question that shares the
    scorecard loses its reference too. *)
Lemma removeScorecard_touches_other_questions :
  ~ Stated.detach_touches_active_only Sample.props_draft
      (Sample.session [Sample.q_owner; Sample.q_linked] 0 tab_scorecard).
Proof.
  intros H.
  destruct (removeScorecardFromSchoolScoreboards Sample.props_draft
              (Sample.session [Sample.q_owner; Sample.q_linked] 0
                              tab_scorecard)) as [s'|] eqn:Hs;
    vm_compute in Hs; [|discriminate].
  injection Hs as <-.
  assert (H1 : 1 <> 0) by discriminate.
  specialize (H _ eq_refl 1 H1). vm_compute in H. discriminate.
Qed.

(** ** Syncing linked scorecards *)

Lemma syncQuestion_other (sourceId : string) (newName : option string)
      (newCriteria : option (list CriterionData)) (q : QuizQuestion) :
  (forall sc, scorecardData (config q) = Some sc ->
              sc_id sc <> StrId sourceId) ->
  syncQuestion sourceId newName newCriteria q = q.
Proof.
  intros H. unfold syncQuestion.
  destruct (scorecardData (config q)) as [sc|]; [|reflexivity].
  specialize (H sc eq_refl).
  destruct (sc_id sc) as [n|id]; [reflexivity|].
  destruct (String.eqb_spec id sourceId); [congruence | reflexivity].
Qed.

Lemma is_empty_false (x : string) : x <> "" -> JS.is_empty x = false.
Proof. destruct x; simpl; congruence. Qed.

(** C5: [syncLinkedScorecards] replaces the name and the criteria (each
    one when supplied) of the scorecard of exactly the questions whose
    scorecard has the string id [sourceId], and nothing else of them;
    every other question, among them every question whose scorecard id
    is a number, stays as it is.  The [sourceId] meant is a non-empty
    one: the callers pass the id of a scorecard flagged new, which is a
    generated UUID.  For the empty string the guard at the head of the
    function returns at once. *)
Theorem syncLinkedScorecards_frame
        (props : Props) (sourceId : string) (newName : option string)
        (newCriteria : option (list CriterionData)) (s : EditorState) :
  let s' := syncLinkedScorecards props sourceId newName newCriteria s in
  length (questions s') = length (questions s)
  /\ currentQuestionIndex s' = currentQuestionIndex s
  /\ (sourceId <> "" ->
      forall i q sc,
        questions s !! i = Some q ->
        scorecardData (config q) = Some sc ->
        sc_id sc = StrId sourceId ->
        questions s' !! i =
        Some {| q_id := q_id q;
                content := content q;
                config :=
                  withScorecardData
                    (Some {| sc_id := sc_id sc;
                             sc_name := default (sc_name sc) newName;
                             sc_new := sc_new sc;
                             sc_is_template := sc_is_template sc;
                             sc_criteria :=
                               default (sc_criteria sc) newCriteria |})
                    (config q) |})
  /\ (forall i q,
        questions s !! i = Some q ->
        (forall sc, scorecardData (config q) = Some sc ->
                    sc_id sc <> StrId sourceId) ->
        questions s' !! i = Some q)
  /\ (forall i q sc n,
        questions s !! i = Some q ->
        scorecardData (config q) = Some sc ->
        sc_id sc = NumId n ->
        questions s' !! i = Some q)
  /\ (sourceId = "" -> s' = s).
Proof.
  intros s'. subst s'. unfold syncLinkedScorecards, notifyChange.
  assert (Hother : forall i q,
             questions s !! i = Some q ->
             (forall sc, scorecardData (config q) = Some sc ->
                         sc_id sc <> StrId sourceId) ->
             map (syncQuestion sourceId newName newCriteria) (questions s)
               !! i = Some q).
  { intros i q Hi Hne. rewrite lookup_map, Hi. simpl.
    rewrite syncQuestion_other by exact Hne. reflexivity. }
  destruct (JS.is_empty sourceId) eqn:He.
  - apply is_empty_true in He. subst sourceId.
    split; [reflexivity|]. split; [reflexivity|].
    split; [congruence|]. split; [auto|]. split; [auto|]. reflexivity.
  - assert (Hne : sourceId <> "").
    { intros ->. discriminate. }
    assert (Hgoal :
      length (map (syncQuestion sourceId newName newCriteria) (questions s))
      = length (questions s)) by apply length_map.
    destruct (onChange props); simpl;
      (split; [exact Hgoal|]); (split; [reflexivity|]);
      (split; [|split; [exact Hother|split; [|congruence]]]).
    all: try (intros i q sc n Hi Hsc Hid; apply Hother; [exact Hi|];
              intros sc' Hsc'; congruence).
    all: intros _ i q sc Hi Hsc Hid; rewrite lookup_map, Hi; simpl;
      unfold syncQuestion; rewrite Hsc, Hid, String.eqb_refl; reflexivity.
Qed.

Example syncLinkedScorecards_renames_shared :
  option_map (fun q => option_map sc_name (scorecardData (config q)))
    (questions
       (syncLinkedScorecards Sample.props_draft "sc-1" (Some "Renamed") None
          (Sample.session
             [Sample.q_owner; Sample.q_published; Sample.q_linked] 0
             tab_scorecard)) !! 2)
  = Some (Some "Renamed").
Proof. vm_compute. reflexivity. Qed.

(** ** Navigation *)

Section Navigation.

Variable props : Props.

Lemma adjustTabFor_rule (dest : QuizQuestion) (s : EditorState) :
  let s' := adjustTabFor dest s in
  questions s' = questions s
  /\ currentQuestionIndex s' = currentQuestionIndex s
  /\ activeEditorTab s' =
     if Spec.tab_valid_for (activeEditorTab s) (questionType (config dest))
     then activeEditorTab s else tab_question.
Proof.
  unfold adjustTabFor.
  destruct (activeEditorTab s) eqn:Htab,
           (questionType (config dest)) eqn:Hty;
    simpl; rewrite ?Htab; auto.
Qed.




End Navigation.



(** Past the end the handlers do not clamp.  [goToNextQuestion] leaves
    the session as it is.  [goToPreviousQuestion] still steps back by
    one: onto the last question from one past it; from further out it
    throws on the scorecard and answer tabs, where the question arrived
    at is read, and on the other tabs leaves the pointer past the end. *)
Lemma navigation_past_the_end (props : Props) (s : EditorState) :
  (length (questions s) <= currentQuestionIndex s)%nat ->
  goToNextQuestion props s = Some s
  /\ (currentQuestionIndex s = 0%nat -> goToPreviousQuestion props s = Some s)
  /\ ((length (questions s) < currentQuestionIndex s)%nat ->
      goToPreviousQuestion props s =
      if EditorTab_eqb (activeEditorTab s) tab_scorecard
         || EditorTab_eqb (activeEditorTab s) tab_answer
      then None
      else Some (setCurrentQuestionIndex (currentQuestionIndex s - 1) s)).
Proof.
  intros Hge. split; [|split].
  - unfold goToNextQuestion.
    destruct (Z.ltb_spec (Z.of_nat (currentQuestionIndex s))
                         (Z.of_nat (length (questions s)) - 1));
      [lia | reflexivity].
  - intros H0. unfold goToPreviousQuestion. rewrite H0. reflexivity.
  - intros Hgt. unfold goToPreviousQuestion, moveTo.
    destruct (Nat.ltb_spec 0 (currentQuestionIndex s)); [|lia].
    rewrite (proj2 (lookup_ge_None (questions s) (currentQuestionIndex s - 1)))
      by lia.
    reflexivity.
Qed.


Example previous_resets_scorecard_tab :
  option_map (fun s => (currentQuestionIndex s, activeEditorTab s))
    (goToPreviousQuestion Sample.props_draft
       (Sample.session [Sample.q_objective; Sample.q_owner; Sample.q_linked]
                       1 tab_scorecard))
  = Some (0, tab_question).
Proof. vm_compute. reflexivity. Qed.

Example next_keeps_scorecard_tab :
  option_map (fun s => (currentQuestionIndex s, activeEditorTab s))
    (goToNextQuestion Sample.props_draft
       (Sample.session [Sample.q_objective; Sample.q_owner; Sample.q_linked]
                       1 tab_scorecard))
  = Some (2, tab_scorecard).
Proof. vm_compute. reflexivity. Qed.

Example next_stops_at_the_end :
  option_map (fun s => (currentQuestionIndex s, activeEditorTab s))
    (goToNextQuestion Sample.props_draft
       (Sample.session [Sample.q_objective; Sample.q_owner; Sample.q_linked]
                       2 tab_knowledge))
  = Some (2, tab_knowledge).
Proof. vm_compute. reflexivity. Qed.

(** ** Deleting a question *)

(** C7: deleting in a session with a single question empties the
    sequence; with more than one question the question under the pointer
    is removed, the others keep their order, and the pointer becomes
    [min(currentIndex, newLength - 1)], which points into the new
    sequence. *)
Theorem deleteQuestion_keeps_pointer_valid (props : Props) (s : EditorState) :
  (currentQuestionIndex s < length (questions s))%nat ->
  let s' := deleteQuestion props s in
  if (length (questions s) =? 1)%nat
  then questions s' = [] /\ length (questions s') = 0
  else questions s' = take (currentQuestionIndex s) (questions s)
                      ++ drop (S (currentQuestionIndex s)) (questions s)
       /\ length (questions s') = length (questions s) - 1
       /\ currentQuestionIndex s' =
          Nat.min (currentQuestionIndex s) (length (questions s') - 1)
       /\ (currentQuestionIndex s' < length (questions s'))%nat.
Proof.
  intros Hlt s'. subst s'. unfold deleteQuestion, notifyChange.
  destruct (Nat.eqb_spec (length (questions s)) 1) as [H1|H1].
  - rewrite H1. simpl. destruct (onChange props); simpl; auto.
  - destruct (Nat.leb_spec (length (questions s)) 1) as [Hle|Hgt]; [lia|].
    pose proof (length_delete (questions s) (currentQuestionIndex s)
                  (lookup_lt_is_Some_2 _ _ Hlt)) as Hlen.
    rewrite <- delete_take_drop.
    destruct (Nat.leb_spec
                (length (delete (currentQuestionIndex s) (questions s)))
                (currentQuestionIndex s)) as [Hlast|Hin];
      destruct (onChange props); simpl; rewrite ?Hlen;
      (split; [reflexivity|]); (split; [reflexivity|]); lia.
Qed.

(** The theorem at the last of three questions, and at a lone one. *)
Lemma deleteQuestion_keeps_pointer_valid_witness :
  currentQuestionIndex
    (deleteQuestion Sample.props_draft
       (Sample.session [Sample.q_objective; Sample.q_owner; Sample.q_linked]
                       2 tab_question)) = 1
  /\ questions
       (deleteQuestion Sample.props_draft
          (Sample.session [Sample.q_objective] 0 tab_question)) = [].
Proof.
  split.
  - pose proof (deleteQuestion_keeps_pointer_valid Sample.props_draft
                  (Sample.session
                     [Sample.q_objective; Sample.q_owner; Sample.q_linked]
                     2 tab_question)) as H.
    simpl in H. destruct H as (_ & _ & H & _); [lia | exact H].
  - pose proof (deleteQuestion_keeps_pointer_valid Sample.props_draft
                  (Sample.session [Sample.q_objective] 0 tab_question)) as H.
    simpl in H. destruct H as (H & _); [lia | exact H].
Defined.

(** ** Coding languages *)

Lemma is_exclusive_iff (opt : DropdownOption) :
  is_exclusive opt = true <-> Rules.exclusive opt.
Proof.
  unfold is_exclusive, Rules.exclusive, exclusiveLanguages. simpl.
  rewrite !orb_true_iff, !String.eqb_eq. intuition congruence.
Qed.

Lemma not_exclusive_iff (opt : DropdownOption) :
  is_exclusive opt = false <-> ~ Rules.exclusive opt.
Proof.
  rewrite <- is_exclusive_iff. destruct (is_exclusive opt); intuition congruence.
Qed.

Lemma has_value_iff (v : string) (opts : list DropdownOption) :
  has_value v opts = true <-> Rules.selects v opts.
Proof.
  unfold has_value, Rules.selects. rewrite existsb_exists.
  split; intros (opt & Hin & H); exists opt; split; auto;
    apply String.eqb_eq; exact H.
Qed.

(** The last element that satisfies a test splits the list. *)
Lemma last_filter_Some {A : Type} (p : A -> bool) (l : list A) (e : A) :
  last (List.filter p l) = Some e ->
  exists pre post,
    l = pre ++ e :: post /\ p e = true
    /\ Forall (fun x => p x = false) post.
Proof.
  induction l as [|x l IH]; simpl; [discriminate|].
  destruct (List.filter p l) as [|y ys] eqn:Hf.
  - destruct (p x) eqn:Hx; simpl; [|discriminate].
    intros [= ->]. exists [], l. split; [reflexivity|]. split; [exact Hx|].
    clear IH. induction l as [|z l IHl]; [constructor|].
    simpl in Hf. destruct (p z) eqn:Hz; [discriminate|].
    constructor; auto.
  - intros H.
    assert (H' : last (y :: ys) = Some e).
    { destruct (p x); [rewrite last_cons_cons in H|]; exact H. }
    destruct (IH H') as (pre & post & -> & He & Hpost).
    exists (x :: pre), post. auto.
Qed.

Lemma last_filter_None {A : Type} (p : A -> bool) (l : list A) :
  last (List.filter p l) = None -> Forall (fun x => p x = false) l.
Proof.
  rewrite last_None.
  induction l as [|x l IH]; simpl; [constructor|].
  destruct (p x) eqn:Hx; [discriminate|]. constructor; auto.
Qed.

Lemma append_non_empty (a b : string) :
  b <> "" -> JS.is_empty (a ^^ b) = false.
Proof. destruct a; simpl; [apply is_empty_false | reflexivity]. Qed.

(** The validated selection follows the exclusivity rule. *)
Lemma validateLanguageSelection_rule
      (table : list DropdownOption) (html : DropdownOption)
      (selection : list DropdownOption) :
  List.find (fun opt => opt_value opt =? "html") table = Some html ->
  Rules.language_rule table selection
    (fst (validateLanguageSelection table selection))
    (negb (JS.is_empty (snd (validateLanguageSelection table selection)))).
Proof.
  intros Hfind. unfold validateLanguageSelection, Rules.language_rule.
  destruct (last (List.filter is_exclusive selection)) as [e|] eqn:Hlast.
  - destruct (last_filter_Some _ _ _ Hlast) as (pre & post & Hsel & He & Hpost).
    apply is_exclusive_iff in He.
    assert (Hpost' : Forall (fun o => ~ Rules.exclusive o) post).
    { eapply List.Forall_impl; [|exact Hpost].
      intros o Ho. apply not_exclusive_iff. exact Ho. }
    destruct (Nat.ltb_spec 1 (length selection)) as [Hmany|Hone]; simpl.
    + left. split; [exact Hmany|]. split; [eauto 8|].
      rewrite append_non_empty; [reflexivity | discriminate].
    + right. right. split; [lia|]. split; [|auto].
      intros (Hall & _). rewrite Hsel in Hall.
      apply List.Forall_app in Hall as [_ Hall].
      inversion Hall; subst. contradiction.
  - apply last_filter_None in Hlast.
    assert (Hall : Forall (fun o => ~ Rules.exclusive o) selection).
    { eapply List.Forall_impl; [|exact Hlast].
      intros o Ho. apply not_exclusive_iff. exact Ho. }
    assert (Hnone : ~ Exists Rules.exclusive selection).
    { intros Hex. apply List.Exists_exists in Hex as (o & Hin & Ho).
      rewrite List.Forall_forall in Hall. exact (Hall o Hin Ho). }
    destruct (has_value "css" selection) eqn:Hcss;
      destruct (has_value "html" selection) eqn:Hhtml; simpl.
    + right. right. split; [tauto|]. split; [|auto].
      intros (_ & _ & Hno). apply Hno, has_value_iff, Hhtml.
    + rewrite Hfind. simpl. right. left.
      split; [exact Hall|]. split; [apply has_value_iff, Hcss|].
      split; [rewrite <- has_value_iff; congruence|].
      split; [|reflexivity].
      apply find_some in Hfind as [Hin Hv]. apply String.eqb_eq in Hv.
      exists html. auto.
    + right. right. split; [tauto|]. split; [|auto].
      intros (_ & Hyes & _). apply has_value_iff in Hyes. congruence.
    + right. right. split; [tauto|]. split; [|auto].
      intros (_ & Hyes & _). apply has_value_iff in Hyes. congruence.
Qed.

(** [handleConfigChange] when the pointer is on a question. *)
Lemma handleConfigChange_in_range
      (props : Props) (configUpdate : ConfigUpdate)
      (options : option ConfigChangeOptions) (s : EditorState)
      (q : QuizQuestion) :
  questions s !! currentQuestionIndex s = Some q ->
  handleConfigChange props configUpdate options s =
  let updatedQuestions :=
    <[currentQuestionIndex s :=
        refreshTemplate props options
          (withConfig (spreadConfig (config q) configUpdate) q)]>
      (questions s) in
  Some (notifyChange props updatedQuestions
          (setQuestions updatedQuestions s)).
Proof.
  intros Hq. unfold handleConfigChange. rewrite Hq.
  destruct (questions s); [discriminate | reflexivity].
Qed.

Lemma toasts_emit (e : Effect) (s : EditorState) :
  Rules.toasts (emit e s) =
  Rules.toasts s + (if Rules.is_toast e then 1 else 0).
Proof.
  unfold Rules.toasts, emit. simpl.
  rewrite List.filter_app, length_app. simpl.
  destruct (Rules.is_toast e); reflexivity.
Qed.

(** C8: [handleCodingLanguageChange] stores the selection that the
    exclusivity rule prescribes, in the dropdown and in the current
    question, and shows a notice exactly when the rule changed the
    selection: several languages with an exclusive one among them
    collapse to the last exclusive one; without an exclusive language,
    css without html gets html added; every other selection is stored
    as it is, without a notice.  The language table must offer html. *)
Theorem handleCodingLanguageChange_rule
        (props : Props) (table : list DropdownOption) (html : DropdownOption)
        (choice : DropdownOption + list DropdownOption) (s : EditorState) :
  let selection := match choice with inr opts => opts | inl o => [o] end in
  List.find (fun opt => opt_value opt =? "html") table = Some html ->
  (currentQuestionIndex s < length (questions s))%nat ->
  exists s' stored (notice : bool),
    handleCodingLanguageChange props table choice s = Some s'
    /\ Rules.language_rule table selection stored notice
    /\ selectedCodingLanguages s' = stored
    /\ (exists q q',
          questions s !! currentQuestionIndex s = Some q
          /\ questions s' !! currentQuestionIndex s = Some q'
          /\ codingLanguages (config q') = Some (map opt_value stored)
          /\ content q' = content q)
    /\ Rules.toasts s' = Rules.toasts s + (if notice then 1 else 0).
Proof.
  intros selection Hfind Hlt.
  pose proof (validateLanguageSelection_rule table html selection Hfind)
    as Hrule.
  unfold handleCodingLanguageChange. fold selection.
  destruct (validateLanguageSelection table selection)
    as [stored message] eqn:Hv.
  simpl in Hrule.
  destruct (lookup_lt_is_Some_2 _ _ Hlt) as [q Hq].
  rewrite (handleConfigChange_in_range props _ _ _ q) by exact Hq.
  eexists. exists stored, (negb (JS.is_empty message)).
  split; [reflexivity|]. split; [exact Hrule|].
  unfold notifyChange.
  destruct (JS.is_empty message), (onChange props); simpl;
    rewrite ?toasts_emit; simpl;
    (split; [reflexivity|]);
    (split; [|unfold Rules.toasts; simpl; lia]);
    exists q; eexists;
    (split; [exact Hq|]);
    (split; [apply list_lookup_insert_eq; exact Hlt|]);
    split; reflexivity.
Qed.

(** The theorem on a coding question, with the sample language table. *)
Lemma handleCodingLanguageChange_rule_witness :
  exists s' stored (notice : bool),
    handleCodingLanguageChange Sample.props_draft Sample.languages
      (inr [Sample.lang "javascript" "JavaScript";
            Sample.lang "python" "Python";
            Sample.lang "css" "CSS"])
      (Sample.session [Sample.q_coding] 0 tab_question) = Some s'
    /\ selectedCodingLanguages s' = stored
    /\ Rules.toasts s' = (if notice then 1 else 0).
Proof.
  destruct (handleCodingLanguageChange_rule Sample.props_draft
              Sample.languages (Sample.lang "html" "HTML")
              (inr [Sample.lang "javascript" "JavaScript";
                    Sample.lang "python" "Python";
                    Sample.lang "css" "CSS"])
              (Sample.session [Sample.q_coding] 0 tab_question))
    as (s' & stored & notice & Hs & _ & Hsel & _ & Ht).
  - reflexivity.
  - simpl. lia.
  - exists s', stored, notice. auto.
Defined.

Example exclusive_language_collapses :
  validateLanguageSelection Sample.languages
    [Sample.lang "sql" "SQL"; Sample.lang "css" "CSS";
     Sample.lang "python" "Python"; Sample.lang "html" "HTML"]
  = ([Sample.lang "python" "Python"],
     "Python must be used alone. Other languages cannot be added along with it.").
Proof. vm_compute. reflexivity. Qed.

Example css_brings_html :
  validateLanguageSelection Sample.languages [Sample.lang "css" "CSS"]
  = ([Sample.lang "css" "CSS"; Sample.lang "html" "HTML"],
     "HTML has been automatically selected because CSS requires HTML").
Proof. vm_compute. reflexivity. Qed.

Example lone_exclusive_language_kept :
  validateLanguageSelection Sample.languages [Sample.lang "react" "React"]
  = ([Sample.lang "react" "React"], "").
Proof. vm_compute. reflexivity. Qed.

(** ** Changing the question type *)

Lemma template_is_pristine (ty : QuestionType) :
  existsb has_id (Template.getQuestionTemplateBlocks ty) = false.
Proof. destruct ty; reflexivity. Qed.

Lemma template_names_second_tab (ty : QuestionType) :
  (exists pre post,
     Template.getQuestionTemplateBlocks ty =
     pre ++ Template.tabsExplanationBlocks ty ++ post)
  /\ tab_labels (Template.tabsExplanationBlocks ty) =
     ["Question"; Spec.second_tab_name ty; "AI Training"].
Proof.
  split.
  - unfold Template.getQuestionTemplateBlocks.
    eexists (Template.commonBlocks ++ Template.answerTypeBlocks ty
             ++ Template.programmingLanguagesBlocks ty), _.
    rewrite <- !app_assoc. reflexivity.
  - destruct ty; reflexivity.
Qed.

(** C9, as the code has it: [handleQuestionTypeChange] sets the type and
    the response type that goes with it ([report] for subjective, [chat]
    otherwise), forces the question tab, and replaces the content by the
    template of the new type exactly when the quiz is a draft and no
    block of the content carries an [id]; in a published quiz, or when a
    block carries an [id], the content stays.  The template has no [id]
    of its own, and its tab section names the second tab of the type:
    Scorecard for subjective, Correct Answer otherwise. *)
Theorem handleQuestionTypeChange_refreshes_draft_template
        (props : Props) (ty : QuestionType) (s : EditorState)
        (q : QuizQuestion) :
  questions s !! currentQuestionIndex s = Some q ->
  exists s' q',
    handleQuestionTypeChange props (inl ty) s = Some s'
    /\ questions s' !! currentQuestionIndex s = Some q'
    /\ (forall j, j <> currentQuestionIndex s ->
                  questions s' !! j = questions s !! j)
    /\ currentQuestionIndex s' = currentQuestionIndex s
    /\ activeEditorTab s' = tab_question
    /\ questionType (config q') = ty
    /\ responseType (config q') = (if is_subjective ty then report else chat)
    /\ content q' =
       (if Status_eqb (status props) draft
           && negb (existsb has_id (content q))
        then Template.getQuestionTemplateBlocks ty
        else content q)
    /\ existsb has_id (Template.getQuestionTemplateBlocks ty) = false
    /\ (exists pre post,
          Template.getQuestionTemplateBlocks ty =
          pre ++ Template.tabsExplanationBlocks ty ++ post)
    /\ tab_labels (Template.tabsExplanationBlocks ty) =
       ["Question"; Spec.second_tab_name ty; "AI Training"].
Proof.
  intros Hq. unfold handleQuestionTypeChange.
  rewrite (handleConfigChange_in_range props _ _ _ q) by exact Hq.
  pose proof (lookup_lt_Some _ _ _ Hq) as Hlt.
  destruct (template_names_second_tab ty) as [Hseg Hlab].
  eexists. eexists. split; [reflexivity|].
  unfold notifyChange, refreshTemplate.
  destruct (onChange props); simpl;
    (split; [apply list_lookup_insert_eq; exact Hlt|]);
    (split; [intros j Hj; apply list_lookup_insert_ne; congruence|]);
    (split; [reflexivity|]); (split; [reflexivity|]);
    (split; [destruct (Status_eqb (status props) draft),
                      (existsb has_id (content q)); reflexivity|]);
    (split; [destruct (Status_eqb (status props) draft),
                      (existsb has_id (content q)); reflexivity|]);
    (split; [destruct (Status_eqb (status props) draft),
                      (existsb has_id (content q)); reflexivity|]);
    (split; [apply template_is_pristine|]);
    (split; [exact Hseg | exact Hlab]).
Qed.

(** The theorem on a draft whose only question still shows the template
    of an objective question. *)
Lemma handleQuestionTypeChange_refreshes_draft_template_witness :
  exists s' q',
    handleQuestionTypeChange Sample.props_draft (inl subjective)
      (Sample.session [Sample.q_pristine] 0 tab_answer) = Some s'
    /\ questions s' !! 0 = Some q'
    /\ content q' = Template.getQuestionTemplateBlocks subjective
    /\ activeEditorTab s' = tab_question.
Proof.
  destruct (handleQuestionTypeChange_refreshes_draft_template
              Sample.props_draft subjective
              (Sample.session [Sample.q_pristine] 0 tab_answer)
              Sample.q_pristine eq_refl)
    as (s' & q' & Hs & Hq & _ & _ & Ht & _ & _ & Hc & _).
  exists s', q'. split; [exact Hs|]. split; [exact Hq|].
  split; [exact Hc | exact Ht].
Defined.

(** The statement that fails: in a published quiz the content of a
    pristine question is not replaced. *)
Lemma handleQuestionTypeChange_keeps_published_content :
  ~ Stated.type_change_refreshes_pristine Sample.props_published subjective
      (Sample.session [Sample.q_pristine] 0 tab_question).
Proof.
  intros H.
  destruct (handleQuestionTypeChange Sample.props_published (inl subjective)
              (Sample.session [Sample.q_pristine] 0 tab_question))
    as [s'|] eqn:Hs; vm_compute in Hs; [|discriminate].
  injection Hs as <-.
  destruct (H Sample.q_pristine _ eq_refl eq_refl eq_refl)
    as (q' & Hq & Hc).
  vm_compute in Hq. injection Hq as <-.
  vm_compute in Hc. discriminate.
Qed.

Example edited_content_survives_type_change :
  option_map (fun s => option_map content (questions s !! 0))
    (handleQuestionTypeChange Sample.props_draft (inl coding)
       (Sample.session [Sample.q_objective] 0 tab_answer))
  = Some (Some (Sample.says "What is 2 + 2?")).
Proof. vm_compute. reflexivity. Qed.

(** ** Loading *)

(** When the task request fails, the editor stops loading: the fetch is
    marked as done, the loading flag is cleared, the questions stay as
    they were and the failure only reaches the console. *)
Lemma task_fetch_failure_marks_loaded
      (props : Props) (parse : string -> option Z)
      (available : list ScorecardTemplate) (s : EditorState) (task : string) :
  taskId props = Some task ->
  hasFetchedData s = false ->
  let s' := fetchQuestions props parse FetchFailed available s in
  isLoadingQuestions s' = false
  /\ hasFetchedData s' = true
  /\ questions s' = questions s
  /\ effects s' = effects s ++ [ConsoleError "Error fetching quiz questions:"].
Proof.
  intros Ht Hf. unfold fetchQuestions. rewrite Ht, Hf. simpl. auto.
Qed.

Lemma scorecards_loaded_task_fetch_failure
      (props : Props) (parse : string -> option Z)
      (data : option (list APIScorecard)) (s : EditorState) (task : string) :
  taskId props = Some task ->
  hasFetchedData s = false ->
  let s' := fetchSchoolScorecards props parse (FetchOk data) FetchFailed s in
  isLoadingQuestions s' = false
  /\ hasFetchedData s' = true
  /\ questions s' = questions s.
Proof.
  intros Ht Hf. unfold fetchSchoolScorecards, fetchQuestions.
  rewrite Ht.
  destruct (schoolId props), data; simpl; rewrite ?Hf; simpl; auto 6.
Qed.

(** C4: a failed load is meant to end the loading state whichever request
    failed.  When the scorecard request fails, the handler of the failure
    logs to the console and clears [isLoadingScorecards], but
    [fetchQuestions] is never called: on a freshly mounted editor
    [isLoadingQuestions] stays [true] and [hasFetchedData] stays [false],
    whatever the task request would have answered. *)
Theorem scorecard_fetch_failure_keeps_loading
        (parse : string -> option Z) (task : FetchResult (option APITask)) :
  let s' := fetchSchoolScorecards Sample.props_draft parse FetchFailed task
              (initialState Sample.languages) in
  isLoadingQuestions s' = true
  /\ hasFetchedData s' = false
  /\ isLoadingScorecards s' = false
  /\ questions s' = []
  /\ effects s' = [ConsoleError "Error fetching school scorecards:"].
Proof. simpl. auto 6. Qed.

(** ** Further checks on concrete inputs *)

Example extract_joins_and_trims :
  extractTextFromBlocks
    [Template.heading 2 "  Title"; Sample.image;
     Template.paragraph [Template.bold "a"; InlineString "b "]]
  = String.append "Title" (String "010" (String "010" "ab")).
Proof. vm_compute. reflexivity. Qed.

Example blank_content_is_invalid :
  validateQuestionContent [Template.empty_paragraph; Template.paragraph []]
  = false
  /\ validateQuestionContent
       [Template.empty_paragraph; Sample.image] = true.
Proof. vm_compute. auto. Qed.

Example media_only_knowledge_base_is_dropped :
  getKnowledgeBaseContent
    {| inputType := text_input; responseType := chat;
       questionType := objective; correctAnswer := None;
       scorecardData := None;
       knowledgeBaseBlocks := Some [Sample.image];
       linkedMaterialIds := Some ["12"];
       codingLanguages := None |}
  = Some {| kb_blocks := []; kb_linkedMaterialIds := ["12"] |}
  /\ getKnowledgeBaseContent
       {| inputType := text_input; responseType := chat;
          questionType := objective; correctAnswer := None;
          scorecardData := None;
          knowledgeBaseBlocks := Some [Sample.image];
          linkedMaterialIds := None;
          codingLanguages := None |}
     = None.
Proof. vm_compute. auto. Qed.

Example knowledge_base_text_is_kept :
  option_map kb_blocks
    (getKnowledgeBaseContent
       {| inputType := text_input; responseType := chat;
          questionType := objective; correctAnswer := None;
          scorecardData := None;
          knowledgeBaseBlocks := Some (Sample.says "Background");
          linkedMaterialIds := None;
          codingLanguages := None |})
  = Some (Sample.says "Background").
Proof. vm_compute. reflexivity. Qed.

Example criterion_failure_message :
  effects (snd (validateAllQuestions Sample.props_draft
         (Sample.session
            [Sample.question "q-9" subjective (Sample.says "Why?") None
               (Some {| sc_id := StrId "sc-2"; sc_name := "Draft";
                        sc_new := true; sc_is_template := false;
                        sc_criteria :=
                          [Sample.criterion "Depth" "How deep?";
                           Sample.criterion "Style" "  "] |})
               None]
            0 tab_question)))
  = [SetTimeout 250
       [DispatchHighlightCriterion 1 "description";
        CallShowErrorMessage "Empty Scorecard Parameter"
          "Please provide a description for parameter 2 in the scorecard for question 1"]].
Proof. vm_compute. reflexivity. Qed.

(** * Further properties of the code *)

(** ** Text and content *)

Lemma all_white_append (a b : string) :
  JS.all_white (a ^^ b) = JS.all_white a && JS.all_white b.
Proof.
  induction a as [|c a IH]; simpl; [reflexivity|].
  rewrite IH. apply andb_assoc.
Qed.

Lemma join_all_white (l : list string) :
  Forall (fun x => JS.all_white x = true) l ->
  JS.all_white (JS.join (String "010" "") l) = true.
Proof.
  unfold JS.join. induction l as [|x l IH]; intros H; [reflexivity|].
  inversion H as [|? ? Hx Hl]; subst. specialize (IH Hl).
  destruct l as [|y l]; [exact Hx|].
  change (String.concat (String "010" "") (x :: y :: l))
    with (x ^^ String "010" (String.concat (String "010" "") (y :: l))).
  rewrite all_white_append, Hx. simpl. exact IH.
Qed.

(** X1: content in which every block extracts to white space only and
    no block is an image, audio or video block is rejected, however many
    blocks there are; content with a media block is accepted whatever
    its text. *)
Theorem validateQuestionContent_blank_or_media (blocks : list block) :
  (Forall (fun b => JS.all_white (block_plain_text b) = true
                    /\ is_media_block b = false) blocks ->
   validateQuestionContent blocks = false)
  /\ (Exists (fun b => is_media_block b = true) blocks ->
      validateQuestionContent blocks = true).
Proof.
  split.
  - intros H. unfold validateQuestionContent.
    assert (Hmedia : existsb is_media_block blocks = false).
    { induction H as [|x l [_ Hx] Hl IH]; simpl; [reflexivity|].
      rewrite Hx. exact IH. }
    assert (Htext : Forall (fun x => JS.all_white x = true)
                           (map block_plain_text blocks)).
    { clear Hmedia.
      induction H as [|x l [Hx _] Hl IH]; cbn [map]; constructor;
        assumption. }
    destruct blocks as [|b bs]; [reflexivity|].
    unfold extractTextFromBlocks.
    rewrite (trim_all_white _ (join_all_white _ Htext)).
    exact Hmedia.
  - intros H. unfold validateQuestionContent.
    destruct blocks as [|b bs]; [inversion H|].
    destruct (0 <? _)%nat; [reflexivity|].
    apply existsb_exists. apply List.Exists_exists in H as (x & Hin & Hx).
    exists x. auto.
Qed.

Lemma trimStart_head (s : string) :
  match JS.trimStart s with
  | EmptyString => True
  | String c _ => JS.is_white_space c = false
  end.
Proof.
  induction s as [|c s IH]; simpl; [exact I|].
  destruct (JS.is_white_space c) eqn:Hc; [exact IH | exact Hc].
Qed.

Lemma trimEnd_cons (c d : ascii) (s t : string) :
  JS.trimEnd s = String d t -> JS.trimEnd (String c s) = String c (String d t).
Proof. intros H. simpl. rewrite H. reflexivity. Qed.

Lemma trimEnd_trimEnd (s : string) : JS.trimEnd (JS.trimEnd s) = JS.trimEnd s.
Proof.
  induction s as [|c s IH]; [reflexivity|].
  destruct (JS.trimEnd s) as [|d t] eqn:Ht.
  - simpl. rewrite Ht.
    destruct (JS.is_white_space c) eqn:Hc; simpl; [reflexivity|].
    rewrite Hc. reflexivity.
  - rewrite (trimEnd_cons c d s t Ht). apply trimEnd_cons. exact IH.
Qed.

Lemma trimEnd_keeps_head (c : ascii) (s : string) :
  JS.is_white_space c = false ->
  exists t, JS.trimEnd (String c s) = String c t.
Proof.
  intros Hc. simpl. destruct (JS.trimEnd s); rewrite ?Hc; eauto.
Qed.

Lemma trim_trim (s : string) : JS.trim (JS.trim s) = JS.trim s.
Proof.
  unfold JS.trim. pose proof (trimStart_head s) as Hh.
  destruct (JS.trimStart s) as [|c t] eqn:Hs; [reflexivity|].
  destruct (trimEnd_keeps_head c t Hh) as [u Hu].
  rewrite Hu. simpl JS.trimStart. rewrite Hh, <- Hu.
  apply trimEnd_trimEnd.
Qed.

(** X2: the text [extractTextFromBlocks] returns is already trimmed, so
    the second [.trim()] its callers apply changes nothing: extracting
    and trimming again gives the same string. *)
Theorem extractTextFromBlocks_is_trimmed (blocks : list block) :
  JS.trim (extractTextFromBlocks blocks) = extractTextFromBlocks blocks.
Proof.
  unfold extractTextFromBlocks. destruct blocks; [reflexivity|].
  apply trim_trim.
Qed.

(** ** The criteria of a scorecard *)

Lemma validateCriteriaFrom_first_blank (cb : bool) (qi : option nat)
      (criteria : list CriterionData) :
  forall (i : nat) (s : EditorState),
    let ok := fun c => is_blank (crit_name c) = false
                       /\ is_blank (crit_description c) = false in
    (Forall ok criteria
     /\ validateCriteriaFrom cb qi i criteria s = (true, s))
    \/ exists k c,
         criteria !! k = Some c
         /\ Forall ok (take k criteria)
         /\ (is_blank (crit_name c) = true
             \/ is_blank (crit_description c) = true)
         /\ validateCriteriaFrom cb qi i criteria s =
            (false,
             emit (criterionFailure cb qi (i + k)
                     (if is_blank (crit_name c) then "name"
                      else "description"))
                  (setActiveEditorTab tab_scorecard s)).
Proof.
  induction criteria as [|c rest IH]; intros i s ok; simpl.
  - left. split; [constructor | reflexivity].
  - destruct (is_blank (crit_name c)) eqn:Hn.
    + right. exists 0, c. rewrite Hn, Nat.add_0_r. simpl.
      split; [reflexivity|]. split; [constructor|]. auto.
    + destruct (is_blank (crit_description c)) eqn:Hd.
      * right. exists 0, c. rewrite Hn, Nat.add_0_r. simpl.
        split; [reflexivity|]. split; [constructor|]. auto.
      * destruct (IH (S i) s) as [[Hall Hr]|(k & c' & Hk & Hpre & Hb & Hr)].
        -- left. split; [constructor; [split|]; assumption | exact Hr].
        -- right. exists (S k), c'. simpl.
           split; [exact Hk|].
           split; [constructor; [split|]; assumption|].
           split; [exact Hb|].
           rewrite Hr. replace (i + S k) with (S i + k) by lia.
           reflexivity.
Qed.

(** X3: [validateScorecardCriteria] accepts every scorecard that is not
    flagged new without looking at it.  For a new one it fails exactly
    when some criterion has a blank name or description, and then it
    opens the scorecard tab and reports the first such criterion: every
    criterion before it is filled in, and the field reported is the name
    when the name is blank and the description otherwise. *)
Theorem validateScorecardCriteria_first_blank
        (sc : ScorecardTemplate) (cb : bool) (qi : option nat)
        (s : EditorState) :
  let ok := fun c => is_blank (crit_name c) = false
                     /\ is_blank (crit_description c) = false in
  let r := validateScorecardCriteria (Some sc) cb qi s in
  (sc_new sc = false -> r = (true, s))
  /\ (sc_new sc = true ->
      (Forall ok (sc_criteria sc) /\ r = (true, s))
      \/ exists k c,
           sc_criteria sc !! k = Some c
           /\ Forall ok (take k (sc_criteria sc))
           /\ (is_blank (crit_name c) = true
               \/ is_blank (crit_description c) = true)
           /\ r = (false,
                   emit (criterionFailure cb qi k
                           (if is_blank (crit_name c) then "name"
                            else "description"))
                        (setActiveEditorTab tab_scorecard s))).
Proof.
  intros ok r. subst r. unfold validateScorecardCriteria. split.
  - intros ->. reflexivity.
  - intros ->. simpl.
    exact (validateCriteriaFrom_first_blank cb qi (sc_criteria sc) 0 s).
Qed.

(** ** Adding a question *)

(** X4: [addQuestion] appends exactly one question and leaves the others
    as they are; the pointer goes to the new question and the tab to
    [question].  The new question takes the type, the answer type and the
    languages of the last question (objective, text, none in an empty
    session); its content is the template of that type, which carries no
    [id] and passes the content check; it has no answer and no
    scorecard, and its response type is [chat] whatever its type. *)
Theorem addQuestion_appends_and_inherits
        (props : Props) (now : nat) (s : EditorState) :
  let s' := addQuestion props now s in
  exists q,
    questions s' = questions s ++ [q]
    /\ currentQuestionIndex s' = length (questions s)
    /\ questions s' !! currentQuestionIndex s' = Some q
    /\ activeEditorTab s' = tab_question
    /\ schoolScorecards s' = schoolScorecards s
    /\ q_id q = "question-" ^^ JS.of_nat now
    /\ questionType (config q) =
       match last (questions s) with
       | Some p => questionType (config p) | None => objective end
    /\ inputType (config q) =
       match last (questions s) with
       | Some p => inputType (config p) | None => text_input end
    /\ codingLanguages (config q) =
       Some (match last (questions s) with
             | Some p => default [] (codingLanguages (config p))
             | None => [] end)
    /\ content q = Template.getQuestionTemplateBlocks (questionType (config q))
    /\ existsb has_id (content q) = false
    /\ validateQuestionContent (content q) = true
    /\ correctAnswer (config q) = None
    /\ scorecardData (config q) = None
    /\ responseType (config q) = chat.
Proof.
  intros s'. subst s'. unfold addQuestion, notifyChange.
  assert (Hvalid : forall ty,
             validateQuestionContent (Template.getQuestionTemplateBlocks ty)
             = true).
  { intros ty. destruct ty; vm_compute; reflexivity. }
  destruct (last (questions s)) as [p|] eqn:Hlast.
  - eexists. destruct (onChange props); simpl;
      rewrite length_app, Nat.add_sub; simpl;
      repeat match goal with |- _ /\ _ => split end;
      try reflexivity; try apply template_is_pristine; try apply Hvalid;
      try (apply list_lookup_middle; reflexivity);
      destruct (codingLanguages (config p)) as [[|l ls]|]; reflexivity.
  - eexists. destruct (onChange props); simpl;
      rewrite length_app, Nat.add_sub; simpl;
      repeat match goal with |- _ /\ _ => split end;
      try reflexivity; try apply template_is_pristine; try apply Hvalid;
      apply list_lookup_middle; reflexivity.
Qed.

Lemma addQuestion_state (props : Props) (now : nat) (s : EditorState) :
  exists q,
    questions (addQuestion props now s) = questions s ++ [q]
    /\ currentQuestionIndex (addQuestion props now s) = length (questions s)
    /\ activeEditorTab (addQuestion props now s) = tab_question
    /\ originalQuestionsRef (addQuestion props now s) = originalQuestionsRef s.
Proof.
  unfold addQuestion, notifyChange.
  destruct (last (questions s)); eexists;
    destruct (onChange props); simpl;
    rewrite length_app, Nat.add_sub; simpl; auto.
Qed.


(** ** Attaching, renaming and deleting scorecards *)

Lemma ScorecardId_eqb_refl (id : ScorecardId) : ScorecardId_eqb id id = true.
Proof. destruct id; simpl; [apply Z.eqb_refl | apply String.eqb_refl]. Qed.

Lemma map_insert {A B : Type} (f : A -> B) (l : list A) (i : nat) (x : A) :
  map f (<[i := x]> l) = <[i := f x]> (map f l).
Proof.
  revert i. induction l as [|y l IH]; intros [|i]; simpl; auto.
  f_equal. apply IH.
Qed.

Lemma map_unchanged {A : Type} (f : A -> A) (l : list A) :
  Forall (fun x => f x = x) l -> map f l = l.
Proof. induction 1; simpl; congruence. Qed.

Lemma handleCreateNewScorecard_in_range
      (props : Props) (uuid : string) (s : EditorState) (q : QuizQuestion) :
  questions s !! currentQuestionIndex s = Some q ->
  exists s',
    handleCreateNewScorecard props uuid s = Some s'
    /\ questions s' =
       <[currentQuestionIndex s :=
           withConfig (withScorecardData (Some (newScorecardData uuid))
                                         (config q)) q]> (questions s)
    /\ schoolScorecards s' = schoolScorecards s ++ [newScorecardData uuid]
    /\ activeEditorTab s' = tab_scorecard
    /\ currentQuestionIndex s' = currentQuestionIndex s
    /\ originalQuestionsRef s' = originalQuestionsRef s.
Proof.
  intros Hq. unfold handleCreateNewScorecard.
  rewrite (handleConfigChange_in_range props _ _ _ q) by exact Hq.
  eexists. split; [reflexivity|]. unfold notifyChange.
  destruct (onChange props); simpl; auto 8.
Qed.

(** X6: [handleCreateNewScorecard] attaches a scorecard named New
    Scorecard, flagged new, with one empty criterion scored 1 to 5, to the
    current question only, adds it at the end of the pool and opens the
    scorecard tab.  Such a scorecard is not a linked one, and
    [validateScorecardCriteria] rejects it as it stands. *)
Theorem handleCreateNewScorecard_attaches
        (props : Props) (uuid : string) (s : EditorState) (q : QuizQuestion) :
  questions s !! currentQuestionIndex s = Some q ->
  exists s',
    handleCreateNewScorecard props uuid s = Some s'
    /\ questions s' =
       <[currentQuestionIndex s :=
           withConfig (withScorecardData (Some (newScorecardData uuid))
                                         (config q)) q]> (questions s)
    /\ schoolScorecards s' = schoolScorecards s ++ [newScorecardData uuid]
    /\ activeEditorTab s' = tab_scorecard
    /\ currentQuestionIndex s' = currentQuestionIndex s
    /\ isLinkedScorecard (newScorecardData uuid) = false
    /\ (forall cb qi st,
          fst (validateScorecardCriteria (Some (newScorecardData uuid))
                                         cb qi st) = false).
Proof.
  intros Hq.
  destruct (handleCreateNewScorecard_in_range props uuid s q Hq)
    as (s' & Hs & Hqs & Hp & Ht & Hi & _).
  exists s'. auto 8.
Qed.

Lemma handleCreateNewScorecard_attaches_witness :
  exists s',
    handleCreateNewScorecard Sample.props_draft "sc-9"
      (Sample.session [Sample.q_bare] 0 tab_question) = Some s'
    /\ activeEditorTab s' = tab_scorecard.
Proof.
  destruct (handleCreateNewScorecard_attaches Sample.props_draft "sc-9"
              (Sample.session [Sample.q_bare] 0 tab_question)
              Sample.q_bare eq_refl)
    as (s' & Hs & _ & _ & Ht & _).
  exists s'. auto.
Defined.

Lemma clear_attached (uuid : string) (sc : ScorecardTemplate)
      (q : QuizQuestion) :
  scorecardData (config q) = None ->
  sc_id sc = StrId uuid ->
  clearScorecardIfId (StrId uuid)
    (withConfig (withScorecardData (Some sc) (config q)) q) = q.
Proof.
  intros Hnone Hid. unfold clearScorecardIfId. simpl.
  rewrite Hid, ScorecardId_eqb_refl.
  destruct q as [qid c cfg]. destruct cfg. simpl in *. subst. reflexivity.
Qed.

(** X7: creating a scorecard on a question that has none and deleting it
    again gives back the questions and the pool there were, provided
    the id generated for it is fresh: no question refers to it and no
    pool entry carries it. *)
Theorem create_then_remove_scorecard
        (props : Props) (uuid : string) (s : EditorState) (q : QuizQuestion) :
  questions s !! currentQuestionIndex s = Some q ->
  scorecardData (config q) = None ->
  Forall (fun x => Spec.references (StrId uuid) x = false) (questions s) ->
  Forall (fun sc => ScorecardId_eqb (sc_id sc) (StrId uuid) = false)
         (schoolScorecards s) ->
  exists s1 s2,
    handleCreateNewScorecard props uuid s = Some s1
    /\ removeScorecardFromSchoolScoreboards props s1 = Some s2
    /\ questions s2 = questions s
    /\ schoolScorecards s2 = schoolScorecards s
    /\ currentQuestionIndex s2 = currentQuestionIndex s.
Proof.
  intros Hq Hnone Hfresh Hpool.
  destruct (handleCreateNewScorecard_in_range props uuid s q Hq)
    as (s1 & Hs1 & Hqs1 & Hp1 & _ & Hi1 & _).
  pose proof (lookup_lt_Some _ _ _ Hq) as Hlt.
  exists s1. unfold removeScorecardFromSchoolScoreboards.
  rewrite Hi1, Hqs1, list_lookup_insert_eq by exact Hlt. simpl.
  eexists. split; [exact Hs1|]. split; [reflexivity|].
  assert (Hqs : map (clearScorecardIfId (StrId uuid))
                    (<[currentQuestionIndex s :=
                         withConfig
                           (withScorecardData (Some (newScorecardData uuid))
                                              (config q)) q]> (questions s))
                = questions s).
  { rewrite map_insert, clear_attached by auto.
    rewrite map_unchanged.
    - apply list_insert_id. exact Hq.
    - eapply List.Forall_impl; [|exact Hfresh].
      intros x Hx. rewrite clearScorecardIfId_references, Hx. reflexivity. }
  assert (Hps : List.filter
                  (fun x => negb (ScorecardId_eqb (sc_id x) (StrId uuid)))
                  (schoolScorecards s ++ [newScorecardData uuid])
                = schoolScorecards s).
  { rewrite List.filter_app. simpl. rewrite String.eqb_refl. simpl.
    rewrite app_nil_r. clear -Hpool.
    induction Hpool as [|x l Hx Hl IH]; simpl; [reflexivity|].
    rewrite Hx. simpl. f_equal. exact IH. }
  unfold notifyChange.
  destruct (onChange props); simpl; rewrite Hp1, Hps, Hqs, ?Hi1; auto.
Qed.

Lemma create_then_remove_scorecard_witness :
  exists s1 s2,
    handleCreateNewScorecard Sample.props_draft "sc-9"
      (Sample.session [Sample.q_objective; Sample.q_bare] 1 tab_question)
    = Some s1
    /\ removeScorecardFromSchoolScoreboards Sample.props_draft s1 = Some s2
    /\ questions s2 = [Sample.q_objective; Sample.q_bare].
Proof.
  destruct (create_then_remove_scorecard Sample.props_draft "sc-9"
              (Sample.session [Sample.q_objective; Sample.q_bare] 1
                              tab_question) Sample.q_bare)
    as (s1 & s2 & H1 & H2 & H3 & _).
  - reflexivity.
  - reflexivity.
  - repeat constructor.
  - constructor.
  - exists s1, s2. auto.
Defined.

(** X8: [handleSelectScorecardTemplate] attaches to the current question
    a scorecard with the name and the criteria of the one picked.  Picking
    a built-in template makes a copy with the fresh id, flagged new and
    added to the pool; picking anything else makes a reference with the
    id picked, not new, which counts as linked, leaves the pool alone,
    and is accepted by [validateScorecardCriteria] whatever its
    criteria. *)
Theorem handleSelectScorecardTemplate_copies_or_links
        (props : Props) (uuid : string) (template : ScorecardTemplate)
        (s : EditorState) (q : QuizQuestion) :
  questions s !! currentQuestionIndex s = Some q ->
  exists s' sc,
    handleSelectScorecardTemplate props uuid template s = Some s'
    /\ questions s' =
       <[currentQuestionIndex s :=
           withConfig (withScorecardData (Some sc) (config q)) q]>
         (questions s)
    /\ activeEditorTab s' = tab_scorecard
    /\ sc_name sc = sc_name template
    /\ sc_criteria sc = sc_criteria template
    /\ sc_is_template sc = false
    /\ if sc_is_template template
       then sc_id sc = StrId uuid
            /\ sc_new sc = true
            /\ isLinkedScorecard sc = false
            /\ schoolScorecards s' = schoolScorecards s ++ [sc]
       else sc_id sc = sc_id template
            /\ sc_new sc = false
            /\ isLinkedScorecard sc = true
            /\ schoolScorecards s' = schoolScorecards s
            /\ (forall cb qi st,
                  validateScorecardCriteria (Some sc) cb qi st = (true, st)).
Proof.
  intros Hq. unfold handleSelectScorecardTemplate, scorecardFromTemplate.
  destruct (sc_is_template template) eqn:Htpl; simpl.
  - rewrite (handleConfigChange_in_range props _ _ _ q) by exact Hq.
    eexists. eexists. split; [reflexivity|]. unfold notifyChange.
    destruct (onChange props); simpl; auto 10.
  - rewrite (handleConfigChange_in_range props _ _ _ q) by exact Hq.
    eexists. eexists. split; [reflexivity|]. unfold notifyChange.
    assert (Hlinked : forall id,
               isLinkedScorecard
                 {| sc_id := id; sc_name := sc_name template;
                    sc_new := false; sc_is_template := false;
                    sc_criteria := sc_criteria template |} = true).
    { intros [n|x]; reflexivity. }
    destruct (onChange props); simpl; auto 10.
Qed.

Lemma handleSelectScorecardTemplate_copies_or_links_witness :
  exists s' sc,
    handleSelectScorecardTemplate Sample.props_draft "sc-9"
      (Sample.rubric (StrId "sc-1") true)
      (Sample.session [Sample.q_owner; Sample.q_bare] 1 tab_question)
    = Some s'
    /\ sc_new sc = false /\ isLinkedScorecard sc = true.
Proof.
  destruct (handleSelectScorecardTemplate_copies_or_links Sample.props_draft
              "sc-9" (Sample.rubric (StrId "sc-1") true)
              (Sample.session [Sample.q_owner; Sample.q_bare] 1 tab_question)
              Sample.q_bare eq_refl)
    as (s' & sc & Hs & _ & _ & _ & _ & _ & H).
  simpl in H. destruct H as (_ & Hn & Hl & _).
  exists s', sc. auto.
Defined.

Lemma syncQuestion_renames (id name : string) (q : QuizQuestion) :
  syncQuestion id (Some name) None q =
  if Spec.references (StrId id) q then withScorecardName name q else q.
Proof.
  unfold syncQuestion, Spec.references, withScorecardName.
  destruct (scorecardData (config q)) as [sc|]; [|reflexivity].
  destruct (sc_id sc) as [n|x] eqn:Hid; simpl; [reflexivity|].
  destruct (x =? id); [|reflexivity].
  unfold withName. rewrite Hid. reflexivity.
Qed.

(** X9: renaming the scorecard of the current question renames, in the
    pool, every entry with its id, and in the questions the current
    question's copy.  The other questions that share the id are renamed
    with it exactly when the current copy is flagged new; from a copy
    that is not new (a linked one) the new name reaches the pool but not
    the questions that share the scorecard. *)
Theorem onScorecardNameChange_renames
        (props : Props) (name : string) (s : EditorState)
        (q : QuizQuestion) (cur : ScorecardTemplate) :
  questions s !! currentQuestionIndex s = Some q ->
  scorecardData (config q) = Some cur ->
  (sc_new cur = true -> exists id, sc_id cur = StrId id /\ id <> "") ->
  exists s',
    onScorecardNameChange props name s = Some s'
    /\ (forall j qj,
          questions s !! j = Some qj ->
          questions s' !! j =
          Some (if Nat.eqb j (currentQuestionIndex s)
                   || (sc_new cur && Spec.references (sc_id cur) qj)
                then withScorecardName name qj else qj))
    /\ schoolScorecards s' =
       map (fun sc => if ScorecardId_eqb (sc_id sc) (sc_id cur)
                      then withName name sc else sc)
           (schoolScorecards s)
    /\ currentQuestionIndex s' = currentQuestionIndex s
    /\ activeEditorTab s' = activeEditorTab s.
Proof.
  intros Hq Hsc Hnew. unfold onScorecardNameChange, currentQuestionConfig.
  rewrite Hq, Hsc.
  rewrite (handleConfigChange_in_range props _ _ _ q) by exact Hq.
  pose proof (lookup_lt_Some _ _ _ Hq) as Hlt.
  assert (Hcur : withConfig
                   (spreadConfig (config q)
                      (scorecardUpdate (withName name cur))) q
                 = withScorecardName name q).
  { unfold withScorecardName. rewrite Hsc. reflexivity. }
  destruct (sc_new cur) eqn:Hn.
  - destruct (Hnew eq_refl) as (id & Hid & Hne).
    unfold syncLinkedScorecardsFrom. rewrite Hid. simpl id_falsy.
    rewrite (is_empty_false id Hne).
    eexists. split; [reflexivity|]. unfold notifyChange.
    assert (Hlook : forall j qj,
               questions s !! j = Some qj ->
               map (syncQuestionWith (StrId id) (Some name) None)
                   (questions s) !! j =
               Some (if Nat.eqb j (currentQuestionIndex s)
                        || (true && Spec.references (StrId id) qj)
                     then withScorecardName name qj else qj)).
    { intros j qj Hj. rewrite lookup_map, Hj. simpl.
      rewrite syncQuestion_renames.
      destruct (Nat.eqb_spec j (currentQuestionIndex s)) as [->|_];
        [|reflexivity].
      assert (qj = q) by congruence. subst qj.
      assert (Href : Spec.references (StrId id) q = true).
      { unfold Spec.references. rewrite Hsc, Hid. apply String.eqb_refl. }
      rewrite Href. reflexivity. }
    destruct (onChange props); simpl; auto.
  - eexists. split; [reflexivity|]. unfold notifyChange, refreshTemplate.
    rewrite Hcur.
    assert (Hlook : forall j qj,
               questions s !! j = Some qj ->
               <[currentQuestionIndex s := withScorecardName name q]>
                 (questions s) !! j =
               Some (if Nat.eqb j (currentQuestionIndex s) || false
                     then withScorecardName name qj else qj)).
    { intros j qj Hj.
      destruct (Nat.eqb_spec j (currentQuestionIndex s)) as [->|Hne].
      - rewrite list_lookup_insert_eq by exact Hlt.
        simpl. congruence.
      - rewrite list_lookup_insert_ne by congruence. exact Hj. }
    destruct (onChange props); simpl; auto.
Qed.

(** The theorem on a linked copy: the owner keeps the old name. *)
Lemma onScorecardNameChange_renames_witness :
  exists s',
    onScorecardNameChange Sample.props_draft "Renamed"
      (Sample.session [Sample.q_owner; Sample.q_linked] 1 tab_scorecard)
    = Some s'
    /\ questions s' !! 0 = Some Sample.q_owner
    /\ questions s' !! 1 = Some (withScorecardName "Renamed" Sample.q_linked).
Proof.
  destruct (onScorecardNameChange_renames Sample.props_draft "Renamed"
              (Sample.session [Sample.q_owner; Sample.q_linked] 1
                              tab_scorecard)
              Sample.q_linked (Sample.rubric (StrId "sc-1") false)
              eq_refl eq_refl)
    as (s' & Hs & Hl & _).
  - discriminate.
  - exists s'. split; [exact Hs|].
    split; [exact (Hl 0 Sample.q_owner eq_refl)
           | exact (Hl 1 Sample.q_linked eq_refl)].
Defined.

(** ** Save, publish and load *)

(** X10: in the publish payload a question carries its scorecard either
    by id or inline, never both, and neither exactly when it has none.
    It goes by id only when the id is a number and the scorecard is
    neither new nor a template; every other scorecard goes inline with
    its id, name and all its criteria.  The response type sent is derived
    from the question type, whatever the question's own [responseType]
    says. *)
Theorem formatQuestionForPublish_scorecard
        (taskType : TaskType) (q : QuizQuestion) :
  let p := formatQuestionForPublish taskType q in
  (pub_scorecard p = None \/ pub_scorecard_id p = None)
  /\ (scorecardData (config q) = None <->
      pub_scorecard p = None /\ pub_scorecard_id p = None)
  /\ (forall id, pub_scorecard_id p = Some id ->
        exists n sc, id = NumId n
                     /\ scorecardData (config q) = Some sc
                     /\ sc_id sc = NumId n
                     /\ sc_new sc = false /\ sc_is_template sc = false)
  /\ (forall inline, pub_scorecard p = Some inline ->
        exists sc, scorecardData (config q) = Some sc
                   /\ pub_sc_id inline = sc_id sc
                   /\ pub_sc_title inline = sc_name sc
                   /\ map api_crit_name (pub_sc_criteria inline)
                      = map crit_name (sc_criteria sc)
                   /\ map api_crit_description (pub_sc_criteria inline)
                      = map crit_description (sc_criteria sc))
  /\ pub_response_type p =
     (if is_subjective (questionType (config q)) then report else chat).
Proof.
  intros p. subst p. unfold formatQuestionForPublish. simpl.
  destruct (scorecardData (config q)) as [sc|] eqn:Hsc.
  - destruct (isPublishedScorecard sc) eqn:Hp; simpl.
    + assert (Hfacts : exists n, sc_id sc = NumId n /\ sc_new sc = false
                                 /\ sc_is_template sc = false).
      { unfold isPublishedScorecard in Hp.
        destruct (sc_new sc), (sc_is_template sc), (sc_id sc) as [n|x];
          try discriminate. eauto. }
      destruct Hfacts as (n & Hid & Hn & Ht).
      split; [left; reflexivity|].
      split; [split; [discriminate | intros [_ H]; discriminate]|].
      split; [intros id [= <-]; exists n, sc; auto|].
      split; [discriminate | reflexivity].
    + split; [right; reflexivity|].
      split; [split; [discriminate | intros [H _]; discriminate]|].
      split; [discriminate|].
      split; [|reflexivity].
      intros inline [= <-]. exists sc. simpl. rewrite !map_map. auto.
  - split; [auto|]. split; [tauto|].
    split; [discriminate|]. split; [discriminate | reflexivity].
Qed.

Lemma find_transformed (parse : string -> option Z) (id : Z)
      (data : list APIScorecard) :
  List.find (fun sc => match parseInt parse (sc_id sc) with
                       | Some n => Z.eqb n id
                       | None => false
                       end)
            (map transformScorecard data)
  = option_map transformScorecard
      (List.find (fun a => Z.eqb (api_sc_id a) id) data).
Proof.
  induction data as [|a data IH]; simpl; [reflexivity|].
  destruct (Z.eqb (api_sc_id a) id); [reflexivity | exact IH].
Qed.

(** X11: loading resolves a question's [scorecard_id] against the
    scorecards the backend sent, taking the first with that id.  The
    question then holds a published reference with that scorecard's name
    and criteria, and publishing sends the reference back by the same
    id.  A [scorecard_id] that is missing, zero, or not among the
    scorecards leaves the question without a scorecard, and publishing
    sends none. *)
Theorem loaded_scorecard_round_trip
        (parse : string -> option Z) (data : list APIScorecard)
        (aq : APIQuestionResponse) (taskType : TaskType) :
  let q := questionOfResponse parse (map transformScorecard data) aq in
  let p := formatQuestionForPublish taskType q in
  let found :=
    match api_scorecard_id aq with
    | Some id => if Z.eqb id 0 then None
                 else List.find (fun a => Z.eqb (api_sc_id a) id) data
    | None => None
    end in
  match found with
  | Some a =>
      api_scorecard_id aq = Some (api_sc_id a)
      /\ scorecardData (config q) = Some (transformScorecard a)
      /\ isPublishedScorecard (transformScorecard a) = true
      /\ pub_scorecard_id p = Some (NumId (api_sc_id a))
      /\ pub_scorecard p = None
  | None =>
      scorecardData (config q) = None
      /\ pub_scorecard_id p = None
      /\ pub_scorecard p = None
  end.
Proof.
  intros q p found. subst q p found.
  unfold formatQuestionForPublish, questionOfResponse, matchingScorecard.
  simpl. destruct (api_scorecard_id aq) as [id|]; [|auto].
  destruct (Z.eqb_spec id 0) as [->|Hne]; simpl; [auto|].
  rewrite find_transformed.
  destruct (List.find (fun a => Z.eqb (api_sc_id a) id) data) as [a|] eqn:Hf.
  - pose proof (find_some _ _ Hf) as [_ Heq].
    apply Z.eqb_eq in Heq. subst id.
    destruct data as [|d data]; [discriminate Hf|]. simpl. auto 6.
  - destruct data as [|d data]; simpl; auto.
Qed.

(** X12: questions are fetched once.  After a first call of
    [fetchQuestions] a second one changes nothing, whatever the backend
    answers and whatever scorecards it is given; and once
    [hasFetchedData] is set, re-running the whole mount effect never
    touches the questions or their snapshot. *)
Theorem fetchQuestions_runs_once
        (props : Props) (parse : string -> option Z)
        (task1 task2 : FetchResult (option APITask))
        (available1 available2 : list ScorecardTemplate)
        (scorecards : FetchResult (option (list APIScorecard)))
        (s : EditorState) :
  fetchQuestions props parse task2 available2
    (fetchQuestions props parse task1 available1 s)
  = fetchQuestions props parse task1 available1 s
  /\ (hasFetchedData s = true ->
      questions (fetchSchoolScorecards props parse scorecards task2 s)
      = questions s
      /\ originalQuestionsRef
           (fetchSchoolScorecards props parse scorecards task2 s)
         = originalQuestionsRef s).
Proof.
  split.
  - unfold fetchQuestions.
    destruct (taskId props); [|reflexivity].
    destruct (hasFetchedData s) eqn:Hf; simpl; [rewrite Hf; reflexivity|].
    destruct task1 as [|[[[[|a l]|]]|]]; simpl; try reflexivity;
      destruct (onChange props); reflexivity.
  - intros Hf. unfold fetchSchoolScorecards, fetchQuestions.
    destruct (schoolId props), (taskId props), scorecards as [|[d|]];
      simpl; rewrite ?Hf; simpl; auto.
Qed.

(** ** What every handler keeps *)

Section Frames.

Variable props : Props.
Variable table : list DropdownOption.

(** What a handler may not touch for the pointer to stay on a question
    and the snapshot to stay the one taken at load. *)
Lemma handleConfigChange_frame (u : ConfigUpdate)
      (o : option ConfigChangeOptions) (s s' : EditorState) :
  handleConfigChange props u o s = Some s' ->
  length (questions s') = length (questions s)
  /\ currentQuestionIndex s' = currentQuestionIndex s
  /\ originalQuestionsRef s' = originalQuestionsRef s.
Proof.
  unfold handleConfigChange, notifyChange.
  destruct (questions s) as [|q0 qs] eqn:Hqs.
  - intros [= <-]. rewrite Hqs. auto.
  - destruct ((q0 :: qs) !! currentQuestionIndex s); [|discriminate].
    intros [= <-]. destruct (onChange props); simpl;
      rewrite length_insert; auto.
Qed.

Lemma handleConfigChange_succeeds (u : ConfigUpdate)
      (o : option ConfigChangeOptions) (s : EditorState) :
  consistent s -> is_Some (handleConfigChange props u o s).
Proof.
  intros [[Hnil _]|Hlt]; unfold handleConfigChange.
  - rewrite Hnil. eauto.
  - destruct (lookup_lt_is_Some_2 _ _ Hlt) as [q Hq]. rewrite Hq.
    destruct (questions s); eauto.
Qed.

Lemma consistent_transfer (s s' : EditorState) :
  length (questions s') = length (questions s) ->
  currentQuestionIndex s' = currentQuestionIndex s ->
  consistent s -> consistent s'.
Proof.
  intros Hl Hi [[Hnil H0]|Hlt].
  - left. split; [|congruence].
    apply nil_length_inv. rewrite Hl, Hnil. reflexivity.
  - right. lia.
Qed.

Lemma validateCriteriaFrom_frame (cb : bool) (qi : option nat)
      (criteria : list CriterionData) :
  forall (i : nat) (s : EditorState),
    let s' := snd (validateCriteriaFrom cb qi i criteria s) in
    questions s' = questions s
    /\ currentQuestionIndex s' = currentQuestionIndex s
    /\ originalQuestionsRef s' = originalQuestionsRef s.
Proof.
  induction criteria as [|c rest IH]; intros i s; simpl; [auto|].
  destruct (is_blank (crit_name c)); simpl; [auto|].
  destruct (is_blank (crit_description c)); simpl; [auto|].
  apply IH.
Qed.

Local Arguments validateCriteriaFrom : simpl never.

Lemma validateQuestion_frame (i : nat) (q : QuizQuestion) (s : EditorState) :
  let s' := snd (validateQuestion props i q s) in
  questions s' = questions s
  /\ originalQuestionsRef s' = originalQuestionsRef s
  /\ (currentQuestionIndex s' = currentQuestionIndex s
      \/ currentQuestionIndex s' = i).
Proof.
  unfold validateQuestion, and_then, checkContent, checkCodingLanguages,
    checkCorrectAnswer, checkScorecard, validateScorecardCriteria,
    notifyValidationError.
  destruct (validateQuestionContent (content q)); simpl;
    [|destruct (onValidationError props); simpl; auto].
  destruct (questionType (config q)); simpl.
  - destruct (validateCorrectAnswer (config q)); simpl;
      [auto|destruct (onValidationError props); simpl; auto].
  - destruct (validateScorecard (config q)); simpl;
      [|destruct (onValidationError props); simpl; auto].
    destruct (scorecardData (config q)) as [sc|]; simpl; [|auto].
    destruct (sc_new sc); simpl; [|auto].
    destruct (validateCriteriaFrom_frame (onValidationError props) (Some i)
                (sc_criteria sc) 0 (setCurrentQuestionIndex i s))
      as (Hq & Hi & Ho).
    simpl in *. auto.
  - destruct (codingLanguages (config q)) as [[|l ls]|]; simpl.
    + destruct (onValidationError props); simpl; auto.
    + destruct (validateCorrectAnswer (config q)); simpl;
        [auto|destruct (onValidationError props); simpl; auto].
    + destruct (onValidationError props); simpl; auto.
Qed.

Lemma validateQuestionsFrom_frame (qs : list QuizQuestion) :
  forall (i : nat) (s : EditorState),
    let s' := snd (validateQuestionsFrom props i qs s) in
    questions s' = questions s
    /\ originalQuestionsRef s' = originalQuestionsRef s
    /\ (currentQuestionIndex s' = currentQuestionIndex s
        \/ (i <= currentQuestionIndex s' < i + length qs)%nat).
Proof.
  induction qs as [|q rest IH]; intros i s; simpl; [auto|].
  destruct (validateQuestion_frame i q s) as (Hq & Ho & Hi).
  unfold and_then.
  destruct (fst (validateQuestion props i q s)).
  - destruct (IH (S i) (snd (validateQuestion props i q s)))
      as (Hq2 & Ho2 & Hi2).
    split; [congruence|]. split; [congruence|].
    destruct Hi2 as [Hi2|Hi2]; [|right; lia].
    destruct Hi as [Hi|Hi]; [left; congruence | right; lia].
  - split; [exact Hq|]. split; [exact Ho|].
    destruct Hi as [Hi|Hi]; [left; exact Hi | right; lia].
Qed.

Lemma validateAllQuestions_frame (s : EditorState) :
  let s' := snd (validateAllQuestions props s) in
  questions s' = questions s
  /\ originalQuestionsRef s' = originalQuestionsRef s
  /\ (currentQuestionIndex s' = currentQuestionIndex s
      \/ (currentQuestionIndex s' < length (questions s))%nat).
Proof.
  unfold validateAllQuestions, notifyValidationError.
  destruct (questions s) as [|q qs] eqn:Hqs.
  - destruct (onValidationError props); simpl; rewrite Hqs; auto.
  - destruct (validateQuestionsFrom_frame (q :: qs) 0 s) as (Hq & Ho & Hi).
    rewrite Hqs in Hq. split; [exact Hq|]. split; [exact Ho|].
    destruct Hi as [Hi|Hi]; [left; exact Hi | right; lia].
Qed.

Lemma findIndex_lt (p : QuizQuestion -> bool) (qs : list QuizQuestion) :
  forall n, findIndex p qs = Some n ->
            exists q, qs !! n = Some q /\ p q = true
                      /\ Forall (fun x => p x = false) (take n qs).
Proof.
  induction qs as [|q rest IH]; simpl; [discriminate|].
  destruct (p q) eqn:Hp.
  - intros n [= <-]. exists q. simpl. auto.
  - destruct (findIndex p rest) as [m|]; simpl; [|discriminate].
    intros n [= <-]. destruct (IH m eq_refl) as (x & Hx & Hpx & Hpre).
    exists x. simpl. auto.
Qed.

(** Every action keeps the snapshot, and keeps the pointer on a
    question. *)
Lemma perform_frame (a : Action) (s s' : EditorState) :
  perform props table a s = Some s' ->
  originalQuestionsRef s' = originalQuestionsRef s
  /\ (consistent s -> consistent s').
Proof.
  destruct a; simpl.
  - intros [= <-].
    destruct (addQuestion_state props now s) as (q & Hq & Hi & _ & Ho).
    split; [exact Ho|]. intros _. right. rewrite Hq, Hi, length_app.
    simpl. lia.
  - intros [= <-]. unfold deleteQuestion, notifyChange, consistent.
    destruct (Nat.leb_spec (length (questions s)) 1) as [Hle|Hgt].
    + destruct (onChange props); simpl; (split; [reflexivity|]);
        intros [[_ H0]|Hlt]; left; (split; [reflexivity|lia]).
    + assert (Hc : (questions s = [] /\ currentQuestionIndex s = 0)
                   \/ (currentQuestionIndex s < length (questions s))%nat ->
                   (currentQuestionIndex s < length (questions s))%nat).
      { intros [[Hnil _]|Hlt]; [rewrite Hnil in Hgt; simpl in Hgt; lia|].
        exact Hlt. }
      destruct (Nat.leb_spec
                  (length (delete (currentQuestionIndex s) (questions s)))
                  (currentQuestionIndex s)) as [Hlast|Hin];
        destruct (onChange props); simpl; (split; [reflexivity|]);
        intros Hcons; specialize (Hc Hcons); right;
        pose proof (length_delete (questions s) (currentQuestionIndex s)
                      (lookup_lt_is_Some_2 _ _ Hc)); lia.
  - unfold goToPreviousQuestion, moveTo.
    destruct (Nat.ltb_spec 0 (currentQuestionIndex s)) as [Hpos|Hzero];
      [|intros [= <-]; auto].
    destruct (questions s !! (currentQuestionIndex s - 1)) as [d|] eqn:Hd;
      [|destruct (_ || _); [discriminate|]; intros [= <-];
        split; [reflexivity|]; apply lookup_ge_None in Hd;
        intros [[_ H0] | Hlt]; lia].
    destruct (adjustTabFor_rule d s) as (Hq & _ & _).
    apply lookup_lt_Some in Hd.
    assert (Ho : originalQuestionsRef (adjustTabFor d s)
                 = originalQuestionsRef s).
    { unfold adjustTabFor.
      repeat match goal with |- context [if ?b then _ else _] =>
                               destruct b end; reflexivity. }
    intros [= <-].
    destruct (onQuestionChange props && negb (isPreviewMode props)); simpl;
      (split; [exact Ho|]); intros _; unfold consistent; simpl; right;
      rewrite Hq; exact Hd.
  - unfold goToNextQuestion, moveTo.
    destruct (Z.ltb_spec (Z.of_nat (currentQuestionIndex s))
                         (Z.of_nat (length (questions s)) - 1))
      as [Hin|Hlast]; [|intros [= <-]; auto].
    destruct (questions s !! (currentQuestionIndex s + 1)) as [d|] eqn:Hd;
      [|apply lookup_ge_None in Hd; lia].
    destruct (adjustTabFor_rule d s) as (Hq & _ & _).
    apply lookup_lt_Some in Hd.
    assert (Ho : originalQuestionsRef (adjustTabFor d s)
                 = originalQuestionsRef s).
    { unfold adjustTabFor.
      repeat match goal with |- context [if ?b then _ else _] =>
                               destruct b end; reflexivity. }
    intros [= <-].
    destruct (onQuestionChange props && negb (isPreviewMode props)); simpl;
      (split; [exact Ho|]); intros _; unfold consistent; simpl; right;
      rewrite Hq; exact Hd.
  - unfold handleQuestionTypeChange.
    destruct (handleConfigChange props _ _ _) as [s2|] eqn:H2; [|discriminate].
    intros [= <-]. apply handleConfigChange_frame in H2 as (Hl & Hi & Ho).
    simpl in *. split; [exact Ho|].
    apply consistent_transfer; assumption.
  - unfold handleAnswerTypeChange. intros H.
    apply handleConfigChange_frame in H as (Hl & Hi & Ho).
    split; [exact Ho|]. apply consistent_transfer; assumption.
  - unfold handleCodingLanguageChange.
    destruct (validateLanguageSelection table selection) as [v m].
    destruct (handleConfigChange props _ _ _) as [s2|] eqn:H2; [|discriminate].
    apply handleConfigChange_frame in H2 as (Hl & Hi & Ho). simpl in *.
    intros [= <-].
    destruct (JS.is_empty m); simpl; (split; [exact Ho|]);
      apply consistent_transfer; assumption.
  - unfold handleCorrectAnswerChange. intros H.
    apply handleConfigChange_frame in H as (Hl & Hi & Ho).
    split; [exact Ho|]. apply consistent_transfer; assumption.
  - unfold handleCreateNewScorecard.
    destruct (handleConfigChange props _ _ _) as [s2|] eqn:H2; [|discriminate].
    apply handleConfigChange_frame in H2 as (Hl & Hi & Ho).
    intros [= <-]. simpl. split; [exact Ho|].
    apply consistent_transfer; assumption.
  - unfold handleSelectScorecardTemplate.
    destruct (handleConfigChange props _ _ _) as [s2|] eqn:H2; [|discriminate].
    apply handleConfigChange_frame in H2 as (Hl & Hi & Ho).
    intros [= <-].
    destruct (sc_new (scorecardFromTemplate uuid template)); simpl in *;
      (split; [exact Ho|]); apply consistent_transfer; assumption.
  - unfold removeScorecardFromSchoolScoreboards, notifyChange.
    destruct (questions s !! currentQuestionIndex s) as [q|]; [|discriminate].
    destruct (scorecardData (config q)) as [sc|]; [|intros [= <-]; auto].
    intros [= <-].
    destruct (onChange props), (sc_new sc); simpl; (split; [reflexivity|]);
      apply consistent_transfer; simpl; auto using length_map.
  - unfold onScorecardNameChange.
    destruct (scorecardData (currentQuestionConfig s)) as [cur|];
      [|intros [= <-]; auto].
    destruct (handleConfigChange props _ _ _) as [s2|] eqn:H2; [|discriminate].
    apply handleConfigChange_frame in H2 as (Hl & Hi & Ho).
    intros [= <-]. unfold syncLinkedScorecardsFrom, notifyChange.
    destruct (sc_new cur), (id_falsy (sc_id cur)), (onChange props);
      simpl; (split; [exact Ho|]);
      apply consistent_transfer; simpl; rewrite ?length_map; auto.
  - intros [= <-]. unfold syncCurrentQuestionId.
    destruct id as [x|]; [|auto].
    destruct (questions s) as [|q0 qs] eqn:Hqs; [auto|].
    destruct (JS.is_empty x); [auto|].
    destruct (findIndex _ (q0 :: qs)) as [n|] eqn:Hn; [|auto].
    simpl. split; [reflexivity|]. intros _.
    unfold consistent. simpl. right. rewrite Hqs.
    destruct (findIndex_lt _ _ _ Hn) as (q & Hq & _).
    apply lookup_lt_Some in Hq. exact Hq.
  - intros [= <-].
    destruct (validateAllQuestions_frame s) as (Hq & Ho & Hi).
    split; [exact Ho|]. intros Hc.
    destruct Hi as [Hi|Hi].
    + apply (consistent_transfer s); [rewrite Hq; reflexivity|exact Hi|exact Hc].
    + right. rewrite Hq. exact Hi.
Qed.

End Frames.

Lemma run_frame (props : Props) (table : list DropdownOption)
      (actions : list Action) :
  forall s s',
    run props table actions s = Some s' ->
    originalQuestionsRef s' = originalQuestionsRef s
    /\ (consistent s -> consistent s').
Proof.
  induction actions as [|a rest IH]; intros s s'; simpl.
  - intros [= <-]. auto.
  - destruct (perform props table a s) as [s1|] eqn:H1; [|discriminate].
    intros Hrun. destruct (perform_frame props table a s s1 H1) as [Ho Hc].
    destruct (IH s1 s' Hrun) as [Ho' Hc'].
    split; [congruence | auto].
Qed.

(** X13: whatever the user does, in whatever order (adding, deleting,
    navigating, changing type, answer type, languages or answer,
    creating, picking, renaming or deleting a scorecard, following the
    parent's question id, validating), the pointer stays on a question,
    or at 0 in an empty session, as long as no handler throws. *)
Theorem run_keeps_pointer_on_a_question
        (props : Props) (table : list DropdownOption)
        (actions : list Action) (s s' : EditorState) :
  consistent s ->
  run props table actions s = Some s' ->
  consistent s'.
Proof.
  intros Hc Hrun. exact (proj2 (run_frame props table actions s s' Hrun) Hc).
Qed.

Lemma run_keeps_pointer_on_a_question_witness :
  exists s',
    run Sample.props_draft Sample.languages
      [AddQuestion 7; ChangeQuestionType coding; DeleteQuestion;
       GoToPreviousQuestion; ValidateBeforePublish]
      (Sample.session [Sample.q_objective; Sample.q_owner] 1 tab_scorecard)
    = Some s'
    /\ consistent s'.
Proof.
  eexists. split; [vm_compute; reflexivity|].
  apply (run_keeps_pointer_on_a_question Sample.props_draft Sample.languages
           [AddQuestion 7; ChangeQuestionType coding; DeleteQuestion;
            GoToPreviousQuestion; ValidateBeforePublish]
           (Sample.session [Sample.q_objective; Sample.q_owner] 1
                           tab_scorecard)).
  - right. simpl. lia.
  - vm_compute. reflexivity.
Defined.

(** X14: while the pointer is on a question, or at 0 in an empty
    session, no handler throws: every action yields a next state.  The
    one exception is deleting a scorecard in an empty session, which
    reads the config of a question that is not there. *)
Theorem perform_never_throws
        (props : Props) (table : list DropdownOption)
        (a : Action) (s : EditorState) :
  consistent s ->
  (is_Some (perform props table a s)
   \/ (a = RemoveScorecard /\ questions s = []))
  /\ (questions s = [] -> perform props table RemoveScorecard s = None).
Proof.
  intros Hc. split.
  - assert (Hcfg : forall u o s0,
               questions s0 = questions s ->
               currentQuestionIndex s0 = currentQuestionIndex s ->
               is_Some (handleConfigChange props u o s0)).
    { intros u o s0 Hq Hi. apply handleConfigChange_succeeds.
      apply (consistent_transfer s); [rewrite Hq; reflexivity | exact Hi
                                     | exact Hc]. }
    destruct a; simpl.
    + left. eauto.
    + left. eauto.
    + left. unfold goToPreviousQuestion, moveTo.
      destruct (Nat.ltb_spec 0 (currentQuestionIndex s)) as [Hpos|_]; [|eauto].
      destruct Hc as [[_ H0]|Hlt]; [lia|].
      destruct (lookup_lt_is_Some_2 (questions s) (currentQuestionIndex s - 1))
        as [d Hd]; [lia|].
      rewrite Hd. eauto.
    + left. unfold goToNextQuestion, moveTo.
      destruct (Z.ltb_spec (Z.of_nat (currentQuestionIndex s))
                           (Z.of_nat (length (questions s)) - 1)) as [Hin|_];
        [|eauto].
      destruct (lookup_lt_is_Some_2 (questions s) (currentQuestionIndex s + 1))
        as [d Hd]; [lia|].
      rewrite Hd. eauto.
    + left. unfold handleQuestionTypeChange.
      destruct (Hcfg
                  {| upd_inputType :=
                       Some match ty with
                            | coding => text_input
                            | _ => inputType (currentQuestionConfig s)
                            end;
                     upd_responseType :=
                       Some (if is_subjective ty then report else chat);
                     upd_questionType := Some ty;
                     upd_correctAnswer := None;
                     upd_scorecardData := None;
                     upd_knowledgeBaseBlocks := None;
                     upd_linkedMaterialIds := None;
                     upd_codingLanguages := None |}
                  (Some {| updateTemplate := Some true;
                           newQuestionType := Some ty |})
                  (setSelectedQuestionType ty s) eq_refl eq_refl)
        as [s2 H2].
      rewrite H2. eauto.
    + left. unfold handleAnswerTypeChange. apply Hcfg; reflexivity.
    + left. unfold handleCodingLanguageChange.
      destruct (validateLanguageSelection table selection) as [v m].
      destruct (Hcfg
                  {| upd_inputType := None; upd_responseType := None;
                     upd_questionType := None; upd_correctAnswer := None;
                     upd_scorecardData := None;
                     upd_knowledgeBaseBlocks := None;
                     upd_linkedMaterialIds := None;
                     upd_codingLanguages := Some (map opt_value v) |}
                  None (setSelectedCodingLanguages v s) eq_refl eq_refl)
        as [s2 H2].
      rewrite H2. eauto.
    + left. unfold handleCorrectAnswerChange. apply Hcfg; reflexivity.
    + left. unfold handleCreateNewScorecard.
      destruct (Hcfg (scorecardUpdate (newScorecardData uuid)) None s
                     eq_refl eq_refl) as [s2 H2].
      rewrite H2. eauto.
    + left. unfold handleSelectScorecardTemplate.
      destruct (sc_new (scorecardFromTemplate uuid template)).
      * destruct (Hcfg (scorecardUpdate (scorecardFromTemplate uuid template))
                       None
                       (setSchoolScorecards
                          (schoolScorecards s
                           ++ [scorecardFromTemplate uuid template]) s)
                       eq_refl eq_refl) as [s2 H2].
        rewrite H2. eauto.
      * destruct (Hcfg (scorecardUpdate (scorecardFromTemplate uuid template))
                       None s eq_refl eq_refl) as [s2 H2].
        rewrite H2. eauto.
    + destruct Hc as [[Hnil _]|Hlt]; [right; auto|]. left.
      unfold removeScorecardFromSchoolScoreboards.
      destruct (lookup_lt_is_Some_2 _ _ Hlt) as [q Hq]. rewrite Hq.
      destruct (scorecardData (config q)); eauto.
    + left. unfold onScorecardNameChange.
      destruct (scorecardData (currentQuestionConfig s)) as [cur|]; [|eauto].
      destruct (Hcfg (scorecardUpdate (withName name cur)) None s
                     eq_refl eq_refl) as [s2 H2].
      rewrite H2. eauto.
    + left. eauto.
    + left. eauto.
  - intros Hnil. simpl. unfold removeScorecardFromSchoolScoreboards.
    rewrite Hnil. reflexivity.
Qed.

Lemma perform_never_throws_witness :
  is_Some (perform Sample.props_draft Sample.languages GoToPreviousQuestion
             (Sample.session [Sample.q_objective; Sample.q_owner] 1
                             tab_scorecard)).
Proof.
  destruct (perform_never_throws Sample.props_draft Sample.languages
              GoToPreviousQuestion
              (Sample.session [Sample.q_objective; Sample.q_owner] 1
                              tab_scorecard)) as [[H|[H _]] _].
  - right. simpl. lia.
  - exact H.
  - discriminate H.
Defined.

(** X15: cancelling gives back the questions as they were loaded,
    after any number of edits of any kind in between. *)
Theorem handleCancel_restores_loaded_questions
        (props : Props) (table : list DropdownOption)
        (parse : string -> option Z) (available : list ScorecardTemplate)
        (task : string) (aq : APIQuestionResponse)
        (aqs : list APIQuestionResponse) (actions : list Action)
        (s s2 : EditorState) :
  taskId props = Some task ->
  hasFetchedData s = false ->
  let loaded :=
    fetchQuestions props parse
      (FetchOk (Some {| api_questions := Some (aq :: aqs) |})) available s in
  run props table actions loaded = Some s2 ->
  questions loaded = map (questionOfResponse parse available) (aq :: aqs)
  /\ questions (handleCancel s2) = questions loaded.
Proof.
  intros Ht Hf loaded Hrun.
  assert (Hload : questions loaded
                  = map (questionOfResponse parse available) (aq :: aqs)
                  /\ originalQuestionsRef loaded
                     = map (questionOfResponse parse available) (aq :: aqs)).
  { subst loaded. unfold fetchQuestions. rewrite Ht, Hf. simpl.
    destruct (onChange props); simpl; auto. }
  destruct Hload as [Hq Ho]. split; [exact Hq|].
  destruct (run_frame props table actions loaded s2 Hrun) as [Hsnap _].
  unfold handleCancel. rewrite Hsnap, Ho, Hq. reflexivity.
Qed.

Lemma handleCancel_restores_loaded_questions_witness :
  exists s2,
    run Sample.props_draft Sample.languages
      [AddQuestion 7; ChangeQuestionType subjective; GoToPreviousQuestion;
       DeleteQuestion]
      (fetchQuestions Sample.props_draft (fun _ => None)
         (FetchOk (Some {| api_questions :=
            Some [ {| api_id := 5; api_type := objective;
                      api_blocks := Some (Sample.says "What is 2 + 2?");
                      api_answer := Some (Sample.says "4");
                      api_input_type := None; api_response_type := chat;
                      api_scorecard_id := None; api_context := None;
                      api_coding_languages := None |} ] |}))
         [] (initialState Sample.languages)) = Some s2
    /\ option_map q_id (questions (handleCancel s2) !! 0) = Some "5".
Proof.
  destruct (run Sample.props_draft Sample.languages
      [AddQuestion 7; ChangeQuestionType subjective; GoToPreviousQuestion;
       DeleteQuestion]
      (fetchQuestions Sample.props_draft (fun _ => None)
         (FetchOk (Some {| api_questions :=
            Some [ {| api_id := 5; api_type := objective;
                      api_blocks := Some (Sample.says "What is 2 + 2?");
                      api_answer := Some (Sample.says "4");
                      api_input_type := None; api_response_type := chat;
                      api_scorecard_id := None; api_context := None;
                      api_coding_languages := None |} ] |}))
         [] (initialState Sample.languages))) as [s2|] eqn:Hrun;
    [|vm_compute in Hrun; discriminate Hrun].
  exists s2. split; [reflexivity|].
  destruct (handleCancel_restores_loaded_questions Sample.props_draft
              Sample.languages (fun _ => None) [] "42" _ _ _
              (initialState Sample.languages) s2 eq_refl eq_refl Hrun)
    as [_ H].
  rewrite H. reflexivity.
Defined.

(** X16: [handleCancel] puts back the snapshot but not the pointer.
    After a question is added to a session that still equals its
    snapshot, cancelling restores the questions and leaves the pointer
    one past the last of them: it points at nothing, the editor falls
    back to the default config, and deleting a scorecard would throw. *)
Theorem handleCancel_leaves_pointer
        (props : Props) (now : nat) (s : EditorState) :
  originalQuestionsRef s = questions s ->
  questions s <> [] ->
  let s' := handleCancel (addQuestion props now s) in
  questions s' = questions s
  /\ currentQuestionIndex s' = length (questions s')
  /\ questions s' !! currentQuestionIndex s' = None
  /\ ~ consistent s'
  /\ currentQuestionConfig s' = defaultQuestionConfig
  /\ removeScorecardFromSchoolScoreboards props s' = None.
Proof.
  intros Hsnap Hne s'.
  destruct (addQuestion_state props now s) as (q & Hq & Hi & _ & Ho).
  assert (Hqs : questions s' = questions s).
  { subst s'. unfold handleCancel. rewrite Ho, Hsnap.
    destruct (questions s) as [|q0 qs] eqn:E; [congruence|]. reflexivity. }
  assert (Hidx : currentQuestionIndex s' = length (questions s)).
  { subst s'. unfold handleCancel. rewrite Ho, Hsnap.
    destruct (questions s) as [|q0 qs] eqn:E; [congruence|]. exact Hi. }
  assert (Hnone : questions s' !! currentQuestionIndex s' = None).
  { rewrite Hidx, Hqs. apply lookup_ge_None. lia. }
  split; [exact Hqs|]. split; [congruence|]. split; [exact Hnone|].
  split; [|split].
  - intros [[Hnil _]|Hlt]; [congruence|]. rewrite Hidx, Hqs in Hlt. lia.
  - unfold currentQuestionConfig. rewrite Hnone. reflexivity.
  - unfold removeScorecardFromSchoolScoreboards. rewrite Hnone. reflexivity.
Qed.

Lemma handleCancel_leaves_pointer_witness :
  currentQuestionIndex
    (handleCancel
       (addQuestion Sample.props_draft 7
          (setOriginalQuestionsRef [Sample.q_objective]
             (Sample.session [Sample.q_objective] 0 tab_question)))) = 1.
Proof.
  destruct (handleCancel_leaves_pointer Sample.props_draft 7
              (setOriginalQuestionsRef [Sample.q_objective]
                 (Sample.session [Sample.q_objective] 0 tab_question))
              eq_refl) as (Hq & Hi & _).
  - discriminate.
  - rewrite Hi, Hq. reflexivity.
Defined.

(** X17: [deleteQuestion] never touches the active tab, the highlight
    or the pool.  So when the question that comes under the pointer does
    not admit the tab that was open (the scorecard tab on a question
    that is not subjective, the answer tab on a subjective one), the
    session is left with a tab that does not suit its question. *)
Theorem deleteQuestion_keeps_tab (props : Props) (s : EditorState) :
  let s' := deleteQuestion props s in
  activeEditorTab s' = activeEditorTab s
  /\ highlightedField s' = highlightedField s
  /\ schoolScorecards s' = schoolScorecards s
  /\ (forall q',
        questions s' !! currentQuestionIndex s' = Some q' ->
        Spec.tab_valid_for (activeEditorTab s) (questionType (config q'))
        = false ->
        ~ Spec.well_formed s').
Proof.
  intros s'.
  assert (H : activeEditorTab s' = activeEditorTab s
              /\ highlightedField s' = highlightedField s
              /\ schoolScorecards s' = schoolScorecards s).
  { subst s'. unfold deleteQuestion, notifyChange.
    repeat match goal with |- context [if ?b then _ else _] =>
                             destruct b end; simpl; auto. }
  destruct H as (Ht & Hh & Hp). repeat (split; [assumption|]).
  intros q' Hq' Hbad (q & Hq & Hok).
  rewrite Ht in Hok. congruence.
Qed.

Lemma deleteQuestion_keeps_tab_witness :
  let s' := deleteQuestion Sample.props_draft
              (Sample.session [Sample.q_owner; Sample.q_objective] 0
                              tab_scorecard) in
  questions s' = [Sample.q_objective]
  /\ activeEditorTab s' = tab_scorecard
  /\ ~ Spec.well_formed s'.
Proof.
  split; [reflexivity|]. split; [reflexivity|].
  apply (proj2 (proj2 (proj2 (deleteQuestion_keeps_tab Sample.props_draft
                 (Sample.session [Sample.q_owner; Sample.q_objective] 0
                                 tab_scorecard)))) Sample.q_objective);
    reflexivity.
Defined.

(** X18: changing the type of the current question leaves a session
    whose tab suits its question, and changes nothing of the question
    but its type, response type, answer type and, in a pristine draft,
    its content: the correct answer, the scorecard, the languages and the
    knowledge base all stay, so a question turned from subjective to
    objective still carries, and publishes, its scorecard.  The answer
    type becomes text for a coding question and stays otherwise. *)
Theorem handleQuestionTypeChange_keeps_the_rest
        (props : Props) (ty : QuestionType) (taskType : TaskType)
        (s : EditorState) (q : QuizQuestion) :
  questions s !! currentQuestionIndex s = Some q ->
  exists s' q',
    handleQuestionTypeChange props (inl ty) s = Some s'
    /\ questions s' !! currentQuestionIndex s' = Some q'
    /\ Spec.well_formed s'
    /\ selectedQuestionType s' = ty
    /\ q_id q' = q_id q
    /\ correctAnswer (config q') = correctAnswer (config q)
    /\ scorecardData (config q') = scorecardData (config q)
    /\ codingLanguages (config q') = codingLanguages (config q)
    /\ knowledgeBaseBlocks (config q') = knowledgeBaseBlocks (config q)
    /\ linkedMaterialIds (config q') = linkedMaterialIds (config q)
    /\ inputType (config q') =
       match ty with coding => text_input | _ => inputType (config q) end
    /\ pub_scorecard (formatQuestionForPublish taskType q')
       = pub_scorecard (formatQuestionForPublish taskType q)
    /\ pub_scorecard_id (formatQuestionForPublish taskType q')
       = pub_scorecard_id (formatQuestionForPublish taskType q)
    /\ schoolScorecards s' = schoolScorecards s.
Proof.
  intros Hq. unfold handleQuestionTypeChange.
  rewrite (handleConfigChange_in_range props _ _ _ q) by exact Hq.
  pose proof (lookup_lt_Some _ _ _ Hq) as Hlt.
  unfold currentQuestionConfig. rewrite Hq.
  eexists. eexists. split; [reflexivity|].
  unfold notifyChange, refreshTemplate, Spec.well_formed,
    formatQuestionForPublish.
  destruct (onChange props); simpl;
    (split; [apply list_lookup_insert_eq; exact Hlt|]);
    (split; [eexists; split;
             [apply list_lookup_insert_eq; exact Hlt | reflexivity]|]);
    destruct (Status_eqb (status props) draft),
             (existsb has_id (content q)), ty; simpl; auto 14.
Qed.

Lemma handleQuestionTypeChange_keeps_the_rest_witness :
  exists s' q',
    handleQuestionTypeChange Sample.props_draft (inl objective)
      (Sample.session [Sample.q_owner] 0 tab_scorecard) = Some s'
    /\ questions s' !! 0 = Some q'
    /\ questionType (config q') = objective
    /\ scorecardData (config q') = Some (Sample.rubric (StrId "sc-1") true).
Proof.
  destruct (handleQuestionTypeChange_keeps_the_rest Sample.props_draft
              objective quiz
              (Sample.session [Sample.q_owner] 0 tab_scorecard)
              Sample.q_owner eq_refl)
    as (s' & q' & Hs & Hq & _ & _ & _ & _ & Hsc & _).
  exists s', q'. split; [exact Hs|].
  vm_compute in Hs. injection Hs as <-.
  vm_compute in Hq. injection Hq as <-.
  repeat split.
Defined.

(** ** Languages and the parent's question id *)

Lemma validateLanguageSelection_non_empty
      (table selection : list DropdownOption) :
  selection <> [] -> fst (validateLanguageSelection table selection) <> [].
Proof.
  intros Hne. unfold validateLanguageSelection.
  destruct (last (List.filter is_exclusive selection)).
  - destruct (1 <? length selection)%nat; simpl; [discriminate | exact Hne].
  - destruct (has_value "css" selection && negb (has_value "html" selection));
      [|exact Hne].
    destruct (List.find _ table); simpl; [|exact Hne].
    destruct selection; discriminate.
Qed.

(** X19: after the languages of the current question are chosen,
    [hasCodingLanguages] and the language check of the validation agree
    with the choice: for a coding question they hold exactly when the
    selection was not empty, since the exclusivity rule never empties a
    selection; for any other question [hasCodingLanguages] holds
    anyway. *)
Theorem hasCodingLanguages_after_choice
        (props : Props) (table selection : list DropdownOption)
        (s : EditorState) (q : QuizQuestion) :
  questions s !! currentQuestionIndex s = Some q ->
  exists s' q',
    handleCodingLanguageChange props table (inr selection) s = Some s'
    /\ questions s' !! currentQuestionIndex s' = Some q'
    /\ questionType (config q') = questionType (config q)
    /\ hasCodingLanguages s' =
       match questionType (config q), selection with
       | coding, [] => false
       | _, _ => true
       end
    /\ (questionType (config q) = coding ->
        fst (checkCodingLanguages props (currentQuestionIndex s') q' s')
        = hasCodingLanguages s').
Proof.
  intros Hq. unfold handleCodingLanguageChange.
  pose proof (validateLanguageSelection_non_empty table selection) as Hne.
  destruct (validateLanguageSelection table selection) as [stored message]
    eqn:Hv.
  simpl in Hne.
  rewrite (handleConfigChange_in_range props _ _ _ q) by exact Hq.
  pose proof (lookup_lt_Some _ _ _ Hq) as Hlt.
  assert (Hstored : selection = [] -> stored = []).
  { intros ->. vm_compute in Hv. congruence. }
  eexists. eexists. split; [reflexivity|].
  unfold notifyChange, hasCodingLanguages, checkCodingLanguages.
  destruct (JS.is_empty message), (onChange props); simpl;
    rewrite list_lookup_insert_eq by exact Hlt; simpl;
    (split; [reflexivity|]); (split; [reflexivity|]);
    (assert (Hshape : match map opt_value stored with
                      | [] => false
                      | _ :: _ => true
                      end
                      = match selection with [] => false | _ :: _ => true end)
      by (destruct selection as [|o sel];
          [rewrite (Hstored eq_refl); reflexivity
          |destruct stored as [|v vs];
           [exfalso; apply Hne; congruence | reflexivity]]));
    (split;
     [destruct (questionType (config q)); try reflexivity;
      rewrite Hshape; destruct selection; reflexivity
     |intros Hc; simpl; rewrite ?Hc; simpl;
      destruct (map opt_value stored); simpl; rewrite ?Hc; reflexivity]).
Qed.

Lemma hasCodingLanguages_after_choice_witness :
  exists s',
    handleCodingLanguageChange Sample.props_draft Sample.languages
      (inr [Sample.lang "css" "CSS"])
      (Sample.session [Sample.q_coding] 0 tab_question) = Some s'
    /\ hasCodingLanguages s' = true.
Proof.
  destruct (hasCodingLanguages_after_choice Sample.props_draft
              Sample.languages [Sample.lang "css" "CSS"]
              (Sample.session [Sample.q_coding] 0 tab_question)
              Sample.q_coding eq_refl)
    as (s' & q' & Hs & _ & _ & Hh & _).
  exists s'. split; [exact Hs | exact Hh].
Defined.

(** X20: when the parent names a question by a non-empty id, the pointer
    goes to the first question with that id, and nothing else changes;
    when no question has the id, or no id or the empty id is given, the
    session stays as it is. *)
Theorem syncCurrentQuestionId_finds_first (id : string) (s : EditorState) :
  id <> "" ->
  let s' := syncCurrentQuestionId (Some id) s in
  questions s' = questions s
  /\ activeEditorTab s' = activeEditorTab s
  /\ (forall n q,
        questions s !! n = Some q ->
        q_id q = id ->
        Forall (fun x => q_id x <> id) (take n (questions s)) ->
        currentQuestionIndex s' = n)
  /\ (Forall (fun x => q_id x <> id) (questions s) -> s' = s)
  /\ syncCurrentQuestionId None s = s
  /\ syncCurrentQuestionId (Some "") s = s.
Proof.
  intros Hid s'. subst s'. unfold syncCurrentQuestionId.
  rewrite (is_empty_false id Hid).
  destruct (questions s) as [|q0 qs] eqn:Hqs.
  - split; [exact Hqs|]. split; [reflexivity|].
    split; [intros n q Hn; destruct n; discriminate|]. auto.
  - destruct (findIndex (fun q => q_id q =? id) (q0 :: qs)) as [m|] eqn:Hm.
    + simpl. split; [exact Hqs|]. split; [reflexivity|].
      destruct (findIndex_lt _ _ _ Hm) as (x & Hx & Hpx & Hpre).
      apply String.eqb_eq in Hpx.
      split; [|split; [|auto]].
      * intros n q Hn Hq Hbefore.
        destruct (Nat.lt_trichotomy m n) as [Hlt|[Heq|Hgt]]; [|auto|].
        -- exfalso. rewrite List.Forall_forall in Hbefore.
           apply (Hbefore x); [|exact Hpx].
           apply list_elem_of_In. apply list_elem_of_lookup.
           exists m. rewrite lookup_take_lt by exact Hlt. exact Hx.
        -- exfalso. rewrite List.Forall_forall in Hpre.
           assert (Hin : In q (take m (q0 :: qs))).
           { apply list_elem_of_In. apply list_elem_of_lookup.
             exists n. rewrite lookup_take_lt by exact Hgt. exact Hn. }
           apply Hpre in Hin. apply String.eqb_eq in Hq. congruence.
      * intros Hall. exfalso. rewrite List.Forall_forall in Hall.
        apply (Hall x); [|exact Hpx].
        apply list_elem_of_In. apply list_elem_of_lookup. eauto.
    + split; [exact Hqs|]. split; [reflexivity|]. split; [|auto].
      intros n q Hn Hq _. exfalso.
      assert (Hsome : exists m, findIndex (fun q => q_id q =? id) (q0 :: qs)
                                = Some m).
      { clear Hm Hqs. revert n Hn.
        generalize (q0 :: qs) as l. induction l as [|y l IH]; intros n Hn.
        - destruct n; discriminate.
        - simpl. destruct (q_id y =? id) eqn:Hy; [eauto|].
          destruct n as [|n]; simpl in Hn.
          + injection Hn as ->. apply String.eqb_neq in Hy. contradiction.
          + destruct (IH n Hn) as [m' Hm']. rewrite Hm'. simpl. eauto. }
      destruct Hsome as [m' Hm']. congruence.
Qed.

Lemma syncCurrentQuestionId_finds_first_witness :
  currentQuestionIndex
    (syncCurrentQuestionId (Some "q-3")
       (Sample.session [Sample.q_objective; Sample.q_owner; Sample.q_linked]
                       0 tab_question)) = 1.
Proof.
  destruct (syncCurrentQuestionId_finds_first "q-3"
              (Sample.session
                 [Sample.q_objective; Sample.q_owner; Sample.q_linked]
                 0 tab_question)) as (_ & _ & H & _).
  - discriminate.
  - apply (H 1 Sample.q_owner); [reflexivity | reflexivity |].
    repeat constructor. discriminate.
Defined.

(** ** The audio recorder *)

Lemma decimal_of_nat (n : nat) :
  option_map Nat.of_uint (DecimalString.NilEmpty.uint_of_string (JS.of_nat n))
  = Some n.
Proof.
  unfold JS.of_nat. rewrite DecimalString.NilEmpty.usu. simpl.
  f_equal. apply DecimalNat.Unsigned.of_to.
Qed.

Lemma decimal_padStart2 (n : nat) :
  option_map Nat.of_uint
    (DecimalString.NilEmpty.uint_of_string
       (Recorder.padStart2 (JS.of_nat n))) = Some n.
Proof.
  pose proof (decimal_of_nat n) as H. unfold Recorder.padStart2.
  destruct (JS.of_nat n) as [|c [|d r]] eqn:E; simpl String.length; cbv iota.
  - simpl in H. exact H.
  - change ("0" ^^ String c "") with (String "0" (String c "")).
    cbn [DecimalString.NilEmpty.uint_of_string] in *.
    destruct (DecimalString.uint_of_char c (Some Decimal.Nil)) as [u|];
      [|discriminate H].
    simpl in *. exact H.
  - exact H.
Qed.

Lemma append_inj_same_length (a b c d : string) :
  String.length a = String.length b -> a ^^ c = b ^^ d -> a = b /\ c = d.
Proof.
  revert b. induction a as [|x a IH]; intros [|y b] Hl H; simpl in *;
    try discriminate.
  - auto.
  - injection H as -> H. injection Hl as Hl.
    destruct (IH b Hl H) as [-> ->]. auto.
Qed.

Lemma string_length_append (a b : string) :
  String.length (a ^^ b) = String.length a + String.length b.
Proof.
  induction a as [|x a IH]; simpl; [reflexivity|]. rewrite IH. reflexivity.
Qed.

Lemma padStart2_two_digits (n : nat) :
  n < 100 -> String.length (Recorder.padStart2 (JS.of_nat n)) = 2.
Proof.
  intros Hn.
  assert (Hall : forallb
                   (fun k => String.length (Recorder.padStart2 (JS.of_nat k))
                             =? 2)%nat
                   (seq 0 100) = true) by (vm_compute; reflexivity).
  rewrite forallb_forall in Hall.
  apply Nat.eqb_eq. apply Hall. apply in_seq. lia.
Qed.

(** X21: the recorder's clock never shows the same text for two
    different counts of seconds, and below one hundred minutes the text
    has five characters with the colon in the middle. *)
Theorem formatTime_shape :
  (forall a b, Recorder.formatTime a = Recorder.formatTime b -> a = b)
  /\ (forall n, n < 100 * 60 ->
        String.length (Recorder.formatTime n) = 5
        /\ String.get 2 (Recorder.formatTime n) = Some ":"%char).
Proof.
  split.
  - intros a b H. unfold Recorder.formatTime in H.
    assert (Hsec : forall n,
               String.length (Recorder.padStart2 (JS.of_nat (n mod 60))) = 2).
    { intros n. apply padStart2_two_digits.
      pose proof (Nat.mod_upper_bound n 60). lia. }
    assert (Hlen : String.length (Recorder.padStart2 (JS.of_nat (a / 60)))
                   = String.length (Recorder.padStart2 (JS.of_nat (b / 60)))).
    { pose proof (f_equal String.length H) as Hl.
      rewrite !string_length_append, !Hsec in Hl. lia. }
    destruct (append_inj_same_length _ _ _ _ Hlen H) as [Hmin Hrest].
    injection Hrest as Hsecs.
    apply (f_equal (fun t => option_map Nat.of_uint
                               (DecimalString.NilEmpty.uint_of_string t)))
      in Hmin, Hsecs.
    rewrite !decimal_padStart2 in Hmin, Hsecs.
    assert (Hm : a / 60 = b / 60) by congruence.
    assert (Hs : a mod 60 = b mod 60) by (injection Hsecs; auto).
    rewrite (Nat.div_mod_eq a 60), (Nat.div_mod_eq b 60), Hm, Hs.
    reflexivity.
  - intros n Hn. unfold Recorder.formatTime.
    assert (Hmin : String.length (Recorder.padStart2 (JS.of_nat (n / 60)))
                   = 2).
    { apply padStart2_two_digits. apply Nat.Div0.div_lt_upper_bound. lia. }
    assert (Hsec : String.length (Recorder.padStart2 (JS.of_nat (n mod 60)))
                   = 2).
    { apply padStart2_two_digits.
      pose proof (Nat.mod_upper_bound n 60). lia. }
    split.
    + rewrite !string_length_append, Hmin, Hsec. reflexivity.
    + destruct (Recorder.padStart2 (JS.of_nat (n / 60)))
        as [|c1 [|c2 [|c3 r]]]; try discriminate Hmin.
      reflexivity.
Qed.

(** X22: [uploadFile] answers the empty address without any request for
    a file that is no image, audio or video.  For a media file it makes
    exactly two requests: for the presigned address, and then either the
    upload to that address, when a non-empty one came back, or the upload
    to the backend; a failure of the first request is never fatal, and it
    throws exactly when the second request fails. *)
Theorem uploadFile_two_requests
        (backend : string) (file : Recorder.File)
        (presigned : FetchResult (option string))
        (local put : FetchResult string) :
  let result := fst (Recorder.uploadFile backend file presigned local put) in
  let log := snd (Recorder.uploadFile backend file presigned local put) in
  if Recorder.is_media_type (Recorder.file_type file) then
    exists second,
      List.filter Recorder.is_request log
      = [Recorder.RequestPresignedUrl (Recorder.file_type file); second]
      /\ ((second = Recorder.RequestUploadLocal (Recorder.file_name file)
                      (Recorder.file_type file)
           /\ (forall url, presigned = FetchOk (Some url) -> url = "")
           /\ (result = Recorder.Thrown <-> local = FetchFailed)
           /\ (forall path, local = FetchOk path ->
                 result = Recorder.Returned (backend ^^ path)))
          \/ (exists url,
                second = Recorder.RequestPut url (Recorder.file_type file)
                /\ presigned = FetchOk (Some url) /\ url <> ""
                /\ (result = Recorder.Thrown <-> put = FetchFailed)
                /\ (forall address, put = FetchOk address ->
                      result = Recorder.Returned address)))
  else result = Recorder.Returned "" /\ log = [].
Proof.
  unfold Recorder.uploadFile.
  destruct (Recorder.is_media_type (Recorder.file_type file)); simpl;
    [|auto].
  destruct presigned as [|[url|]].
  - destruct local; simpl; eexists; (split; [reflexivity|]); left;
      (split; [reflexivity|]); (split; [congruence|]);
      (split; [split; congruence | congruence]).
  - destruct (JS.is_empty url) eqn:He.
    + apply is_empty_true in He. subst url.
      destruct local; simpl; eexists; (split; [reflexivity|]); left;
        (split; [reflexivity|]); (split; [congruence|]);
        (split; [split; congruence | congruence]).
    + assert (Hne : url <> "") by (intros ->; discriminate He).
      destruct put; simpl; rewrite ?He; simpl;
        eexists; (split; [reflexivity|]); right; exists url;
        (split; [reflexivity|]); (split; [reflexivity|]);
        (split; [exact Hne|]);
        (split; [split; congruence | congruence]).
  - destruct local; simpl; eexists; (split; [reflexivity|]); left;
      (split; [reflexivity|]); (split; [congruence|]);
      (split; [split; congruence | congruence]).
Qed.

(** X23: without a recorded file [handleUpload] does nothing.  With one
    it always ends with the uploading flag cleared and exactly one
    alert, the last thing it does: the success alert when [uploadFile]
    returned, the failure alert when it threw.  The success callback
    is called exactly when it was passed and [uploadFile] returned, with
    the returned address; so for a file that is no media the success is
    announced, with the empty address, though nothing was sent. *)
Theorem handleUpload_always_finishes
        (onUploadSuccess : bool) (backend : string)
        (presigned : FetchResult (option string))
        (local put : FetchResult string) (st : Recorder.State) :
  let st' := fst (Recorder.handleUpload onUploadSuccess backend presigned
                    local put st) in
  let log := snd (Recorder.handleUpload onUploadSuccess backend presigned
                    local put st) in
  match Recorder.audioFileRef st with
  | None => st' = st /\ log = []
  | Some file =>
      let result :=
        fst (Recorder.uploadFile backend file presigned local put) in
      Recorder.isUploading st' = false
      /\ Recorder.audioFileRef st' = Some file
      /\ length (List.filter Recorder.is_alert log) = 1
      /\ last log
         = Some (Recorder.Alert
                   match result with
                   | Recorder.Returned _ => "Audio uploaded successfully!"
                   | Recorder.Thrown => "Failed to upload audio."
                   end)
      /\ (forall address,
            In (Recorder.OnUploadSuccess address) log
            <-> onUploadSuccess = true
                /\ result = Recorder.Returned address)
      /\ (Recorder.is_media_type (Recorder.file_type file) = false ->
          List.filter Recorder.is_request log = []
          /\ result = Recorder.Returned "")
  end.
Proof.
  unfold Recorder.handleUpload.
  destruct (Recorder.audioFileRef st) as [file|] eqn:Hfile; [|auto].
  unfold Recorder.uploadFile.
  destruct (Recorder.is_media_type (Recorder.file_type file)).
  - destruct presigned as [|[url|]];
      [|destruct (JS.is_empty url)|];
      destruct local, put, onUploadSuccess; simpl;
      (split; [reflexivity|]); (split; [reflexivity|]);
      (split; [reflexivity|]); (split; [reflexivity|]);
      (split; [|discriminate]);
      intros address; split;
      try (intros [Hin Hout]; try discriminate Hin; try discriminate Hout;
           injection Hout as ->; simpl; tauto);
      intros Hin;
      repeat (destruct Hin as [Hin|Hin]; try discriminate Hin);
      try contradiction;
      injection Hin as ->; auto.
  - destruct onUploadSuccess; simpl;
      (split; [reflexivity|]); (split; [reflexivity|]);
      (split; [reflexivity|]); (split; [reflexivity|]);
      (split; [|auto]);
      intros address; split;
      try (intros [Hin Hout]; try discriminate Hin;
           injection Hout as <-; simpl; tauto);
      intros Hin;
      repeat (destruct Hin as [Hin|Hin]; try discriminate Hin);
      try contradiction;
      injection Hin as <-; auto.
Qed.

(** ** The authentication callbacks *)

(** X24: at a sign-in the [jwt] callback always takes the two tokens of
    the account.  When the provider is google and the backend answers
    with a truthy id, that id is stored and the [session] callback then
    shows it as a string in [session.user.id]; when the provider is
    another one, or the backend throws or answers without a truthy id,
    the sign-in still goes through with the user id the token had.  A
    later call without an account leaves the token as it is, and a
    session without a user is returned as it is. *)
Theorem jwt_then_session
        (token : Auth.Token) (acc : Auth.Account)
        (backend : Auth.BackendAnswer) (sess : Auth.Session)
        (u : Auth.SessionUser) :
  Auth.session_user sess = Some u ->
  let token' := Auth.jwt token true (Some acc) backend in
  let sess' := Auth.session sess token' in
  Auth.accessToken token' = Auth.access_token acc
  /\ Auth.idToken token' = Auth.id_token acc
  /\ (forall id,
        Auth.provider acc = "google" ->
        backend = Auth.BackendReturns (Some (Some id)) ->
        Auth.truthy_id (Some id) = true ->
        Auth.userId token' = Some id
        /\ exists u', Auth.session_user sess' = Some u'
                      /\ Auth.user_id u' = Some (Auth.toString id)
                      /\ Auth.user_email u' = Auth.user_email u)
  /\ ((Auth.provider acc <> "google"
       \/ backend = Auth.BackendThrows
       \/ backend = Auth.BackendReturns None
       \/ (exists id, backend = Auth.BackendReturns (Some id)
                      /\ Auth.truthy_id id = false)) ->
      Auth.userId token' = Auth.userId token)
  /\ (Auth.truthy_id (Auth.userId token') = false ->
      Auth.session_user sess' = Some u)
  /\ Auth.session_accessToken sess'
     = (if Auth.truthy_string (Auth.access_token acc)
        then Auth.access_token acc else Auth.session_accessToken sess)
  /\ (forall user later, Auth.jwt token' user None later = token')
  /\ (forall later, Auth.jwt token' false (Some acc) later = token')
  /\ Auth.session {| Auth.session_user := None;
                     Auth.session_accessToken :=
                       Auth.session_accessToken sess |} token'
     = {| Auth.session_user := None;
          Auth.session_accessToken := Auth.session_accessToken sess |}.
Proof.
  intros Hu token' sess'.
  assert (Ha : Auth.accessToken token' = Auth.access_token acc).
  { subst token'. unfold Auth.jwt.
    destruct (Auth.provider acc =? "google"); [|reflexivity].
    destruct backend as [|[id|]]; try reflexivity.
    destruct (Auth.truthy_id id); reflexivity. }
  split; [exact Ha|].
  split.
  { subst token'. unfold Auth.jwt.
    destruct (Auth.provider acc =? "google"); [|reflexivity].
    destruct backend as [|[id|]]; try reflexivity.
    destruct (Auth.truthy_id id); reflexivity. }
  split.
  { intros id Hp -> Ht.
    assert (Hid : Auth.userId token' = Some id).
    { subst token'. unfold Auth.jwt. rewrite Hp, Ht. reflexivity. }
    split; [exact Hid|].
    subst sess'. unfold Auth.session. rewrite Hu, Hid, Ht. simpl.
    eexists. split; [reflexivity|]. simpl. auto. }
  split.
  { intros Hcase. subst token'. unfold Auth.jwt.
    destruct (Auth.provider acc =? "google") eqn:Hp; [|reflexivity].
    destruct Hcase as [Hn | [-> | [-> | (id & -> & Hf)]]];
      try reflexivity.
    - apply String.eqb_eq in Hp. contradiction.
    - rewrite Hf. reflexivity. }
  split.
  { intros Hf. subst sess'. unfold Auth.session. rewrite Hu, Hf.
    reflexivity. }
  split.
  { subst sess'. unfold Auth.session. rewrite Hu, Ha. reflexivity. }
  split; [reflexivity|]. split; reflexivity.
Qed.

Lemma jwt_then_session_witness :
  exists u',
    Auth.session_user
      (Auth.session
         {| Auth.session_user :=
              Some {| Auth.user_id := None;
                      Auth.user_email := Some "a@b.c" |};
            Auth.session_accessToken := None |}
         (Auth.jwt {| Auth.accessToken := None; Auth.idToken := None;
                      Auth.userId := None |}
                   true
                   (Some {| Auth.provider := "google";
                            Auth.access_token := Some "at";
                            Auth.id_token := Some "it" |})
                   (Auth.BackendReturns (Some (Some (Auth.IdNumber 42))))))
    = Some u'
    /\ Auth.user_id u' = Some "42".
Proof.
  destruct (jwt_then_session
              {| Auth.accessToken := None; Auth.idToken := None;
                 Auth.userId := None |}
              {| Auth.provider := "google";
                 Auth.access_token := Some "at";
                 Auth.id_token := Some "it" |}
              (Auth.BackendReturns (Some (Some (Auth.IdNumber 42))))
              {| Auth.session_user :=
                   Some {| Auth.user_id := None;
                           Auth.user_email := Some "a@b.c" |};
                 Auth.session_accessToken := None |}
              {| Auth.user_id := None; Auth.user_email := Some "a@b.c" |}
              eq_refl) as (_ & _ & H & _).
  destruct (H (Auth.IdNumber 42) eq_refl eq_refl eq_refl)
    as (_ & u' & Hs & Hi & _).
  exists u'. split; [exact Hs | exact Hi].
Defined.
